(** * taskmaster-pro: the task store and the dashboard metrics

    A shallow embedding of [services/taskService.ts] (the CRUD layer over
    [localStorage]) and of the aggregation code of
    [components/Dashboard.tsx], together with the part of the JavaScript
    runtime they rely on: string splitting and comparison, [Number] on
    digit strings, and the ECMAScript time-value arithmetic behind [Date].

    - [Js]: numbers, strings, time values, time zones and [Date]
      methods.
    - [Runtime]: [localStorage], the console, the clock and the id
      generator, and the state-and-exception monad of the program.
    - [Types], [TaskService], [Dashboard]: the program.
    - [App], [Chart], [PieShape]: the handlers and effects of [App.tsx],
      and the helpers of the SVG chart and of the conic gradient.
    - [Runs], [Examples], [MoreExamples]: sequences of calls, and concrete
      inputs.

    The properties follow: facts about the JavaScript values, the store
    (C1, C2, C5, C6, C7, C8, C10), the dashboard figures (C3, C9) and the
    trend (C4); then how the store operations compose (X2-X7), the
    application state, theme and navigation (X8-X13), more about the
    figures, the trend, the chart and the pie (X14-X20), and what a
    change of the zone's offset does to the results that are stated for
    a zone with one offset. *)

From Stdlib Require Import ZArith String Ascii List Lia QArith.
From stdpp Require Import base tactics option list strings gmap.
From Stdlib Require Import Lqa.

Local Open Scope string_scope.
Local Open Scope Z_scope.

(** ** JavaScript values used by the program *)

Module Js.

(** A JavaScript number, as far as the program needs it: an integer or
    [NaN].  The time values, date fields and counters of the two source
    files are integers below 2^53 or [NaN]; the percentages of the pie
    are treated apart, as rationals. *)
Inductive number : Type :=
| Int (z : Z)
| NaN.

Definition num_add (a b : number) : number :=
  match a, b with
  | Int x, Int y => Int (x + y)
  | _, _ => NaN
  end.

Definition num_sub (a b : number) : number :=
  match a, b with
  | Int x, Int y => Int (x - y)
  | _, _ => NaN
  end.

(** *** Strings *)

Definition is_digit (c : ascii) : bool :=
  let n := nat_of_ascii c in ((48 <=? n) && (n <=? 57))%nat.

Definition digit_val (c : ascii) : Z := Z.of_nat (nat_of_ascii c) - 48.

Fixpoint digits_val (acc : Z) (s : string) : option Z :=
  match s with
  | EmptyString => Some acc
  | String c r =>
      if is_digit c then digits_val (10 * acc + digit_val c) r else None
  end.

(** [Number(s)].  Exact on strings of decimal digits, the empty string
    included ([Number("") = 0]).  A string with any other character is
    [NaN] here: the other numeric syntaxes of JavaScript (surrounding
    white space, sign, fraction, exponent, radix prefix, [Infinity]) are
    outside this embedding, and the results below that depend on [Number]
    are stated for digit fields. *)
Definition Number (s : string) : number :=
  match digits_val 0 s with
  | Some z => Int z
  | None => NaN
  end.

(** [s.split(sep)] for a one-character separator. *)
Fixpoint split (sep : ascii) (s : string) : list string :=
  match s with
  | EmptyString => [EmptyString]
  | String c r =>
      if Ascii.eqb c sep then EmptyString :: split sep r
      else match split sep r with
           | [] => [String c EmptyString]
           | w :: ws => String c w :: ws
           end
  end.

(** The character [c] does not occur in [s]. *)
Fixpoint no_char (c : ascii) (s : string) : bool :=
  match s with
  | EmptyString => true
  | String x r => negb (Ascii.eqb x c) && no_char c r
  end.

(** Array destructuring [const [a, b, c] = xs.map(Number)]: a missing
    element is [undefined], which every later arithmetic use turns into
    [NaN]. *)
Definition elem (xs : list number) (i : nat) : number :=
  match xs !! i with
  | Some x => x
  | None => NaN
  end.

(** The digit string [acc] reads as [k] digits of value [m], after any
    prefix already read. *)
Definition reads_as (acc : string) (m k : Z) : Prop :=
  0 <= k /\ forall a, digits_val a acc = Some (a * 10 ^ k + m).

Definition digit_char (d : Z) : ascii := ascii_of_nat (Z.to_nat (48 + d)).

Fixpoint digits_go (fuel : nat) (n : Z) (acc : string) : string :=
  match fuel with
  | O => acc
  | S f =>
      let acc' := String (digit_char (n mod 10)) acc in
      if n <? 10 then acc' else digits_go f (n / 10) acc'
  end.

(** Decimal digits of a natural number, most significant first. *)
Definition digits (n : Z) : string :=
  digits_go (S (Z.to_nat (Z.log2 n))) n EmptyString.

(** [x.toString()] for a number. *)
Definition toString (x : number) : string :=
  match x with
  | Int z => if z <? 0 then String "-" (digits (- z)) else digits z
  | NaN => "NaN"
  end.

Fixpoint repeat_char (c : ascii) (n : nat) : string :=
  match n with
  | O => EmptyString
  | S k => String c (repeat_char c k)
  end.

(** [s.padStart(n, c)] for a one-character filler. *)
Definition padStart (n : nat) (c : ascii) (s : string) : string :=
  repeat_char c (n - String.length s) +:+ s.

(** Truthiness of a string: only the empty string is falsy. *)
Definition truthy (s : string) : bool :=
  match s with
  | EmptyString => false
  | _ => true
  end.

(** [a < b] on strings: lexicographic on character codes. *)
Definition str_lt (a b : string) : bool := String.ltb a b.

(** *** Time values (ECMAScript, "Time Values and Time Range") *)

Definition msPerDay : Z := 86400000.
Definition msPerHour : Z := 3600000.
Definition msPerMinute : Z := 60000.
Definition msPerSecond : Z := 1000.
Definition maxTime : Z := 8640000000000000.

Definition Day (t : Z) : Z := t / msPerDay.
Definition TimeWithinDay (t : Z) : Z := t mod msPerDay.

Definition leap (y : Z) : bool :=
  if negb (y mod 4 =? 0) then false
  else if negb (y mod 100 =? 0) then true
  else if negb (y mod 400 =? 0) then false
  else true.

Definition DaysInYear (y : Z) : Z := if leap y then 366 else 365.

Definition DayFromYear (y : Z) : Z :=
  365 * (y - 1970) + (y - 1969) / 4 - (y - 1901) / 100 + (y - 1601) / 400.

(** The year of a day number: the largest [y] with [DayFromYear y <= n].
    The estimate is off by at most one (lemma [YearFromDay_spec]). *)
Definition YearFromDay (n : Z) : Z :=
  let y0 := 1970 + (400 * n) / 146097 in
  if n <? DayFromYear y0 then y0 - 1
  else if DayFromYear (y0 + 1) <=? n then y0 + 1
  else y0.

Definition YearFromTime (t : Z) : Z := YearFromDay (Day t).
Definition InLeapYear (t : Z) : bool := leap (YearFromTime t).
Definition DayWithinYear (t : Z) : Z := Day t - DayFromYear (YearFromTime t).

(** Day within the year on which month [m] (0-11) starts. *)
Definition monthStart (m : Z) (lp : bool) : Z :=
  let L := if lp then 1 else 0 in
  match m with
  | 0 => 0
  | 1 => 31
  | 2 => 59 + L
  | 3 => 90 + L
  | 4 => 120 + L
  | 5 => 151 + L
  | 6 => 181 + L
  | 7 => 212 + L
  | 8 => 243 + L
  | 9 => 273 + L
  | 10 => 304 + L
  | _ => 334 + L
  end.

Definition monthOfDay (d : Z) (lp : bool) : Z :=
  let L := if lp then 1 else 0 in
  if d <? 31 then 0
  else if d <? 59 + L then 1
  else if d <? 90 + L then 2
  else if d <? 120 + L then 3
  else if d <? 151 + L then 4
  else if d <? 181 + L then 5
  else if d <? 212 + L then 6
  else if d <? 243 + L then 7
  else if d <? 273 + L then 8
  else if d <? 304 + L then 9
  else if d <? 334 + L then 10
  else 11.

Definition MonthFromTime (t : Z) : Z :=
  monthOfDay (DayWithinYear t) (InLeapYear t).

Definition DateFromTime (t : Z) : Z :=
  DayWithinYear t - monthStart (MonthFromTime t) (InLeapYear t) + 1.

Definition WeekDay (t : Z) : Z := (Day t + 4) mod 7.

Definition HourFromTime (t : Z) : Z := (t / msPerHour) mod 24.
Definition MinFromTime (t : Z) : Z := (t / msPerMinute) mod 60.
Definition SecFromTime (t : Z) : Z := (t / msPerSecond) mod 60.
Definition msFromTime (t : Z) : Z := t mod msPerSecond.

Definition MakeTime (h m s ms : Z) : Z :=
  h * msPerHour + m * msPerMinute + s * msPerSecond + ms.

(** [MakeDay(year, month, date)]: the day number of the first of the
    month, the month normalised into its year, plus [date - 1]. *)
Definition MakeDay (year month date : Z) : Z :=
  let ym := year + month / 12 in
  let mn := month mod 12 in
  DayFromYear ym + monthStart mn (leap ym) + date - 1.

Definition MakeDate (day time : Z) : Z := day * msPerDay + time.

(** A [Date] object's time value: [None] is the invalid date. *)
Definition Date : Type := option Z.

Definition TimeClip (t : Z) : Date :=
  if Z.abs t <=? maxTime then Some t else None.

(** Local time.  A zone is the [LocalTZA(t, isUTC)] of ECMAScript: the
    offset of local time from UTC, in milliseconds, that is in force at
    the time value [t], where [isUTC] tells whether [t] is a UTC time
    value or a local one. *)
Definition Zone : Type := Z -> bool -> Z.

(** The zone that keeps one offset throughout (no daylight-saving
    change).  An integer used as a zone stands for that zone. *)
Definition fixed_zone (offset : Z) : Zone := fun _ _ => offset.
Coercion fixed_zone : Z >-> Zone.

Definition LocalTime (tz : Zone) (t : Z) : Z := t + tz t true.
Definition UTC (tz : Zone) (t : Z) : Z := t - tz t false.

(** The zone keeps the offset [tz] at every time value from [lo] to [hi],
    UTC or local: no change of offset falls in between. *)
Definition steady (z : Zone) (tz lo hi : Z) : Prop :=
  forall u isUTC, lo <= u <= hi -> z u isUTC = tz.

(** *** [Date] objects

    A [Date] is mutable in the source; here a setter returns the new time
    value.  The copies the source makes ([new Date(now)]) keep the two
    objects apart, so no aliasing is lost. *)

(** [new Date(value)] for a number. *)
Definition new_Date_ms (v : number) : Date :=
  match v with
  | Int z => TimeClip z
  | NaN => None
  end.

(** [new Date(y, m, d)]: local midnight of the given day; a year from 0
    to 99 stands for 1900 + year. *)
Definition new_Date_ymd (tz : Zone) (y m d : number) : Date :=
  match y, m, d with
  | Int y, Int m, Int d =>
      let yr := if (0 <=? y) && (y <=? 99) then 1900 + y else y in
      TimeClip (UTC tz (MakeDate (MakeDay yr m d) (MakeTime 0 0 0 0)))
  | _, _, _ => None
  end.

Definition getDay (tz : Zone) (d : Date) : number :=
  match d with
  | Some t => Int (WeekDay (LocalTime tz t))
  | None => NaN
  end.

Definition getDate (tz : Zone) (d : Date) : number :=
  match d with
  | Some t => Int (DateFromTime (LocalTime tz t))
  | None => NaN
  end.

Definition getHours (tz : Zone) (d : Date) : number :=
  match d with
  | Some t => Int (HourFromTime (LocalTime tz t))
  | None => NaN
  end.

Definition getMinutes (tz : Zone) (d : Date) : number :=
  match d with
  | Some t => Int (MinFromTime (LocalTime tz t))
  | None => NaN
  end.

(** [d.setDate(dt)] *)
Definition setDate (tz : Zone) (d : Date) (dt : number) : Date :=
  match d, dt with
  | Some t, Int dt =>
      let t := LocalTime tz t in
      TimeClip (UTC tz (MakeDate (MakeDay (YearFromTime t) (MonthFromTime t) dt)
                                 (TimeWithinDay t)))
  | _, _ => None
  end.

(** [d.setHours(h, m, s, ms)] *)
Definition setHours4 (tz : Zone) (d : Date) (h m s ms : number) : Date :=
  match d, h, m, s, ms with
  | Some t, Int h, Int m, Int s, Int ms =>
      let t := LocalTime tz t in
      TimeClip (UTC tz (MakeDate (Day t) (MakeTime h m s ms)))
  | _, _, _, _, _ => None
  end.

(** [d.setHours(h)]: minutes, seconds and milliseconds are kept. *)
Definition setHours (tz : Zone) (d : Date) (h : number) : Date :=
  match d, h with
  | Some t, Int h =>
      let t := LocalTime tz t in
      TimeClip (UTC tz (MakeDate (Day t)
        (MakeTime h (MinFromTime t) (SecFromTime t) (msFromTime t))))
  | _, _ => None
  end.

(** [d.setMinutes(m)]: hours, seconds and milliseconds are kept. *)
Definition setMinutes (tz : Zone) (d : Date) (m : number) : Date :=
  match d, m with
  | Some t, Int m =>
      let t := LocalTime tz t in
      TimeClip (UTC tz (MakeDate (Day t)
        (MakeTime (HourFromTime t) m (SecFromTime t) (msFromTime t))))
  | _, _ => None
  end.

(** [a >= b] and [a <= b] on dates: on their time values, false as soon
    as one of them is invalid. *)
Definition date_ge (a b : Date) : bool :=
  match a, b with
  | Some x, Some y => y <=? x
  | _, _ => false
  end.

Definition date_le (a b : Date) : bool :=
  match a, b with
  | Some x, Some y => x <=? y
  | _, _ => false
  end.

(** Exceptions the two source files can meet. *)
Inductive exn : Type :=
| Error (msg : string)
| SyntaxError
| RangeError.

Inductive completion (A : Type) : Type :=
| Normal (a : A)
| Throw (e : exn).
Arguments Normal {A} a.
Arguments Throw {A} e.

Definition pad (n : nat) (z : Z) : string := padStart n "0" (digits z).

Definition isoYear (y : Z) : string :=
  if (0 <=? y) && (y <=? 9999) then pad 4 y
  else String (if y <? 0 then "-"%char else "+"%char) (pad 6 (Z.abs y)).

(** The date part [YYYY-MM-DD] of the ISO format of a time value. *)
Definition isoDatePart (t : Z) : string :=
  isoYear (YearFromTime t) +:+ "-" +:+ pad 2 (MonthFromTime t + 1)
    +:+ "-" +:+ pad 2 (DateFromTime t).

Definition isoTimePart (t : Z) : string :=
  pad 2 (HourFromTime t) +:+ ":" +:+ pad 2 (MinFromTime t) +:+ ":"
    +:+ pad 2 (SecFromTime t) +:+ "." +:+ pad 3 (msFromTime t) +:+ "Z".

(** The ISO format of a valid time value, in UTC. *)
Definition isoString (t : Z) : string :=
  isoDatePart t +:+ "T" +:+ isoTimePart t.

(** [d.toISOString()]: a [RangeError] on an invalid date. *)
Definition toISOString (d : Date) : completion string :=
  match d with
  | Some t => Normal (isoString t)
  | None => Throw RangeError
  end.

(** [s.split(sep)[0]] *)
Definition first_part (sep : ascii) (s : string) : string :=
  match split sep s with
  | x :: _ => x
  | [] => EmptyString
  end.

Definition monthShort (m : Z) : string :=
  match m with
  | 0 => "Jan" | 1 => "Feb" | 2 => "Mar" | 3 => "Apr" | 4 => "May"
  | 5 => "Jun" | 6 => "Jul" | 7 => "Aug" | 8 => "Sep" | 9 => "Oct"
  | 10 => "Nov" | _ => "Dec"
  end.

(** Readings of a clock set between 1970 and the end of the year 9999,
    and time-zone offsets of at most a day. *)
Definition plausible_clock (t : Z) : Prop := 0 <= t <= 253402300799999.
Definition plausible_zone (tz : Z) : Prop := - msPerDay <= tz <= msPerDay.

(** [d.toLocaleDateString('en-US', { month: 'short', day: 'numeric' })] *)
Definition toLocaleDateString_short (tz : Zone) (d : Date) : string :=
  match d with
  | Some t =>
      let t := LocalTime tz t in
      monthShort (MonthFromTime t) +:+ " " +:+ digits (DateFromTime t)
  | None => "Invalid Date"
  end.

End Js.

(** ** The runtime around the program: storage, console, clock, ids *)

Module Runtime.
Import Js.

(** What [localStorage] holds under a key.  The text written by
    [JSON.stringify(tasks)] is kept in parsed form, [Stringified tasks]:
    serialising a task collection and parsing it back is the identity on
    the fields of a task.  [Unparseable s] is a text [s] outside the JSON
    grammar, on which [JSON.parse] throws (the empty string, or the
    ["dark"]/["light"] of the theme key).  Valid JSON that is not an array
    of tasks is outside the model, as it is outside the type [Task[]]
    the source gives to the parsed value. *)
Inductive Item (T : Type) : Type :=
| Unparseable (s : string)
| Stringified (ts : list T).
Arguments Unparseable {T} s.
Arguments Stringified {T} ts.

(** The environment the program cannot control: the successive readings
    of the system clock ([Date.now()], [new Date()]), the successive
    results of [crypto.randomUUID()], and the local time zone. *)
Record Env : Type := mkEnv {
  clock : nat -> Z;
  uuid : nat -> string;
  LocalTZA : Zone
}.

Record World (T : Type) : Type := mkWorld {
  localStorage : gmap string (Item T);
  console : list string;
  clock_reads : nat;
  uuid_draws : nat
}.
Arguments mkWorld {T} _ _ _ _.
Arguments localStorage {T} _.
Arguments console {T} _.
Arguments clock_reads {T} _.
Arguments uuid_draws {T} _.

(** Computations of the program: a state over the world, ending normally
    or with a thrown exception. *)
Definition M (T A : Type) : Type := World T -> completion A * World T.

Definition ret {T A} (a : A) : M T A := fun w => (Normal a, w).

Definition bind {T A B} (m : M T A) (k : A -> M T B) : M T B :=
  fun w =>
    match m w with
    | (Normal a, w') => k a w'
    | (Throw e, w') => (Throw e, w')
    end.

Definition throw {T A} (e : exn) : M T A := fun w => (Throw e, w).

(** [try { body } catch (e) { handler }] *)
Definition try_catch {T A} (body : M T A) (handler : exn -> M T A) : M T A :=
  fun w =>
    match body w with
    | (Normal a, w') => (Normal a, w')
    | (Throw e, w') => handler e w'
    end.

Definition getItem {T} (key : string) : M T (option (Item T)) :=
  fun w => (Normal (localStorage w !! key), w).

(** [localStorage.setItem]; a write the browser refuses (quota) is not
    modelled. *)
Definition setItem {T} (key : string) (v : Item T) : M T unit :=
  fun w =>
    (Normal tt,
     mkWorld (<[key := v]> (localStorage w)) (console w)
             (clock_reads w) (uuid_draws w)).

Definition console_error {T} (msg : string) : M T unit :=
  fun w =>
    (Normal tt,
     mkWorld (localStorage w) (console w ++ [msg])%list
             (clock_reads w) (uuid_draws w)).

(** One reading of the system clock. *)
Definition Date_now {T} (env : Env) : M T Z :=
  fun w =>
    (Normal (clock env (clock_reads w)),
     mkWorld (localStorage w) (console w)
             (S (clock_reads w)) (uuid_draws w)).

(** [new Date()]: a date object holding one reading of the same clock. *)
Definition new_Date {T} (env : Env) : M T Date :=
  fun w =>
    (Normal (Some (clock env (clock_reads w))),
     mkWorld (localStorage w) (console w)
             (S (clock_reads w)) (uuid_draws w)).

Definition crypto_randomUUID {T} (env : Env) : M T string :=
  fun w =>
    (Normal (uuid env (uuid_draws w)),
     mkWorld (localStorage w) (console w)
             (clock_reads w) (S (uuid_draws w))).

End Runtime.

Notation "'do' x <- m ; k" := (Runtime.bind m (fun x => k))
  (at level 10, x name, m at level 100, k at level 200).

(** ** The task type *)

Module Types.

(** Modelled from the spec: the declarations of [types.ts] are not among
    the sources.  A subtask is opaque to the store and to the dashboard. *)
Definition Subtask : Type := string.

(** Modelled from the spec: the [TaskStatus] enumeration of [types.ts].
    At run time a status is a string, and a stored record can carry any
    string; the three members are taken with their names as values. *)
Definition TaskStatus : Type := string.
Definition NOT_STARTED : TaskStatus := "NOT_STARTED".
Definition IN_PROGRESS : TaskStatus := "IN_PROGRESS".
Definition COMPLETED : TaskStatus := "COMPLETED".

(** Membership in the enumeration, as a test and as a proposition. *)
Definition is_status (s : string) : bool :=
  String.eqb s NOT_STARTED || String.eqb s IN_PROGRESS || String.eqb s COMPLETED.

Definition enumerated (s : string) : Prop :=
  s = NOT_STARTED \/ s = IN_PROGRESS \/ s = COMPLETED.

(** Modelled from the spec: the [Task] record of [types.ts], with the
    fields the Data Model lists; [details] stands for the descriptive
    fields (title, notes, ...) that the core carries through unchanged.
    [startTime] can be missing from a record ([None]). *)
Record Task : Type := mkTask {
  id : string;
  date : string;
  startTime : option string;
  endTime : string;
  status : TaskStatus;
  subtasks : list Subtask;
  createdAt : Z;
  updatedAt : Z;
  details : list (string * string)
}.

(** [Omit<Task, 'id' | 'createdAt' | 'updatedAt'>], as [createTask]
    receives it: [endTime] and [subtasks] can be missing. *)
Record TaskInput : Type := mkTaskInput {
  in_date : string;
  in_startTime : option string;
  in_endTime : option string;
  in_status : TaskStatus;
  in_subtasks : option (list Subtask);
  in_details : list (string * string)
}.

End Types.

(** ** services/taskService.ts *)

Module TaskService.
Import Js Runtime Types.

Definition STORAGE_KEY : string := "taskmanager_db_v1".

Definition JSON_parse (data : Item Task) : M Task (list Task) :=
  match data with
  | Stringified ts => ret ts
  | Unparseable _ => throw SyntaxError
  end.

Definition JSON_stringify (tasks : list Task) : Item Task := Stringified tasks.

(** [data ? JSON.parse(data) : []] inside [try], [console.error] and
    [[]] in [catch]. *)
Definition getAllTasks : M Task (list Task) :=
  try_catch
    (do data <- getItem STORAGE_KEY;
     match data with
     | None => ret []
     | Some (Unparseable EmptyString) => ret []
     | Some item => JSON_parse item
     end)
    (fun e => do _u <- console_error "Failed to load tasks"; ret []).

Definition saveAllTasks (tasks : list Task) : M Task unit :=
  setItem STORAGE_KEY (JSON_stringify tasks).

(** Helper to add 1 hour to start time for default end time. *)
Definition calculateDefaultEndTime (env : Env) (startTime : option string)
  : M Task string :=
  match startTime with
  | None => ret "10:00"
  | Some EmptyString => ret "10:00"
  | Some s =>
      let parts := map Number (split ":" s) in
      let h := elem parts 0 in
      let m := elem parts 1 in
      do date <- new_Date env;
      let date := setHours (LocalTZA env) date h in
      let date := setMinutes (LocalTZA env) date (num_add m (Int 60)) in
      let newH := padStart 2 "0" (toString (getHours (LocalTZA env) date)) in
      let newM := padStart 2 "0" (toString (getMinutes (LocalTZA env) date)) in
      ret (newH +:+ ":" +:+ newM)
  end.

(** [a || b] on an optional string: [b] when [a] is missing or empty. *)
Definition or_else (a : option string) (b : M Task string) : M Task string :=
  match a with
  | Some s => if truthy s then ret s else b
  | None => b
  end.

Definition createTask (env : Env) (task : TaskInput) : M Task Task :=
  do tasks <- getAllTasks;
  do endTime' <- or_else (in_endTime task)
                   (calculateDefaultEndTime env (in_startTime task));
  let subtasks' := match in_subtasks task with Some l => l | None => [] end in
  do id' <- crypto_randomUUID env;
  do createdAt' <- Date_now env;
  do updatedAt' <- Date_now env;
  let newTask :=
    {| id := id';
       date := in_date task;
       startTime := in_startTime task;
       endTime := endTime';
       status := in_status task;
       subtasks := subtasks';
       createdAt := createdAt';
       updatedAt := updatedAt';
       details := in_details task |} in
  let tasks := (tasks ++ [newTask])%list in
  do _u <- saveAllTasks tasks;
  ret newTask.

(** [tasks.findIndex(t => t.id === wanted)]: [None] stands for -1. *)
Definition findIndex (wanted : string) (tasks : list Task) : option nat :=
  fst <$> list_find (fun t => id t = wanted) tasks.

(** [{ ...updatedTask, updatedAt: now }] *)
Definition with_updatedAt (t : Task) (now : Z) : Task :=
  {| id := id t;
     date := date t;
     startTime := startTime t;
     endTime := endTime t;
     status := status t;
     subtasks := subtasks t;
     createdAt := createdAt t;
     updatedAt := now;
     details := details t |}.

Definition updateTask (env : Env) (updatedTask : Task) : M Task Task :=
  do tasks <- getAllTasks;
  match findIndex (id updatedTask) tasks with
  | Some index =>
      do now <- Date_now env;
      let stored := with_updatedAt updatedTask now in
      let tasks := <[index := stored]> tasks in
      do _u <- saveAllTasks tasks;
      ret (default stored (tasks !! index))
  | None => throw (Error "Task not found")
  end.

Definition deleteTask (taskId : string) : M Task unit :=
  do tasks <- getAllTasks;
  let filtered := filter (fun t => id t <> taskId) tasks in
  saveAllTasks filtered.

End TaskService.

(** ** components/Dashboard.tsx: the computed values *)

Module LineChart.
(** One point of the trend: [{ date, created, completed }]. *)
Record Point : Type := mkPoint {
  date : string;
  created : Z;
  completed : Z
}.
End LineChart.

Module Dashboard.
Import Js Types.

(** *** 1. KPI calculations *)

(** Property names every object literal inherits from [Object.prototype]:
    reading one of them on [byStatus] does not give [undefined]. *)
Definition Object_prototype : list string :=
  [ "constructor"; "hasOwnProperty"; "isPrototypeOf"; "propertyIsEnumerable";
    "toLocaleString"; "toString"; "valueOf"; "__defineGetter__";
    "__defineSetter__"; "__lookupGetter__"; "__lookupSetter__"; "__proto__" ].

Definition byStatus0 : gmap string number :=
  <[NOT_STARTED := Int 0]> (<[IN_PROGRESS := Int 0]> (<[COMPLETED := Int 0]> ∅)).

(** [if (byStatus[k] !== undefined) byStatus[k]++].  An own counter is
    incremented.  An inherited property is not [undefined] either: its
    numeric value is [NaN], which the assignment stores as an own
    property, except under [__proto__], whose setter ignores a number. *)
Definition count_status (byStatus : gmap string number) (k : string)
  : gmap string number :=
  match byStatus !! k with
  | Some v => <[k := num_add v (Int 1)]> byStatus
  | None =>
      if bool_decide (k ∈ Object_prototype) then
        if bool_decide (k = "__proto__") then byStatus
        else <[k := NaN]> byStatus
      else byStatus
  end.

Record Kpis : Type := mkKpis {
  total : Z;
  byStatus : gmap string number;
  overdue : Z;
  todayCount : Z;
  weekCount : Z
}.

(** Start of the current week: [now] moved back to Sunday, at 0:00:00.000
    local time. *)
Definition startOfWeek (tz : Zone) (now : Z) : Date :=
  let now : Date := Some now in
  let dayOfWeek := getDay tz now in
  let startOfWeek := setDate tz now (num_sub (getDate tz now) dayOfWeek) in
  setHours4 tz startOfWeek (Int 0) (Int 0) (Int 0) (Int 0).

(** End of the current week: six days later, at 23:59:59.999. *)
Definition endOfWeek (tz : Zone) (now : Z) : Date :=
  let startOfWeek := startOfWeek tz now in
  let endOfWeek := setDate tz startOfWeek (num_add (getDate tz startOfWeek) (Int 6)) in
  setHours4 tz endOfWeek (Int 23) (Int 59) (Int 59) (Int 999).

(** [new Date(y, m - 1, d)] with [[y, m, d] = date.split('-').map(Number)] *)
Definition tDate (tz : Zone) (date : string) : Date :=
  let parts := map Number (split "-" date) in
  let y := elem parts 0 in
  let m := elem parts 1 in
  let d := elem parts 2 in
  new_Date_ymd tz y (num_sub m (Int 1)) d.

(** The body of [tasks.forEach]: one task's contribution to the running
    counters.  (The [taskDate] the source also builds is never read.) *)
Definition kpi_step (tz : Zone) (todayStr : string) (startOfWeek endOfWeek : Date)
    (acc : Kpis) (task : Task) : Kpis :=
  let byStatus' := count_status (byStatus acc) (status task) in
  let overdue' :=
    if str_lt (Types.date task) todayStr
       && negb (String.eqb (status task) COMPLETED)
    then overdue acc + 1 else overdue acc in
  let todayCount' :=
    if String.eqb (Types.date task) todayStr
    then todayCount acc + 1 else todayCount acc in
  let weekCount' :=
    let tDate := tDate tz (Types.date task) in
    if date_ge tDate startOfWeek && date_le tDate endOfWeek
    then weekCount acc + 1 else weekCount acc in
  mkKpis (total acc) byStatus' overdue' todayCount' weekCount'.

(** The [kpis] memo; [now] is the time value of its [new Date()], [tz]
    the local zone. *)
Definition kpis (tz : Zone) (tasks : list Task) (now : Z) : Kpis :=
  let todayStr := first_part "T" (isoString now) in
  let startOfWeek := startOfWeek tz now in
  let endOfWeek := endOfWeek tz now in
  let total := Z.of_nat (length tasks) in
  fold_left (kpi_step tz todayStr startOfWeek endOfWeek) tasks
            (mkKpis total byStatus0 0 0 0).

(** *** 2. Chart data preparation *)

Record Slice : Type := mkSlice {
  label : string;
  value : number;
  color : string
}.

(** [kpis.byStatus[k]] *)
Definition status_count (k : Kpis) (s : TaskStatus) : number :=
  match byStatus k !! s with
  | Some v => v
  | None => NaN
  end.

(** [v > 0]: false on [NaN]. *)
Definition positive (v : number) : bool :=
  match v with
  | Int z => 0 <? z
  | NaN => false
  end.

Definition pieData (k : Kpis) : list Slice :=
  List.filter (fun d => positive (value d))
    [ mkSlice "Not Started" (status_count k NOT_STARTED) "#ef4444";
      mkSlice "In Progress" (status_count k IN_PROGRESS) "#f59e0b";
      mkSlice "Completed" (status_count k COMPLETED) "#10b981" ].

Definition totalForPie (pie : list Slice) : number :=
  fold_left (fun acc cur => num_add acc (value cur)) pie (Int 0).

(** A quotient or a percentage.  The source computes them in floating
    point; here they are exact rationals, and [None] is what a division
    by zero or a [NaN] operand leaves ([NaN] or an infinity). *)
Definition ratio : Type := option Q.

Definition js_div (a b : number) : ratio :=
  match a, b with
  | Int x, Int y => if y =? 0 then None else Some (inject_Z x / inject_Z y)%Q
  | _, _ => None
  end.

Definition ratio_mul (a : ratio) (k : Z) : ratio :=
  match a with
  | Some q => Some (q * inject_Z k)%Q
  | None => None
  end.

Definition ratio_add (a b : ratio) : ratio :=
  match a, b with
  | Some p, Some q => Some (p + q)%Q
  | _, _ => None
  end.

(** [(d.value / totalForPie) * 100] *)
Definition percentage (total : number) (d : Slice) : ratio :=
  ratio_mul (js_div (value d) total) 100.

(** One stop of the conic gradient: [`${d.color} ${start}% ${end}%`],
    kept as its three components. *)
Record Stop : Type := mkStop {
  stop_color : string;
  stop_start : ratio;
  stop_end : ratio
}.

(** [pieData.map(d => ...)] with the running [currentAngle]. *)
Fixpoint stops_from (total : number) (currentAngle : ratio) (pie : list Slice)
  : list Stop :=
  match pie with
  | [] => []
  | d :: rest =>
      let start := currentAngle in
      let end_ := ratio_add currentAngle (percentage total d) in
      mkStop (color d) start end_ :: stops_from total end_ rest
  end.

Definition gradientStops (pie : list Slice) : list Stop :=
  stops_from (totalForPie pie) (Some 0%Q) pie.

(** The background of the pie: the gradient of the stops, or the plain
    grey disc ['conic-gradient(#e2e8f0 0% 100%)'] when there is nothing
    to show. *)
Inductive Background : Type :=
| ConicGradient (stops : list Stop)
| EmptyDisc.

Definition pieGradient (pie : list Slice) : Background :=
  if positive (totalForPie pie) then ConicGradient (gradientStops pie)
  else EmptyDisc.

(** [pieData.length === 0 && <p>No tasks data available.</p>] *)
Definition noDataMessage (pie : list Slice) : option string :=
  match pie with
  | [] => Some "No tasks data available."
  | _ => None
  end.

(** *** Line chart data (last 14 days) *)

(** [l.filter(p).length] for a predicate that can throw. *)
Fixpoint count_c {A} (p : A -> completion bool) (l : list A) : completion Z :=
  match l with
  | [] => Normal 0
  | x :: rest =>
      match p x with
      | Throw e => Throw e
      | Normal b =>
          match count_c p rest with
          | Throw e => Throw e
          | Normal n => Normal (if b then 1 + n else n)
          end
      end
  end.

(** [d.toISOString().split('T')[0]] *)
Definition isoDay (d : Date) : completion string :=
  match toISOString d with
  | Normal s => Normal (first_part "T" s)
  | Throw e => Throw e
  end.

(** The body of the loop for one [i]: the point of the day [i] days
    before [now]. *)
Definition trend_point (tz : Zone) (tasks : list Task) (now : Z) (i : Z)
  : completion LineChart.Point :=
  let d := setDate tz (Some now) (num_sub (getDate tz (Some now)) (Int i)) in
  match isoDay d with
  | Throw e => Throw e
  | Normal dateStr =>
      let displayDate := toLocaleDateString_short tz d in
      match count_c (fun t =>
              match isoDay (new_Date_ms (Int (createdAt t))) with
              | Normal cDate => Normal (String.eqb cDate dateStr)
              | Throw e => Throw e
              end) tasks with
      | Throw e => Throw e
      | Normal createdCount =>
          let completedCount :=
            Z.of_nat (length (List.filter (fun t =>
              String.eqb (Types.date t) dateStr
              && String.eqb (status t) COMPLETED) tasks)) in
          Normal (LineChart.mkPoint displayDate createdCount completedCount)
      end
  end.

(** [for (let i = n - 1; i >= 0; i--) data.push(...)] *)
Fixpoint trend_loop (tz : Zone) (tasks : list Task) (now : Z) (n : nat)
    (data : list LineChart.Point) : completion (list LineChart.Point) :=
  match n with
  | O => Normal data
  | S i =>
      match trend_point tz tasks now (Z.of_nat i) with
      | Throw e => Throw e
      | Normal p => trend_loop tz tasks now i (data ++ [p])%list
      end
  end.

Definition days : nat := 14.

(** The [lineChartData] memo; [now] is the time value of its
    [new Date()]. *)
Definition lineChartData (tz : Zone) (tasks : list Task) (now : Z)
  : completion (list LineChart.Point) :=
  trend_loop tz tasks now days [].

(** *** What the counters are compared with *)

(** The integer a counter holds, and the sum of the slices of a pie. *)
Definition int_value (v : number) : Z :=
  match v with
  | Int z => z
  | NaN => 0
  end.

Definition sum_values (pie : list Slice) : Z :=
  fold_right (fun d acc => int_value (value d) + acc) 0 pie.

(** A slice that holds a positive count. *)
Definition counted (d : Slice) : Prop := exists n, value d = Int n /\ 0 < n.

(** Both ends of a stop are numbers: no division by zero went into it. *)
Definition stop_defined (s : Stop) : Prop :=
  is_Some (stop_start s) /\ is_Some (stop_end s).

(** [l.filter(p).length] *)
Definition count {A} (p : A -> bool) (l : list A) : Z :=
  Z.of_nat (length (List.filter p l)).

(** The day number [tDate] gives to a date string: the day [new Date(y,
    m - 1, d)] falls on, whatever the time zone. *)
Definition dayNumber (date : string) : option Z :=
  let parts := map Number (split "-" date) in
  match elem parts 0, elem parts 1, elem parts 2 with
  | Int y, Int m, Int d =>
      Some (MakeDay (if (0 <=? y) && (y <=? 99) then 1900 + y else y) (m - 1) d)
  | _, _, _ => None
  end.

(** The date string names a day from [lo] to [hi], both included. *)
Definition in_days (lo hi : Z) (date : string) : bool :=
  match dayNumber date with
  | Some n => (lo <=? n) && (n <=? hi)
  | None => false
  end.

(** The Sunday on or before the local day of [now], as a day number. *)
Definition weekStart (tz now : Z) : Z :=
  Day (LocalTime tz now) - WeekDay (LocalTime tz now).

(** The point of the UTC day [back] days before [now]: the tasks created
    on that day, the completed tasks dated on it, under the label of the
    local date. *)
Definition day_point (tz : Z) (tasks : list Task) (now back : Z)
  : LineChart.Point :=
  let day := Day now - back in
  LineChart.mkPoint
    (toLocaleDateString_short tz (Some (now - back * msPerDay)))
    (count (fun t => Day (createdAt t) =? day) tasks)
    (count (fun t => String.eqb (Types.date t) (isoDatePart (MakeDate day 0))
                     && String.eqb (status t) COMPLETED) tasks).

(** Dates made of decimal digits and dashes, as the format [YYYY-MM-DD]
    is. *)
Fixpoint date_chars (s : string) : bool :=
  match s with
  | EmptyString => true
  | String c r => (is_digit c || Ascii.eqb c "-") && date_chars r
  end.

End Dashboard.

(** ** Observing the store, and sequences of calls *)

Module Runs.
Import Js Runtime Types TaskService.

(** The persisted collection, as a caller reads it: what [getAllTasks]
    returns in this world. *)
Definition collection (w : World Task) : list Task :=
  match fst (getAllTasks w) with
  | Normal ts => ts
  | Throw _ => []
  end.

(** The collection a storage state denotes: the array under the key, or
    nothing when the key is missing or its text does not parse. *)
Definition denotes (ls : gmap string (Item Task)) : list Task :=
  match ls !! STORAGE_KEY with
  | Some (Stringified ts) => ts
  | _ => []
  end.

(** A world with further lines on the console. *)
Definition logged (w : World Task) (msgs : list string) : World Task :=
  mkWorld (localStorage w) (console w ++ msgs)%list
          (clock_reads w) (uuid_draws w).

(** A call of one of the three mutators. *)
Inductive Op : Type :=
| Create (input : TaskInput)
| Update (task : Task)
| Delete (taskId : string).

(** The world after a call; a thrown exception leaves the world as the
    call left it. *)
Definition step (env : Env) (w : World Task) (op : Op) : World Task :=
  match op with
  | Create input => snd (createTask env input w)
  | Update task => snd (updateTask env task w)
  | Delete taskId => snd (deleteTask taskId w)
  end.

Definition run (env : Env) (ops : list Op) (w : World Task) : World Task :=
  fold_left (step env) ops w.

(** Number of [createTask] calls in a sequence. *)
Definition creates (ops : list Op) : nat :=
  length (List.filter (fun op => match op with Create _ => true | _ => false end) ops).

(** The status a call supplies, if any, is one of the three members. *)
Definition op_status_ok (op : Op) : bool :=
  match op with
  | Create input => is_status (in_status input)
  | Update task => is_status (status task)
  | Delete _ => true
  end.

(** Every [updateTask] argument of the sequence carries a [createdAt]
    no later than the clock reading that call takes. *)
Fixpoint updates_timely (env : Env) (ops : list Op) (w : World Task) : bool :=
  match ops with
  | [] => true
  | op :: rest =>
      match op with
      | Update task => createdAt task <=? clock env (clock_reads w)
      | _ => true
      end && updates_timely env rest (step env w op)
  end.

(** What one call does to the collection and to the id counter. *)
Inductive step_effect (env : Env) (w w' : World Task) : Op -> Prop :=
| created input t k :
    collection w' = (collection w ++ [t])%list ->
    id t = uuid env (uuid_draws w) ->
    status t = in_status input ->
    (clock_reads w <= k)%nat ->
    createdAt t = clock env k -> updatedAt t = clock env (S k) ->
    uuid_draws w' = S (uuid_draws w) ->
    step_effect env w w' (Create input)
| updated task i old :
    collection w !! i = Some old -> id old = id task ->
    collection w' = <[i := with_updatedAt task (clock env (clock_reads w))]> (collection w) ->
    uuid_draws w' = uuid_draws w ->
    step_effect env w w' (Update task)
| not_updated task :
    collection w' = collection w ->
    uuid_draws w' = uuid_draws w ->
    step_effect env w w' (Update task)
| deleted taskId :
    collection w' = filter (fun t => id t <> taskId) (collection w) ->
    uuid_draws w' = uuid_draws w ->
    step_effect env w w' (Delete taskId).

(** Ids: every stored id was drawn since [u0], and none is stored twice. *)
Definition ids_ok (env : Env) (u0 : nat) (w : World Task) : Prop :=
  (u0 <= uuid_draws w)%nat
  /\ NoDup (id <$> collection w)
  /\ forall t, t ∈ collection w ->
       exists j, (u0 <= j < uuid_draws w)%nat /\ id t = uuid env j.

End Runs.

(** ** App.tsx: the state of the application and its handlers *)

Module App.
Import Js Runtime Types TaskService Runs.

(** *** More of [Date]: the methods of the month and year navigation *)

Definition getFullYear (tz : Zone) (d : Date) : number :=
  match d with
  | Some t => Int (YearFromTime (LocalTime tz t))
  | None => NaN
  end.

Definition getMonth (tz : Zone) (d : Date) : number :=
  match d with
  | Some t => Int (MonthFromTime (LocalTime tz t))
  | None => NaN
  end.

(** [d.setMonth(m)]: the date of the month and the time of day are kept,
    and a date past the end of the month runs into the next one. *)
Definition setMonth (tz : Zone) (d : Date) (m : number) : Date :=
  match d, m with
  | Some t, Int m =>
      let t := LocalTime tz t in
      TimeClip (UTC tz (MakeDate (MakeDay (YearFromTime t) m (DateFromTime t))
                                 (TimeWithinDay t)))
  | _, _ => None
  end.

(** [d.setFullYear(y)]: on an invalid date the fields are those of time
    value 0. *)
Definition setFullYear (tz : Zone) (d : Date) (y : number) : Date :=
  match y with
  | Int y =>
      let t := match d with Some t => LocalTime tz t | None => 0 end in
      TimeClip (UTC tz (MakeDate (MakeDay y (MonthFromTime t) (DateFromTime t))
                                 (TimeWithinDay t)))
  | NaN => None
  end.

(** [new Date(d)] for a date object [d]. *)
Definition new_Date_copy (d : Date) : Date :=
  match d with
  | Some t => TimeClip t
  | None => None
  end.

(** Number of days of month [m] (0-11). *)
Definition daysInMonth (m : Z) (lp : bool) : Z :=
  match m with
  | 1 => if lp then 29 else 28
  | 3 | 5 | 8 | 10 => 30
  | _ => 31
  end.

(** *** The handlers *)

Definition handleMonthChange (tz : Zone) (currentDate : Date) (monthIndex : number)
  : Date :=
  let newDate := new_Date_copy currentDate in
  setMonth tz newDate monthIndex.

Definition handleYearChange (tz : Zone) (currentDate : Date) (increment : number)
  : Date :=
  let newDate := new_Date_copy currentDate in
  setFullYear tz newDate (num_add (getFullYear tz newDate) increment).

(** The [tasks] state after [loadTasks]. *)
Definition loadTasks : M Task (list Task) := getAllTasks.

(** Each CRUD handler calls the service, then updates the [tasks] state
    from its previous value [prev]; the new state is returned. *)
Definition handleCreateTask (env : Env) (task : TaskInput) (prev : list Task)
  : M Task (list Task) :=
  do newTask <- createTask env task;
  ret (prev ++ [newTask])%list.

Definition handleUpdateTask (env : Env) (updatedTask : Task) (prev : list Task)
  : M Task (list Task) :=
  do savedTask <- updateTask env updatedTask;
  ret (map (fun t => if String.eqb (id t) (id savedTask) then savedTask else t) prev).

Definition handleDeleteTask (taskId : string) (prev : list Task)
  : M Task (list Task) :=
  do _u <- deleteTask taskId;
  ret (filter (fun t => id t <> taskId) prev).

(** One user action on the task panel: the [tasks] state and the world
    after it.  When the handler throws, the state is not set. *)
Definition handle (env : Env) (sw : list Task * World Task) (op : Op)
  : list Task * World Task :=
  let h := match op with
           | Create input => handleCreateTask env input (fst sw)
           | Update task => handleUpdateTask env task (fst sw)
           | Delete taskId => handleDeleteTask taskId (fst sw)
           end in
  match h (snd sw) with
  | (Normal tasks, w') => (tasks, w')
  | (Throw _, w') => (fst sw, w')
  end.

Definition session (env : Env) (ops : list Op) (sw : list Task * World Task)
  : list Task * World Task :=
  fold_left (handle env) ops sw.

(** Every [createTask] of the sequence draws an id that no stored task
    has at that moment. *)
Fixpoint fresh_ids (env : Env) (ops : list Op) (w : World Task) : bool :=
  match ops with
  | [] => true
  | op :: rest =>
      match op with
      | Create _ =>
          negb (bool_decide (uuid env (uuid_draws w) ∈ id <$> collection w))
      | _ => true
      end && fresh_ids env rest (step env w op)
  end.

(** *** Dark mode *)

(** [localStorage.getItem(key) === s] *)
Definition item_is (data : option (Item Task)) (s : string) : bool :=
  match data with
  | Some (Unparseable x) => String.eqb x s
  | _ => false
  end.

(** [!localStorage.getItem(key)]: nothing stored, or the empty string. *)
Definition item_falsy (data : option (Item Task)) : bool :=
  match data with
  | None => true
  | Some (Unparseable x) => negb (truthy x)
  | Some (Stringified _) => false
  end.

(** The initial value of the [darkMode] state; [prefersDark] is what
    [window.matchMedia('(prefers-color-scheme: dark)').matches] gives. *)
Definition initialDarkMode (prefersDark : bool) : M Task bool :=
  do stored <- getItem "theme";
  if item_is stored "dark" then ret true
  else
    do again <- getItem "theme";
    ret (item_falsy again && prefersDark).

(** The effect that applies [darkMode]: the class of the [html] element
    and the stored preference.  [classList] is the set of its classes. *)
Definition themeEffect (darkMode : bool) (classList : gset string)
  : M Task (gset string) :=
  if darkMode then
    do _u <- setItem "theme" (Unparseable "dark");
    ret (classList ∪ {["dark"]})
  else
    do _u <- setItem "theme" (Unparseable "light");
    ret (classList ∖ {["dark"]}).

Definition toggleDarkMode (darkMode : bool) : bool := negb darkMode.

End App.

(** ** components/Dashboard.tsx: the SVG chart helpers *)

Module Chart.
Import Js Types Dashboard.

Definition chartHeight : Z := 200.
Definition chartWidth : Z := 600.
Definition padding : Z := 20.

(** [Math.max(...created, ...completed, 5)] *)
Definition maxVal (lineChartData : list LineChart.Point) : Z :=
  fold_right Z.max 5
    (map LineChart.created lineChartData ++ map LineChart.completed lineChartData)%list.

(** [a - b] with a number on the left and a quotient-based value on the
    right, and [a + b] likewise. *)
Definition minus_ratio (a : Z) (b : ratio) : ratio :=
  match b with
  | Some q => Some (inject_Z a - q)%Q
  | None => None
  end.

Definition plus_ratio (a : Z) (b : ratio) : ratio :=
  match b with
  | Some q => Some (inject_Z a + q)%Q
  | None => None
  end.

(** [chartHeight - padding - (val / maxVal) * (chartHeight - padding * 2)] *)
Definition getY (lineChartData : list LineChart.Point) (val : Z) : ratio :=
  minus_ratio (chartHeight - padding)
    (ratio_mul (js_div (Int val) (Int (maxVal lineChartData)))
               (chartHeight - padding * 2)).

(** [padding + (index / (lineChartData.length - 1)) * (chartWidth - padding * 2)] *)
Definition getX (lineChartData : list LineChart.Point) (index : Z) : ratio :=
  plus_ratio padding
    (ratio_mul (js_div (Int index) (Int (Z.of_nat (length lineChartData) - 1)))
               (chartWidth - padding * 2)).

(** The points of a polyline, [`${getX(i)},${getY(v)}`] for each entry,
    kept as pairs. *)
Definition points (pick : LineChart.Point -> Z) (lineChartData : list LineChart.Point)
  : list (ratio * ratio) :=
  imap (fun i d => (getX lineChartData (Z.of_nat i), getY lineChartData (pick d)))
       lineChartData.

Definition pointsCreated := points LineChart.created.
Definition pointsCompleted := points LineChart.completed.

(** Whether the label of entry [i] is drawn:
    [i % 3 !== 0 && i !== length - 1] hides it. *)
Definition label_shown (lineChartData : list LineChart.Point) (i : nat) : bool :=
  negb (negb (Z.of_nat i mod 3 =? 0)
        && negb (Z.of_nat i =? Z.of_nat (length lineChartData) - 1)).

(** A point inside the padded area of the chart. *)
Definition in_plot (p : ratio * ratio) : Prop :=
  exists x y, p = (Some x, Some y)
    /\ (inject_Z padding <= x <= inject_Z (chartWidth - padding))%Q
    /\ (inject_Z padding <= y <= inject_Z (chartHeight - padding))%Q.

(** The totals of the two lines of the chart. *)
Definition sum_created (data : list LineChart.Point) : Z :=
  fold_right (fun p acc => LineChart.created p + acc) 0 data.

Definition sum_completed (data : list LineChart.Point) : Z :=
  fold_right (fun p acc => LineChart.completed p + acc) 0 data.

(** Both counts of a chart point are natural numbers. *)
Definition counts_nonneg (p : LineChart.Point) : Prop :=
  0 <= LineChart.created p /\ 0 <= LineChart.completed p.

End Chart.

(** ** components/Dashboard.tsx: the shape of the conic gradient *)

Module PieShape.
Import Js Types Dashboard.

(** The stops follow one another from [start]: each one starts where the
    one before it ends. *)
Fixpoint contiguous (start : ratio) (stops : list Stop) : Prop :=
  match stops with
  | [] => True
  | s :: rest => stop_start s = start /\ contiguous (stop_end s) rest
  end.

End PieShape.

(** ** Concrete inputs used by the examples below *)

Module Examples.
Import Js Runtime Types TaskService Runs.

(** Tuesday 14 November 2023, 22:13:20 UTC. *)
Definition tuesday : Z := 1700000000000.

(** A clock that advances by a millisecond at each reading, ids that
    number the draws, and a zone five hours behind UTC. *)
Definition demo_env : Env :=
  mkEnv (fun n => tuesday + Z.of_nat n)
        (fun n => "task-" +:+ digits (Z.of_nat n)) (-18000000).

Definition demo_world : World Task := mkWorld ∅ [] 0 0.

Definition demo_input : TaskInput :=
  mkTaskInput "2023-11-14" (Some "23:30") None NOT_STARTED None
              [("title", "Write report")].

Definition demo_edit : Task :=
  mkTask "task-0" "2023-11-15" (Some "09:00") "10:00" IN_PROGRESS []
         (tuesday + 1) 0 [("title", "Write report")].

Definition demo_ops : list Op :=
  [Create demo_input; Create demo_input; Update demo_edit; Delete "task-1"].

(** The worlds after one and after two creations. *)
Definition one_task_world : World Task := run demo_env [Create demo_input] demo_world.

Definition two_task_world : World Task :=
  run demo_env [Create demo_input; Create demo_input] demo_world.

(** A storage whose text under the key was cut short. *)
Definition corrupt_world : World Task :=
  mkWorld (<[STORAGE_KEY := Unparseable "[{"]> ∅) [] 0 0.

(** An edit whose record carries a [createdAt] in the future. *)
Definition late_edit : Task :=
  mkTask "task-0" "2023-11-15" (Some "09:00") "10:00" IN_PROGRESS []
         1800000000000 0 [].

(** Completed, dated today, created fifteen days ago. *)
Definition old_done : Task :=
  mkTask "task-7" "2023-11-14" (Some "09:00") "10:00" COMPLETED []
         (tuesday - 15 * msPerDay) (tuesday - 3600000) [].

(** Created thirteen days ago. *)
Definition recent : Task :=
  mkTask "task-8" "2023-11-20" (Some "09:00") "10:00" NOT_STARTED []
         (tuesday - 13 * msPerDay) (tuesday - 13 * msPerDay) [].

(** The KPI scenario: one task today, two yesterday. *)
Definition due_today : Task :=
  mkTask "task-1" "2023-11-14" (Some "09:00") "10:00" NOT_STARTED []
         tuesday tuesday [].

Definition late_yesterday : Task :=
  mkTask "task-2" "2023-11-13" (Some "09:00") "10:00" IN_PROGRESS []
         tuesday tuesday [].

Definition done_yesterday : Task :=
  mkTask "task-3" "2023-11-13" (Some "11:00") "12:00" COMPLETED []
         tuesday tuesday [].

(** The week-boundary scenario: the coming Saturday and the Sunday after. *)
Definition on_saturday : Task :=
  mkTask "task-4" "2023-11-18" (Some "09:00") "10:00" NOT_STARTED []
         tuesday tuesday [].

Definition next_sunday : Task :=
  mkTask "task-5" "2023-11-19" (Some "09:00") "10:00" NOT_STARTED []
         tuesday tuesday [].

(** The five tasks of the two scenarios. *)
Definition kpi_tasks : list Task :=
  [due_today; late_yesterday; done_yesterday; on_saturday; next_sunday].

End Examples.

(** ** More inputs, for the examples of the later sections *)

Module MoreExamples.
Import Js Runtime Types TaskService Dashboard Examples.

(** The zone of New York in 2023 and 2024: five hours behind UTC, and
    four during daylight-saving time, which ran from 12 March 2023,
    7:00 UTC, to 5 November 2023, 6:00 UTC, and from 10 March 2024,
    7:00 UTC, to 3 November 2024, 6:00 UTC.  As ECMAScript has it, a
    local time that a change skips or repeats is read with the offset in
    force before the change. *)
Definition daylight_saving (utc : Z) : bool :=
  ((1678604400000 <=? utc) && (utc <? 1699164000000))
  || ((1710054000000 <=? utc) && (utc <? 1730613600000)).

Definition new_york : Zone := fun t isUTC =>
  let utc := if isUTC then t else t + 14400000 in
  if daylight_saving utc then -14400000 else -18000000.

(** New York on Tuesday 14 November 2023, nine days after the clocks
    were set back. *)
Definition autumn_env : Env :=
  mkEnv (fun n => tuesday + Z.of_nat n)
        (fun n => "task-" +:+ digits (Z.of_nat n)) new_york.

(** New York at noon UTC on Sunday 10 March 2024, the day clocks were
    set forward, and a task starting at 01:00. *)
Definition spring_env : Env :=
  mkEnv (fun n => 1710072000000 + Z.of_nat n)
        (fun n => "task-" +:+ digits (Z.of_nat n)) new_york.

(** Thursday 14 March 2024, 23:30 UTC (19:30 in New York), and a task
    created at noon UTC on the 10th. *)
Definition spring_evening : Z := 1710459000000.

Definition spring_task : Task :=
  mkTask "task-6" "2024-03-20" (Some "09:00") "10:00" NOT_STARTED []
         1710072000000 1710072000000 [].

(** Sunday 19 November 2023, 2:00 UTC: Saturday the 18th, 21:00, five
    hours behind UTC; and a task created that Saturday at 10:00 local
    time. *)
Definition saturday_evening : Z := 1700359200000.

Definition saturday_task : Task :=
  mkTask "task-10" "2023-11-18" (Some "09:00") "10:00" NOT_STARTED []
         1700319600000 1700319600000 [].

(** A record whose status is not one of the three but the name of a
    property every object inherits. *)
Definition odd_status : Task :=
  mkTask "task-11" "2023-11-14" (Some "09:00") "10:00" "constructor" []
         tuesday tuesday [].

Definition spring_input : TaskInput :=
  mkTaskInput "2024-03-10" (Some "01:00") None NOT_STARTED None
              [("title", "Early call")].

(** A task whose start time is an hour without minutes. *)
Definition bare_hour_input : TaskInput :=
  mkTaskInput "2023-11-14" (Some "9") None NOT_STARTED None
              [("title", "Call back")].

(** A record whose [createdAt] is beyond the last valid time value. *)
Definition unreadable_stamp : Task :=
  mkTask "task-9" "2023-11-14" (Some "09:00") "10:00" NOT_STARTED []
         10000000000000000 tuesday [].

(** The chart of the KPI scenario. *)
Definition demo_chart : list LineChart.Point :=
  Eval vm_compute in
    match lineChartData (-18000000) kpi_tasks tuesday with
    | Normal data => data
    | Throw _ => []
    end.

End MoreExamples.

(** * Facts about the JavaScript values *)

Section JsFacts.
Import Js.

(** ** Reading digits *)

Lemma is_digit_val c : is_digit c = true -> 0 <= digit_val c <= 9.
Proof.
  unfold is_digit, digit_val. intros H.
  apply andb_prop in H as [H1 H2].
  apply Nat.leb_le in H1, H2. lia.
Qed.

Lemma digits_val_ge acc s v : 0 <= acc -> digits_val acc s = Some v -> acc <= v.
Proof.
  revert acc. induction s as [|c s IH]; intros acc Hacc H; simpl in H.
  - injection H as <-. lia.
  - destruct (is_digit c) eqn:Ec; [|done].
    pose proof (is_digit_val c Ec).
    apply IH in H; lia.
Qed.

Lemma Number_Int s z : Number s = Int z -> digits_val 0 s = Some z.
Proof. unfold Number. destruct (digits_val 0 s); congruence. Qed.

Lemma Number_nonneg s z : Number s = Int z -> 0 <= z.
Proof. intros H. apply Number_Int in H. by apply digits_val_ge in H. Qed.

Lemma toString_nonneg z : 0 <= z -> toString (Int z) = digits z.
Proof. intros H. unfold toString. destruct (z <? 0) eqn:E; [lia|done]. Qed.

Lemma append_truthy a c b : truthy (a +:+ String c b) = true.
Proof. by destruct a. Qed.

(** ** Splitting at a separator *)

Lemma split_head_no_char c s rest :
  no_char c s = true -> split c (s +:+ String c rest) = s :: split c rest.
Proof.
  induction s as [|x s IH]; simpl; intros H.
  - by rewrite Ascii.eqb_refl.
  - apply andb_prop in H as [Hx Hs]. apply negb_true_iff in Hx.
    rewrite Hx. by rewrite (IH Hs).
Qed.

Lemma split_whole_no_char c s : no_char c s = true -> split c s = [s].
Proof.
  induction s as [|x s IH]; simpl; intros H; [done|].
  apply andb_prop in H as [Hx Hs]. apply negb_true_iff in Hx.
  rewrite Hx. by rewrite (IH Hs).
Qed.

Lemma no_char_app c a b :
  no_char c (a +:+ b) = no_char c a && no_char c b.
Proof. induction a as [|x a IH]; simpl; [done|]. by rewrite IH, andb_assoc. Qed.

Lemma digits_val_no_char c s acc v :
  is_digit c = false -> digits_val acc s = Some v -> no_char c s = true.
Proof.
  intros Hc. revert acc. induction s as [|x s IH]; intros acc H; simpl in *; [done|].
  destruct (is_digit x) eqn:Ex; [|done].
  rewrite (IH _ H), andb_true_r. apply negb_true_iff.
  destruct (Ascii.eqb x c) eqn:E; [|done]. apply Ascii.eqb_eq in E. congruence.
Qed.

Lemma split_two_fields sep a b x y :
  is_digit sep = false -> Number a = Int x -> Number b = Int y ->
  map Number (split sep (a +:+ String sep b)) = [Int x; Int y].
Proof.
  intros Hsep Ha Hb.
  rewrite split_head_no_char
    by (eapply digits_val_no_char; [done|by apply Number_Int]).
  rewrite split_whole_no_char
    by (eapply digits_val_no_char; [done|by apply Number_Int]).
  simpl. by rewrite Ha, Hb.
Qed.

(** ** Printing a number and reading it back *)

Lemma digit_char_val d :
  0 <= d <= 9 -> is_digit (digit_char d) = true /\ digit_val (digit_char d) = d.
Proof.
  intros H.
  assert (d = 0 \/ d = 1 \/ d = 2 \/ d = 3 \/ d = 4 \/ d = 5 \/ d = 6 \/ d = 7
          \/ d = 8 \/ d = 9) as Hd by lia.
  repeat (destruct Hd as [-> | Hd]; [by vm_compute|]). subst d. by vm_compute.
Qed.

Lemma digits_go_reads fuel : forall n acc m k,
  (1 <= fuel)%nat -> 0 <= n < 2 ^ Z.of_nat fuel -> reads_as acc m k ->
  exists k', reads_as (digits_go fuel n acc) (n * 10 ^ k + m) k'.
Proof.
  induction fuel as [|f IH]; intros n acc m k Hf Hn [Hk Hacc]; [lia|].
  simpl.
  assert (Hd : 0 <= n mod 10 <= 9) by (pose proof (Z.mod_pos_bound n 10); lia).
  destruct (digit_char_val _ Hd) as [Hd1 Hd2].
  assert (Hstep : reads_as (String (digit_char (n mod 10)) acc)
                    ((n mod 10) * 10 ^ k + m) (k + 1)).
  { split; [lia|]. intros a. simpl. rewrite Hd1, Hd2, Hacc.
    f_equal. rewrite Z.pow_add_r by lia. ring. }
  destruct (n <? 10) eqn:E.
  - apply Z.ltb_lt in E. exists (k + 1).
    replace n with (n mod 10) at 2 by (apply Z.mod_small; lia). exact Hstep.
  - apply Z.ltb_ge in E.
    assert (Hf' : (1 <= f)%nat).
    { destruct f; [|lia]. simpl in Hn. lia. }
    assert (Hn' : 0 <= n / 10 < 2 ^ Z.of_nat f).
    { rewrite Nat2Z.inj_succ, Z.pow_succ_r in Hn by lia.
      split; [apply Z.div_pos; lia|].
      apply Z.div_lt_upper_bound; lia. }
    destruct (IH (n / 10) _ _ _ Hf' Hn' Hstep) as [k' Hk'].
    exists k'.
    replace (n * 10 ^ k + m) with (n / 10 * 10 ^ (k + 1) + (n mod 10 * 10 ^ k + m)); [done|].
    rewrite Z.pow_add_r by lia.
    rewrite (Z.div_mod n 10) at 3 by lia. ring.
Qed.

Lemma digits_val_digits n a :
  0 <= n -> exists k, 0 <= k /\ digits_val a (digits n) = Some (a * 10 ^ k + n).
Proof.
  intros Hn. unfold digits.
  destruct (digits_go_reads (S (Z.to_nat (Z.log2 n))) n "" 0 0) as [k' [Hk' H]].
  - lia.
  - split; [done|]. rewrite Nat2Z.inj_succ, Z2Nat.id by apply Z.log2_nonneg.
    destruct (Z.eq_dec n 0) as [->|Hne]; [by vm_compute|].
    apply Z.log2_spec. lia.
  - split; [lia|]. intros b. simpl. f_equal. lia.
  - exists k'. split; [done|]. rewrite H. f_equal. lia.
Qed.

Lemma digits_val_zeros k s :
  digits_val 0 (repeat_char "0" k +:+ s) = digits_val 0 s.
Proof. induction k as [|k IH]; [done|]. simpl. exact IH. Qed.

(** A padded number reads back as itself. *)
Lemma Number_pad n v : 0 <= v -> Number (pad n v) = Int v.
Proof.
  intros Hv. unfold Number, pad, padStart.
  rewrite digits_val_zeros.
  destruct (digits_val_digits v 0 Hv) as (k & _ & ->). reflexivity.
Qed.

Lemma pad_no_char c n v : is_digit c = false -> 0 <= v -> no_char c (pad n v) = true.
Proof.
  intros Hc Hv. eapply digits_val_no_char; [done|].
  apply Number_Int. by apply Number_pad.
Qed.

(** ** The calendar *)

(** The estimate of [YearFromDay] is off by at most one: the result is the
    year whose days contain [n]. *)
Lemma YearFromDay_spec n :
  DayFromYear (YearFromDay n) <= n < DayFromYear (YearFromDay n + 1).
Proof.
  unfold YearFromDay.
  set (y0 := 1970 + 400 * n / 146097).
  assert (H1 : DayFromYear (y0 - 1) <= n)
    by (subst y0; unfold DayFromYear; Z.div_mod_to_equations; lia).
  assert (H2 : n < DayFromYear (y0 + 2))
    by (subst y0; unfold DayFromYear; Z.div_mod_to_equations; lia).
  destruct (n <? DayFromYear y0) eqn:E1.
  - apply Z.ltb_lt in E1. replace (y0 - 1 + 1) with y0 by lia. lia.
  - apply Z.ltb_ge in E1.
    destruct (DayFromYear (y0 + 1) <=? n) eqn:E2.
    + apply Z.leb_le in E2. replace (y0 + 1 + 1) with (y0 + 2) by lia. lia.
    + apply Z.leb_gt in E2. lia.
Qed.

(** A year is followed by the next after [DaysInYear] days. *)
Lemma DayFromYear_succ y : DayFromYear (y + 1) = DayFromYear y + DaysInYear y.
Proof.
  unfold DaysInYear, leap, DayFromYear.
  destruct (y mod 4 =? 0) eqn:E4; simpl;
    [destruct (y mod 100 =? 0) eqn:E100; simpl;
       [destruct (y mod 400 =? 0) eqn:E400; simpl|]|];
    rewrite ?Z.eqb_eq, ?Z.eqb_neq in *;
    Z.div_mod_to_equations; lia.
Qed.

Lemma DayFromYear_mono y1 y2 : y1 <= y2 -> DayFromYear y1 <= DayFromYear y2.
Proof. intros H. unfold DayFromYear. Z.div_mod_to_equations. lia. Qed.

(** The year of a day is the only one whose days contain it. *)
Lemma YearFromDay_unique n y :
  DayFromYear y <= n < DayFromYear (y + 1) -> YearFromDay n = y.
Proof.
  intros H. pose proof (YearFromDay_spec n) as Hs.
  destruct (Z.lt_trichotomy (YearFromDay n) y) as [Hlt | [Heq | Hgt]]; [|done|].
  - pose proof (DayFromYear_mono (YearFromDay n + 1) y). lia.
  - pose proof (DayFromYear_mono (y + 1) (YearFromDay n)). lia.
Qed.

Lemma DayWithinYear_bounds t :
  0 <= DayWithinYear t < DaysInYear (YearFromTime t).
Proof.
  unfold DayWithinYear, YearFromTime.
  pose proof (YearFromDay_spec (Day t)) as H.
  rewrite DayFromYear_succ in H. lia.
Qed.

Lemma monthOfDay_bounds d (lp : bool) : 0 <= monthOfDay d lp <= 11.
Proof.
  unfold monthOfDay.
  repeat match goal with |- context [if ?b then _ else _] => destruct b end; lia.
Qed.

Lemma monthOfDay_start d (lp : bool) :
  0 <= d < (if lp then 366 else 365) ->
  1 <= d - monthStart (monthOfDay d lp) lp + 1 <= 31.
Proof.
  intros H. unfold monthOfDay, monthStart. destruct lp;
  repeat match goal with
         | |- context [if ?a <? ?b then _ else _] =>
             let E := fresh in destruct (a <? b) eqn:E;
             [apply Z.ltb_lt in E | apply Z.ltb_ge in E]
         end; simpl; lia.
Qed.

Lemma MonthFromTime_bounds t : 0 <= MonthFromTime t <= 11.
Proof. apply monthOfDay_bounds. Qed.

Lemma DateFromTime_bounds t : 1 <= DateFromTime t <= 31.
Proof.
  unfold DateFromTime, MonthFromTime. apply monthOfDay_start.
  pose proof (DayWithinYear_bounds t) as H. unfold DaysInYear, InLeapYear in *.
  by destruct (leap (YearFromTime t)).
Qed.

(** A time value's day from its year, month and date. *)
Lemma MakeDay_fields t dt :
  MakeDay (YearFromTime t) (MonthFromTime t) dt = Day t + dt - DateFromTime t.
Proof.
  pose proof (MonthFromTime_bounds t) as Hm.
  unfold MakeDay.
  rewrite (Z.div_small (MonthFromTime t) 12), (Z.mod_small (MonthFromTime t) 12) by lia.
  rewrite Z.add_0_r. unfold DateFromTime, DayWithinYear, InLeapYear. lia.
Qed.

(** A day number from the year, month and date of its time values. *)
Lemma Day_fields t :
  Day t = DayFromYear (YearFromTime t)
          + monthStart (MonthFromTime t) (leap (YearFromTime t))
          + DateFromTime t - 1.
Proof. unfold DateFromTime, DayWithinYear, InLeapYear. lia. Qed.

Lemma Day_shift t k : Day (t + k * msPerDay) = Day t + k.
Proof. unfold Day, msPerDay. Z.div_mod_to_equations. lia. Qed.

Lemma TimeWithinDay_bounds t : 0 <= TimeWithinDay t < msPerDay.
Proof. unfold TimeWithinDay. apply Z.mod_pos_bound. by unfold msPerDay. Qed.

Lemma YearFromTime_plausible t :
  - 14 * msPerDay <= t <= 253402300799999 -> 1969 <= YearFromTime t <= 9999.
Proof.
  intros H. unfold YearFromTime.
  assert (Hd : -14 <= Day t <= 2932896)
    by (unfold Day, msPerDay in *; Z.div_mod_to_equations; lia).
  pose proof (YearFromDay_spec (Day t)) as Hs.
  split.
  - destruct (Z.le_gt_cases 1969 (YearFromDay (Day t))) as [|Hlt]; [done|].
    pose proof (DayFromYear_mono (YearFromDay (Day t) + 1) 1969 ltac:(lia)) as Hm.
    change (DayFromYear 1969) with (-365) in Hm. lia.
  - destruct (Z.le_gt_cases (YearFromDay (Day t)) 9999) as [|Hgt]; [done|].
    pose proof (DayFromYear_mono 10000 (YearFromDay (Day t)) ltac:(lia)) as Hm.
    change (DayFromYear 10000) with 2932897 in Hm. lia.
Qed.

(** ** Date objects *)

Lemma TimeClip_in_range t : - maxTime <= t <= maxTime -> TimeClip t = Some t.
Proof.
  intros H. unfold TimeClip.
  destruct (Z.abs t <=? maxTime) eqn:E; [done|].
  apply Z.leb_gt in E. lia.
Qed.

(** [d.setDate(d.getDate() + k)] moves a date by [k] days. *)
Lemma setDate_relative (tz : Z) t k :
  setDate tz (Some t) (Int (DateFromTime (LocalTime tz t) + k))
  = TimeClip (t + k * msPerDay).
Proof.
  unfold setDate. cbv zeta. rewrite MakeDay_fields.
  unfold UTC, MakeDate, LocalTime, fixed_zone, Day, TimeWithinDay. f_equal.
  unfold msPerDay. Z.div_mod_to_equations. lia.
Qed.

(** Where a zone is steady it acts as the zone of that one offset. *)
Lemma LocalTime_steady z tz lo hi t :
  steady z tz lo hi -> lo <= t <= hi -> LocalTime z t = LocalTime tz t.
Proof. intros H Ht. unfold LocalTime, fixed_zone. by rewrite (H t true Ht). Qed.

Lemma UTC_steady z tz lo hi t :
  steady z tz lo hi -> lo <= t <= hi -> UTC z t = UTC tz t.
Proof. intros H Ht. unfold UTC, fixed_zone. by rewrite (H t false Ht). Qed.

Lemma fixed_zone_steady (tz lo hi : Z) : steady tz tz lo hi.
Proof. intros u isUTC _. reflexivity. Qed.

Lemma steady_within z tz lo hi lo' hi' :
  steady z tz lo hi -> lo <= lo' -> hi' <= hi -> steady z tz lo' hi'.
Proof. intros H Hlo Hhi u isUTC Hu. apply H. lia. Qed.

(** New York keeps the offset of five hours from 10 November to
    1 December 2023, and its offsets are of at most a day. *)
Lemma new_york_november :
  steady MoreExamples.new_york (-18000000)
         (Examples.tuesday - 4 * msPerDay) (Examples.tuesday + 17 * msPerDay).
Proof.
  unfold steady, MoreExamples.new_york, MoreExamples.daylight_saving,
    Examples.tuesday, msPerDay.
  intros u isUTC Hu.
  destruct isUTC;
    repeat match goal with
           | |- context [?a <=? ?b] => destruct (Z.leb_spec a b)
           | |- context [?a <? ?b] => destruct (Z.ltb_spec a b)
           end; simpl; try reflexivity; lia.
Qed.

Lemma new_york_offsets u isUTC : plausible_zone (MoreExamples.new_york u isUTC).
Proof.
  unfold plausible_zone, MoreExamples.new_york, msPerDay.
  destruct (MoreExamples.daylight_saving _); lia.
Qed.

Lemma setDate_steady z tz lo hi t k :
  steady z tz lo hi -> lo <= t <= hi ->
  lo <= t + tz + k * msPerDay <= hi ->
  setDate z (Some t) (Int (DateFromTime (LocalTime tz t) + k))
  = setDate tz (Some t) (Int (DateFromTime (LocalTime tz t) + k)).
Proof.
  intros Hst Ht Hk. unfold setDate.
  rewrite (LocalTime_steady z tz lo hi t Hst Ht). cbv zeta.
  apply (f_equal TimeClip). apply (UTC_steady z tz lo hi _ Hst).
  rewrite MakeDay_fields.
  unfold MakeDate, LocalTime, fixed_zone, Day, TimeWithinDay, msPerDay in *.
  Z.div_mod_to_equations. lia.
Qed.

Lemma setHours4_steady z tz lo hi t h m s ms :
  steady z tz lo hi -> lo <= t <= hi ->
  lo <= MakeDate (Day (LocalTime tz t)) (MakeTime h m s ms) <= hi ->
  setHours4 z (Some t) (Int h) (Int m) (Int s) (Int ms)
  = setHours4 tz (Some t) (Int h) (Int m) (Int s) (Int ms).
Proof.
  intros Hst Ht Hk. unfold setHours4.
  rewrite (LocalTime_steady z tz lo hi t Hst Ht). cbv zeta.
  apply (f_equal TimeClip). by apply (UTC_steady z tz lo hi _ Hst).
Qed.

(** [setHours(h)] then [setMinutes(m + 60)]: one hour after [h:m], on
    the face of the clock, when no change of offset is near. *)
Lemma setHours_then_setMinutes (z : Zone) (tz r h m : Z) :
  plausible_clock r -> plausible_zone tz -> 0 <= h <= 23 -> 0 <= m <= 59 ->
  steady z tz (r - 4 * msPerDay) (r + 4 * msPerDay) ->
  let date := setMinutes z (setHours z (Some r) (Int h)) (Int (m + 60)) in
  getHours z date = Int ((h + 1) mod 24) /\ getMinutes z date = Int m.
Proof.
  unfold plausible_clock, plausible_zone, steady. intros Hr Hz Hh Hm Hst.
  unfold setHours, setMinutes, getHours, getMinutes, LocalTime, UTC, MakeDate, MakeTime,
    HourFromTime, MinFromTime, SecFromTime, msFromTime, Day.
  unfold msPerDay, msPerHour, msPerMinute, msPerSecond, maxTime in *.
  rewrite (Hst r true) by lia.
  set (L := r + tz).
  set (D := L / 86400000).
  set (a := (L / 60000) mod 60).
  set (b := (L / 1000) mod 60).
  set (c := L mod 1000).
  assert (Ha : 0 <= a < 60) by (apply Z.mod_pos_bound; lia).
  assert (Hb : 0 <= b < 60) by (apply Z.mod_pos_bound; lia).
  assert (Hc : 0 <= c < 1000) by (apply Z.mod_pos_bound; lia).
  assert (HD : -2 <= D <= 2932898) by (subst D L; Z.div_mod_to_equations; lia).
  assert (HL : D * 86400000 <= L < D * 86400000 + 86400000)
    by (subst D; Z.div_mod_to_equations; lia).
  set (L1 := D * 86400000 + (h * 3600000 + a * 60000 + b * 1000 + c)).
  rewrite (Hst L1 false) by (subst L1 L; lia).
  rewrite TimeClip_in_range by (subst L1; unfold maxTime; lia).
  cbv zeta.
  rewrite (Hst (L1 - tz) true) by (subst L1 L; lia).
  replace (L1 - tz + tz) with L1 by lia.
  assert (E1 : L1 / 86400000 = D) by (subst L1; Z.div_mod_to_equations; lia).
  assert (E2 : (L1 / 3600000) mod 24 = h) by (subst L1; Z.div_mod_to_equations; lia).
  assert (E3 : (L1 / 1000) mod 60 = b) by (subst L1; Z.div_mod_to_equations; lia).
  assert (E4 : L1 mod 1000 = c) by (subst L1; Z.div_mod_to_equations; lia).
  rewrite E1, E2, E3, E4.
  set (L2 := D * 86400000 + (h * 3600000 + (m + 60) * 60000 + b * 1000 + c)).
  rewrite (Hst L2 false) by (subst L2 L; lia).
  rewrite TimeClip_in_range by (subst L2; unfold maxTime; lia).
  rewrite (Hst (L2 - tz) true) by (subst L2 L; lia).
  replace (L2 - tz + tz) with L2 by lia.
  split; f_equal; subst L2; Z.div_mod_to_equations; lia.
Qed.

(** ** ISO date strings *)

Lemma isoYear_no_T y : no_char "T" (isoYear y) = true.
Proof.
  unfold isoYear. destruct ((0 <=? y) && (y <=? 9999)) eqn:E.
  - apply andb_prop in E as [E _]. apply Z.leb_le in E. by apply pad_no_char.
  - assert (no_char "T" (pad 6 (Z.abs y)) = true) as H by (apply pad_no_char; [done|lia]).
    destruct (y <? 0); simpl; exact H.
Qed.

Lemma isoDatePart_no_T t : no_char "T" (isoDatePart t) = true.
Proof.
  pose proof (MonthFromTime_bounds t). pose proof (DateFromTime_bounds t).
  unfold isoDatePart. rewrite !no_char_app, isoYear_no_T.
  rewrite !pad_no_char by (done || lia). reflexivity.
Qed.

(** [toISOString().split('T')[0]] is the date part. *)
Lemma first_part_isoString t : first_part "T" (isoString t) = isoDatePart t.
Proof.
  unfold first_part, isoString.
  change (isoDatePart t +:+ "T" +:+ isoTimePart t)
    with (isoDatePart t +:+ String "T" (isoTimePart t)).
  by rewrite split_head_no_char by apply isoDatePart_no_T.
Qed.

(** The fields read back from the date part, for a four-digit year. *)
Lemma isoDatePart_fields t :
  0 <= YearFromTime t <= 9999 ->
  map Number (split "-" (isoDatePart t)) =
    [Int (YearFromTime t); Int (MonthFromTime t + 1); Int (DateFromTime t)].
Proof.
  intros Hy.
  pose proof (MonthFromTime_bounds t). pose proof (DateFromTime_bounds t).
  unfold isoDatePart, isoYear.
  destruct ((0 <=? YearFromTime t) && (YearFromTime t <=? 9999)) eqn:E;
    [|apply andb_false_iff in E as [E|E]; [apply Z.leb_gt in E|apply Z.leb_gt in E]; lia].
  change (pad 4 (YearFromTime t) +:+ "-" +:+ pad 2 (MonthFromTime t + 1) +:+ "-"
            +:+ pad 2 (DateFromTime t))
    with (pad 4 (YearFromTime t) +:+ String "-" (pad 2 (MonthFromTime t + 1) +:+
            String "-" (pad 2 (DateFromTime t)))).
  rewrite !split_head_no_char by (apply pad_no_char; (done || lia)).
  rewrite split_whole_no_char by (apply pad_no_char; (done || lia)).
  simpl. by rewrite !Number_pad by lia.
Qed.

(** The first field read back from a date part with an expanded year. *)
Lemma isoDatePart_expanded t :
  ~ (0 <= YearFromTime t <= 9999) ->
  elem (map Number (split "-" (isoDatePart t))) 0 = Int 0
  \/ elem (map Number (split "-" (isoDatePart t))) 0 = NaN.
Proof.
  intros Hy. unfold isoDatePart, isoYear.
  destruct ((0 <=? YearFromTime t) && (YearFromTime t <=? 9999)) eqn:E.
  { apply andb_prop in E as [E1 E2]. apply Z.leb_le in E1, E2. lia. }
  destruct (YearFromTime t <? 0); simpl.
  - by left.
  - right. by destruct (split _ _).
Qed.

Lemma isoDatePart_inj c d :
  1 <= YearFromTime d <= 9999 ->
  isoDatePart c = isoDatePart d -> Day c = Day d.
Proof.
  intros Hd Heq.
  pose proof (isoDatePart_fields d ltac:(lia)) as Fd.
  destruct (decide (0 <= YearFromTime c <= 9999)) as [Hc|Hc].
  - pose proof (isoDatePart_fields c Hc) as Fc.
    rewrite Heq, Fd in Fc. injection Fc as E1 E2 E3.
    rewrite (Day_fields c), (Day_fields d).
    assert (MonthFromTime c = MonthFromTime d) as -> by lia.
    by rewrite E1, E3.
  - pose proof (isoDatePart_expanded c Hc) as Fc.
    rewrite Heq, Fd in Fc. simpl in Fc.
    destruct Fc as [Fc|Fc]; [injection Fc as Fc; lia|done].
Qed.

Lemma isoDatePart_Day c d : Day c = Day d -> isoDatePart c = isoDatePart d.
Proof.
  intros H. unfold isoDatePart, DateFromTime, MonthFromTime, DayWithinYear,
    InLeapYear, YearFromTime. by rewrite H.
Qed.

(** Two time values are on the same calendar day exactly when their date
    parts are the same text. *)
Lemma isoDatePart_eqb c d :
  1 <= YearFromTime d <= 9999 ->
  String.eqb (isoDatePart c) (isoDatePart d) = (Day c =? Day d).
Proof.
  intros Hd. destruct (Day c =? Day d) eqn:E.
  - apply Z.eqb_eq in E. apply String.eqb_eq. by apply isoDatePart_Day.
  - apply Z.eqb_neq in E. apply String.eqb_neq. intros H.
    by apply E, isoDatePart_inj.
Qed.

End JsFacts.

(** * Properties of the task store *)

Section StoreFacts.
Import Js Runtime Types TaskService Runs.

Lemma getAllTasks_run w :
  exists msgs, getAllTasks w = (Normal (denotes (localStorage w)), logged w msgs).
Proof.
  destruct w as [ls c k u].
  unfold getAllTasks, try_catch, bind, getItem, denotes, logged; simpl.
  destruct (ls !! STORAGE_KEY) as [[s|ts]|] eqn:E; simpl.
  - destruct s; simpl.
    + exists []. by rewrite app_nil_r.
    + eexists [_]. reflexivity.
  - exists []. by rewrite app_nil_r.
  - exists []. by rewrite app_nil_r.
Qed.

Lemma collection_denotes w : collection w = denotes (localStorage w).
Proof.
  unfold collection. destruct (getAllTasks_run w) as [m ->]. reflexivity.
Qed.

Lemma denotes_insert ls ts :
  denotes (<[STORAGE_KEY := Stringified ts]> ls) = ts.
Proof. unfold denotes. by rewrite lookup_insert_eq. Qed.

Lemma deleteTask_run taskId w :
  exists msgs,
    deleteTask taskId w =
      (Normal tt,
       mkWorld (<[STORAGE_KEY := Stringified
                    (filter (fun t => id t <> taskId) (collection w))]>
                  (localStorage w))
               (console w ++ msgs)%list (clock_reads w) (uuid_draws w)).
Proof.
  destruct (getAllTasks_run w) as [msgs E]. exists msgs.
  unfold deleteTask, bind. rewrite E, collection_denotes. reflexivity.
Qed.

Lemma updateTask_run env task w :
  exists msgs,
    updateTask env task w =
      match findIndex (id task) (collection w) with
      | Some i =>
          let stored := with_updatedAt task (clock env (clock_reads w)) in
          let tasks := <[i := stored]> (collection w) in
          (Normal (default stored (tasks !! i)),
           mkWorld (<[STORAGE_KEY := Stringified tasks]> (localStorage w))
                   (console w ++ msgs)%list (S (clock_reads w)) (uuid_draws w))
      | None => (Throw (Error "Task not found"), logged w msgs)
      end.
Proof.
  destruct (getAllTasks_run w) as [msgs E]. exists msgs.
  unfold updateTask, bind. rewrite E, collection_denotes.
  destruct (findIndex (id task) (denotes (localStorage w))); reflexivity.
Qed.

Lemma findIndex_Some wanted tasks i :
  findIndex wanted tasks = Some i <->
  exists t, tasks !! i = Some t /\ id t = wanted
            /\ forall j u, tasks !! j = Some u -> (j < i)%nat -> id u <> wanted.
Proof.
  unfold findIndex. split.
  - intros H. destruct (list_find _ tasks) as [[k t]|] eqn:E; [|done].
    injection H as <-. apply list_find_Some in E as (H1 & H2 & H3).
    exists t. split; [done|]. split; [done|]. intros j u Hj Hlt. by eapply H3.
  - intros (t & H1 & H2 & H3).
    assert (list_find (fun t => id t = wanted) tasks = Some (i, t)) as ->; [|done].
    apply list_find_Some. split; [done|]. split; [done|].
    intros j u Hj Hlt. by eapply H3.
Qed.

Lemma findIndex_None wanted tasks :
  findIndex wanted tasks = None <-> forall t, t ∈ tasks -> id t <> wanted.
Proof.
  unfold findIndex. split.
  - intros H. destruct (list_find _ tasks) as [[k t]|] eqn:E; [done|].
    apply list_find_None in E. intros t Ht. by eapply (proj1 (Forall_forall _ _) E).
  - intros H.
    assert (list_find (fun t => id t = wanted) tasks = None) as ->; [|done].
    apply list_find_None. apply Forall_forall. exact H.
Qed.

(** C7.  When the fixed key is missing, or its text does not parse,
    [getAllTasks] returns the empty sequence; it never throws to its
    caller, whatever the storage holds; and it leaves [localStorage], and
    so the stored collection, as it was (a failed read only adds a line
    to the console). *)
Theorem getAllTasks_best_effort (w : World Task) :
  ((localStorage w !! STORAGE_KEY = None
    \/ exists s, localStorage w !! STORAGE_KEY = Some (Unparseable s)) ->
   fst (getAllTasks w) = Normal [])
  /\ (exists ts, fst (getAllTasks w) = Normal ts)
  /\ localStorage (snd (getAllTasks w)) = localStorage w
  /\ collection (snd (getAllTasks w)) = collection w.
Proof.
  destruct (getAllTasks_run w) as [msgs E]. rewrite E. simpl.
  split; [|split; [eauto|split; [done|]]].
  - unfold denotes. intros [-> | [s ->]]; reflexivity.
  - by rewrite !collection_denotes.
Qed.

Lemma filter_all {A} (P : A -> Prop) `{!forall x, Decision (P x)} (l : list A) :
  Forall P l -> filter P l = l.
Proof.
  induction 1 as [|x l Hx _ IH]; [done|].
  rewrite filter_cons_True by done. by rewrite IH.
Qed.

Lemma deleteTask_storage taskId w :
  localStorage (snd (deleteTask taskId w)) =
  <[STORAGE_KEY := Stringified (filter (fun t => id t <> taskId) (collection w))]>
    (localStorage w).
Proof. by destruct (deleteTask_run taskId w) as [m ->]. Qed.

Lemma deleteTask_collection taskId w :
  collection (snd (deleteTask taskId w)) =
  filter (fun t => id t <> taskId) (collection w).
Proof.
  rewrite (collection_denotes (snd _)), deleteTask_storage.
  apply denotes_insert.
Qed.

(** C8.  [deleteTask(id)] never throws; it stores the collection without
    the records whose id is [id], so none of them remains; when no record
    matches, the collection is the same as before; and a second call
    right after the first leaves both the collection and the storage as
    the first call left them. *)
Theorem deleteTask_idempotent (taskId : string) (w : World Task) :
  let w1 := snd (deleteTask taskId w) in
  let w2 := snd (deleteTask taskId w1) in
  fst (deleteTask taskId w) = Normal tt
  /\ collection w1 = filter (fun t => id t <> taskId) (collection w)
  /\ (forall t, t ∈ collection w1 -> id t <> taskId)
  /\ ((forall t, t ∈ collection w -> id t <> taskId) ->
      collection w1 = collection w)
  /\ fst (deleteTask taskId w1) = Normal tt
  /\ collection w2 = collection w1
  /\ localStorage w2 = localStorage w1.
Proof.
  intros w1 w2.
  assert (H1 : collection w1 = filter (fun t => id t <> taskId) (collection w))
    by apply deleteTask_collection.
  repeat split.
  - by destruct (deleteTask_run taskId w) as [m ->].
  - exact H1.
  - intros t. rewrite H1. intros Ht. by apply list_elem_of_filter in Ht as [? _].
  - intros Hno. rewrite H1. apply filter_all. by apply Forall_forall.
  - by destruct (deleteTask_run taskId w1) as [m ->].
  - subst w2. rewrite deleteTask_collection, H1.
    by apply list_filter_filter_l.
  - subst w2. rewrite deleteTask_storage, H1.
    rewrite list_filter_filter_l by done.
    subst w1. rewrite deleteTask_storage. by rewrite insert_insert_eq.
Qed.

Lemma updateTask_found env task w i :
  findIndex (id task) (collection w) = Some i ->
  let updated := with_updatedAt task (clock env (clock_reads w)) in
  fst (updateTask env task w) = Normal updated
  /\ localStorage (snd (updateTask env task w)) =
       <[STORAGE_KEY := Stringified (<[i := updated]> (collection w))]> (localStorage w)
  /\ collection (snd (updateTask env task w)) = <[i := updated]> (collection w)
  /\ clock_reads (snd (updateTask env task w)) = S (clock_reads w)
  /\ uuid_draws (snd (updateTask env task w)) = uuid_draws w.
Proof.
  intros Hi updated. destruct (updateTask_run env task w) as [msgs E].
  rewrite E, Hi. simpl. fold updated.
  apply findIndex_Some in Hi as (old & Hold & _).
  rewrite list_lookup_insert_eq by (by eapply lookup_lt_Some).
  repeat split; try done.
  rewrite (collection_denotes (mkWorld _ _ _ _)). simpl. apply denotes_insert.
Qed.

Lemma updateTask_missing env task w :
  findIndex (id task) (collection w) = None ->
  fst (updateTask env task w) = Throw (Error "Task not found")
  /\ localStorage (snd (updateTask env task w)) = localStorage w
  /\ clock_reads (snd (updateTask env task w)) = clock_reads w
  /\ uuid_draws (snd (updateTask env task w)) = uuid_draws w.
Proof.
  intros Hi. destruct (updateTask_run env task w) as [msgs E].
  rewrite E, Hi. by simpl.
Qed.

(** C5.  When no stored record has the argument's id, [updateTask]
    throws [Error('Task not found')] and the storage, hence the persisted
    collection, is unchanged.  When some record has that id, the first
    such record is replaced by a record that has every field of the
    argument (id, date, start and end time, status, subtasks, creation
    time, details) and [updatedAt] set to the clock reading of the call;
    the whole collection is persisted, and that updated record is
    returned. *)
Theorem updateTask_NotFound_or_replace (env : Env) (task : Task) (w : World Task) :
  ((forall t, t ∈ collection w -> id t <> id task) ->
     fst (updateTask env task w) = Throw (Error "Task not found")
     /\ localStorage (snd (updateTask env task w)) = localStorage w
     /\ collection (snd (updateTask env task w)) = collection w)
  /\ ((exists t, t ∈ collection w /\ id t = id task) ->
      exists i old,
        collection w !! i = Some old /\ id old = id task
        /\ let now := clock env (clock_reads w) in
           let updated := with_updatedAt task now in
           id updated = id task
           /\ date updated = date task
           /\ startTime updated = startTime task
           /\ endTime updated = endTime task
           /\ status updated = status task
           /\ subtasks updated = subtasks task
           /\ createdAt updated = createdAt task
           /\ details updated = details task
           /\ updatedAt updated = now
           /\ fst (updateTask env task w) = Normal updated
           /\ collection (snd (updateTask env task w)) =
                <[i := updated]> (collection w)
           /\ localStorage (snd (updateTask env task w)) =
                <[STORAGE_KEY := Stringified (<[i := updated]> (collection w))]>
                  (localStorage w)).
Proof.
  split.
  - intros Hno. apply (proj2 (findIndex_None _ _)) in Hno.
    destruct (updateTask_missing env task w Hno) as (H1 & H2 & _).
    split; [done|]. split; [done|]. by rewrite !collection_denotes, H2.
  - intros (t & Ht & Hid).
    destruct (findIndex (id task) (collection w)) as [i|] eqn:Hi.
    + pose proof (updateTask_found env task w i Hi) as (H1 & H2 & H3 & _).
      apply findIndex_Some in Hi as (old & Hold & Hoid & _).
      exists i, old. by repeat split.
    + destruct (proj1 (findIndex_None _ _) Hi t Ht Hid).
Qed.

(** C10.  A successful [updateTask] keeps the length and the order of
    the collection: the updated record sits at the index of the record it
    replaces, every other index holds what it held, and so every record
    with another id is unchanged.  [deleteTask(id)] keeps exactly the
    records whose id differs from [id], in their order: every record with
    that id is gone, duplicates included, and every other record stays. *)
Theorem mutators_frame (env : Env) (task : Task) (taskId : string) (w : World Task) :
  (forall updated, fst (updateTask env task w) = Normal updated ->
     let before := collection w in
     let after := collection (snd (updateTask env task w)) in
     exists i old,
       before !! i = Some old /\ id old = id task
       /\ after !! i = Some updated
       /\ length after = length before
       /\ (forall j, j <> i -> after !! j = before !! j)
       /\ (forall j t, before !! j = Some t -> id t <> id task ->
             after !! j = Some t))
  /\ (let before := collection w in
      let after := collection (snd (deleteTask taskId w)) in
      after = filter (fun t => id t <> taskId) before
      /\ (forall t, id t = taskId -> t ∉ after)
      /\ (forall t, t ∈ before -> id t <> taskId -> t ∈ after)
      /\ sublist after before).
Proof.
  split.
  - intros updated Hok before after.
    destruct (findIndex (id task) (collection w)) as [i|] eqn:Hi.
    + pose proof (updateTask_found env task w i Hi) as (H1 & _ & H3 & _).
      rewrite H1 in Hok. injection Hok as <-.
      apply findIndex_Some in Hi as (old & Hold & Hoid & _).
      exists i, old. subst after before. rewrite H3.
      split; [done|]. split; [done|].
      split; [apply list_lookup_insert_eq; by eapply lookup_lt_Some|].
      split; [apply length_insert|].
      split; [intros j Hj; by apply list_lookup_insert_ne|].
      intros j t Hj Hne. rewrite list_lookup_insert_ne; [done|].
      intros ->. congruence.
    + pose proof (updateTask_missing env task w Hi) as (H1 & _).
      congruence.
  - intros before after. subst before after.
    rewrite deleteTask_collection.
    split; [done|].
    split; [intros t Ht Hin; by apply list_elem_of_filter in Hin as [? _]|].
    split; [intros t Hin Hne; by apply list_elem_of_filter|].
    apply sublist_filter.
Qed.

Lemma calculateDefaultEndTime_run env st (w : World Task) :
  exists v k,
    calculateDefaultEndTime env st w =
      (Normal v, mkWorld (localStorage w) (console w)
                         (k + clock_reads w) (uuid_draws w)).
Proof.
  destruct w as [ls c n u]. unfold calculateDefaultEndTime.
  destruct st as [[|a s]|]; simpl.
  - by exists "10:00", 0%nat.
  - unfold bind, new_Date, ret; simpl. by eexists _, 1%nat.
  - by exists "10:00", 0%nat.
Qed.

Lemma calculateDefaultEndTime_value env st (w w' : World Task) :
  clock_reads w = clock_reads w' ->
  fst (calculateDefaultEndTime env st w) = fst (calculateDefaultEndTime env st w').
Proof.
  intros H. unfold calculateDefaultEndTime.
  destruct st as [[|a s]|]; simpl; try done.
  unfold bind, new_Date, ret; simpl. by rewrite H.
Qed.

Lemma or_else_run a b (w : World Task) :
  or_else a b w =
    match a with
    | Some s => if truthy s then (Normal s, w) else b w
    | None => b w
    end.
Proof. unfold or_else. destruct a as [s|]; [|done]. by destruct (truthy s). Qed.

(** The end time [createTask] stores for an input, when the clock has
    been read [n] times: the input's, or the default rule's. *)
Lemma createTask_run env input w :
  exists t msgs k,
    createTask env input w =
      (Normal t,
       mkWorld (<[STORAGE_KEY := Stringified (collection w ++ [t])]> (localStorage w))
               (console w ++ msgs)%list (S (S k)) (S (uuid_draws w)))
    /\ (clock_reads w <= k)%nat
    /\ t = {| id := uuid env (uuid_draws w);
              date := in_date input;
              startTime := in_startTime input;
              endTime := endTime t;
              status := in_status input;
              subtasks := match in_subtasks input with Some l => l | None => [] end;
              createdAt := clock env k;
              updatedAt := clock env (S k);
              details := in_details input |}
    /\ match in_endTime input with
       | Some s =>
           if truthy s then endTime t = s
           else fst (calculateDefaultEndTime env (in_startTime input) w)
                = Normal (endTime t)
       | None => fst (calculateDefaultEndTime env (in_startTime input) w)
                 = Normal (endTime t)
       end.
Proof.
  destruct (getAllTasks_run w) as [msgs E].
  unfold createTask, bind at 1. rewrite E, <- collection_denotes.
  unfold bind at 1. rewrite or_else_run.
  destruct (calculateDefaultEndTime_run env (in_startTime input) (logged w msgs))
    as (v & k & Ecalc).
  assert (Hv : fst (calculateDefaultEndTime env (in_startTime input) w) = Normal v).
  { rewrite (calculateDefaultEndTime_value env _ w (logged w msgs)) by done.
    by rewrite Ecalc. }
  destruct (in_endTime input) as [s|] eqn:Es; [destruct (truthy s) eqn:Ts|].
  - eexists _, msgs, (clock_reads w). split; [reflexivity|].
    split; [lia|]. split; [reflexivity|]. simpl. done.
  - rewrite Ecalc. eexists _, msgs, (k + clock_reads w)%nat. split; [reflexivity|].
    split; [simpl; lia|]. split; [reflexivity|]. exact Hv.
  - rewrite Ecalc. eexists _, msgs, (k + clock_reads w)%nat. split; [reflexivity|].
    split; [simpl; lia|]. split; [reflexivity|]. exact Hv.
Qed.

(** C1, as amended.  [createTask] returns a record whose id is the next
    result of the id generator, whose [createdAt] and [updatedAt] are two
    consecutive readings of the clock, [createdAt] first (equal only if
    the clock did not move in between), whose [endTime] is the input's
    when that is a non-empty string and the default-end-time rule's
    result otherwise, whose [subtasks] are the input's or empty, and
    whose other fields are the input's.  The persisted collection
    afterwards is the prior one with this record appended, so that
    [getAllTasks] then returns a sequence containing it. *)
Theorem createTask_appends (env : Env) (input : TaskInput) (w : World Task) :
  exists t w' k,
    createTask env input w = (Normal t, w')
    /\ id t = uuid env (uuid_draws w)
    /\ (clock_reads w <= k)%nat
    /\ createdAt t = clock env k
    /\ updatedAt t = clock env (S k)
    /\ clock_reads w' = S (S k)
    /\ match in_endTime input with
       | Some s =>
           if truthy s then endTime t = s
           else fst (calculateDefaultEndTime env (in_startTime input) w)
                = Normal (endTime t)
       | None => fst (calculateDefaultEndTime env (in_startTime input) w)
                 = Normal (endTime t)
       end
    /\ subtasks t = match in_subtasks input with Some l => l | None => [] end
    /\ date t = in_date input
    /\ startTime t = in_startTime input
    /\ status t = in_status input
    /\ details t = in_details input
    /\ collection w' = (collection w ++ [t])%list
    /\ fst (getAllTasks w') = Normal (collection w ++ [t])%list
    /\ t ∈ collection w'.
Proof.
  destruct (createTask_run env input w) as (t & msgs & k & E & Hk & Ht & Hend).
  eexists t, _, k. split; [exact E|].
  assert (Hc : collection (mkWorld
      (<[STORAGE_KEY := Stringified (collection w ++ [t])]> (localStorage w))
      (console w ++ msgs)%list (S (S k)) (S (uuid_draws w))) = (collection w ++ [t])%list).
  { rewrite (collection_denotes (mkWorld _ _ _ _)). simpl. apply denotes_insert. }
  rewrite Hc.
  repeat match goal with |- _ /\ _ => split end;
    try done; try (rewrite Ht; reflexivity).
  - match goal with |- fst (getAllTasks ?w') = _ =>
      destruct (getAllTasks_run w') as [m ->] end. simpl.
    by rewrite denotes_insert.
  - apply elem_of_app. right. apply list_elem_of_singleton. done.
Qed.

(** An empty [endTime] is as good as none: [||] replaces it too. *)
Lemma createTask_empty_endTime :
  exists t w',
    createTask Examples.demo_env
      (mkTaskInput "2023-11-14" (Some "08:15") (Some "") NOT_STARTED None [])
      Examples.demo_world = (Normal t, w')
    /\ endTime t = "09:15".
Proof. eexists _, _. split; [by vm_compute|reflexivity]. Qed.

(** The claim as worded, with [createdAt] and [updatedAt] both equal to
    one current time, fails as soon as the clock moves between the two
    [Date.now()] calls. *)
Lemma createTask_timestamps_counterexample :
  ~ (forall (env : Env) (input : TaskInput) (w : World Task) t w',
       createTask env input w = (Normal t, w') -> createdAt t = updatedAt t).
Proof.
  intros H.
  destruct (createTask Examples.demo_env Examples.demo_input Examples.demo_world)
    as [[t|e] w'] eqn:E; vm_compute in E; [|discriminate E].
  injection E as <- <-.
  specialize (H Examples.demo_env Examples.demo_input Examples.demo_world _ _ eq_refl).
  vm_compute in H. discriminate H.
Qed.

End StoreFacts.

Section DefaultEndTime.
Import Js Runtime Types TaskService Runs.

Lemma calculateDefaultEndTime_truthy env s (w : World Task) :
  truthy s = true ->
  fst (calculateDefaultEndTime env (Some s) w) =
    let parts := map Number (split ":" s) in
    let date := setMinutes (LocalTZA env)
                  (setHours (LocalTZA env) (Some (clock env (clock_reads w)))
                     (elem parts 0))
                  (num_add (elem parts 1) (Int 60)) in
    Normal (padStart 2 "0" (toString (getHours (LocalTZA env) date)) +:+ ":"
            +:+ padStart 2 "0" (toString (getMinutes (LocalTZA env) date))).
Proof. destruct s; [done|]. reflexivity. Qed.

Lemma calculateDefaultEndTime_fields env (w : World Task) hh mm h m (tz : Z) :
  Number hh = Int h -> Number mm = Int m -> h <= 23 -> m <= 59 ->
  let now := clock env (clock_reads w) in
  plausible_clock now -> plausible_zone tz ->
  steady (LocalTZA env) tz (now - 4 * msPerDay) (now + 4 * msPerDay) ->
  fst (calculateDefaultEndTime env (Some (hh +:+ ":" +:+ mm)) w) =
    Normal (pad 2 ((h + 1) mod 24) +:+ ":" +:+ pad 2 m).
Proof.
  intros Hh Hm Hh23 Hm59 now Hc Hz Hst.
  pose proof (Number_nonneg _ _ Hh) as Hh0.
  pose proof (Number_nonneg _ _ Hm) as Hm0.
  change (hh +:+ ":" +:+ mm) with (hh +:+ String ":" mm).
  rewrite calculateDefaultEndTime_truthy by apply append_truthy.
  rewrite (split_two_fields ":" hh mm h m eq_refl Hh Hm).
  cbv zeta. change (elem [Int h; Int m] 0) with (Int h).
  change (elem [Int h; Int m] 1) with (Int m).
  change (num_add (Int m) (Int 60)) with (Int (m + 60)).
  destruct (setHours_then_setMinutes (LocalTZA env) tz now h m)
    as [E1 E2]; [done|done|lia|lia|done|].
  cbv zeta in E1, E2. fold now. rewrite E1, E2.
  rewrite !toString_nonneg by (try apply Z.mod_pos_bound; lia).
  reflexivity.
Qed.




End DefaultEndTime.

Section Invariants.
Import Js Runtime Types TaskService Runs.
Variable env : Env.

Lemma step_has_effect w op : step_effect env w (step env w op) op.
Proof.
  destruct op as [input|task|taskId]; simpl.
  - destruct (createTask_run env input w) as (t & msgs & k & E & Hk & Ht & _).
    rewrite E. simpl.
    apply (created env _ _ input t k); try done; try (rewrite Ht; reflexivity).
    rewrite (collection_denotes (mkWorld _ _ _ _)). simpl. apply denotes_insert.
  - destruct (findIndex (id task) (collection w)) as [i|] eqn:Hi.
    + destruct (updateTask_found env task w i Hi) as (_ & _ & H3 & _ & H5).
      apply findIndex_Some in Hi as (old & Hold & Hoid & _).
      by apply (updated env _ _ task i old).
    + destruct (updateTask_missing env task w Hi) as (_ & H2 & _ & H4).
      apply not_updated; [|done]. by rewrite !collection_denotes, H2.
  - apply deleted; [apply deleteTask_collection|].
    by destruct (deleteTask_run taskId w) as [m ->].
Qed.

Lemma NoDup_seq_lookup (f : nat -> string) a n i j :
  NoDup (f <$> seq a n) -> (a <= i < a + n)%nat -> (a <= j < a + n)%nat ->
  f i = f j -> i = j.
Proof.
  intros Hnd Hi Hj Hf.
  assert (Hli : (f <$> seq a n) !! (i - a)%nat = Some (f i)).
  { rewrite list_lookup_fmap, lookup_seq_lt by lia. simpl. f_equal. f_equal. lia. }
  assert (Hlj : (f <$> seq a n) !! (j - a)%nat = Some (f j)).
  { rewrite list_lookup_fmap, lookup_seq_lt by lia. simpl. f_equal. f_equal. lia. }
  rewrite Hf in Hli.
  pose proof (NoDup_lookup _ _ _ _ Hnd Hli Hlj). lia.
Qed.

Lemma creates_cons op ops :
  creates (op :: ops) =
  ((match op with Create _ => 1 | _ => 0 end) + creates ops)%nat.
Proof. unfold creates. simpl. by destruct op. Qed.

Lemma ids_ok_run u0 ops : forall w,
  ids_ok env u0 w ->
  NoDup (uuid env <$> seq u0 (uuid_draws w - u0 + creates ops)) ->
  ids_ok env u0 (run env ops w).
Proof.
  induction ops as [|op ops IH]; intros w Hok Hnd; [done|].
  simpl. apply IH.
  - destruct Hok as (Hu & Hdup & Hdrawn).
    pose proof (step_has_effect w op) as Heff.
    inversion Heff as [input t k Hc Hid _ _ _ _ Hd | task i old Hold Hoid Hc Hd
                      | task Hc Hd | taskId Hc Hd]; subst op.
    + split; [lia|]. rewrite Hc, Hd. split.
      * rewrite fmap_app. simpl. apply NoDup_app. split; [done|].
        split; [|apply NoDup_singleton].
        intros x Hx Hx'. apply list_elem_of_singleton in Hx'. subst x.
        apply list_elem_of_fmap in Hx as (t' & Hid' & Ht').
        destruct (Hdrawn t' Ht') as (j & Hj & Hidj).
        rewrite creates_cons in Hnd.
        assert (j = uuid_draws w); [|lia].
        eapply (NoDup_seq_lookup (uuid env) u0 _ j (uuid_draws w) Hnd); [lia|lia|].
        congruence.
      * intros t' Ht'. apply elem_of_app in Ht' as [Ht'|Ht'].
        -- destruct (Hdrawn t' Ht') as (j & Hj & Hidj). exists j. split; [lia|done].
        -- apply list_elem_of_singleton in Ht'. subst t'.
           exists (uuid_draws w). split; [lia|done].
    + split; [lia|]. rewrite Hc, Hd. split.
      * rewrite list_fmap_insert. rewrite list_insert_id; [done|].
        rewrite list_lookup_fmap, Hold. simpl. by rewrite Hoid.
      * intros t' Ht'. apply list_elem_of_lookup in Ht' as [j Hj].
        destruct (decide (j = i)) as [->|Hne].
        -- rewrite list_lookup_insert_eq in Hj by (by eapply lookup_lt_Some).
           injection Hj as <-. simpl. rewrite <- Hoid.
           apply Hdrawn. by eapply list_elem_of_lookup_2.
        -- rewrite list_lookup_insert_ne in Hj by done.
           apply Hdrawn. by eapply list_elem_of_lookup_2.
    + split; [lia|]. by rewrite Hc, Hd.
    + split; [lia|]. rewrite Hc, Hd. split.
      * apply (sublist_NoDup _ (id <$> collection w)); [exact Hdup|apply fmap_sublist, sublist_filter].
      * intros t' Ht'. apply list_elem_of_filter in Ht' as [_ Ht']. by apply Hdrawn.
  - pose proof (step_has_effect w op) as Heff.
    rewrite creates_cons in Hnd.
    destruct Hok as (Hu & _).
    inversion Heff as [input t k _ _ _ _ _ _ Hd | task i old _ _ _ Hd
                      | task _ Hd | taskId _ Hd]; subst op; rewrite Hd;
      (eapply eq_ind; [exact Hnd|]); f_equal; f_equal; lia.
Qed.

Lemma Forall_filter_keep {A} (P : A -> Prop) (Q : A -> Prop)
    `{!forall x, Decision (Q x)} (l : list A) :
  Forall P l -> Forall P (filter Q l).
Proof.
  intros Hall. apply Forall_forall. intros x Hx.
  apply list_elem_of_filter in Hx as [_ Hx].
  by apply (proj1 (Forall_forall _ _) Hall).
Qed.

Lemma times_ok_run :
  (forall n, clock env n <= clock env (S n)) ->
  forall ops w,
    Forall (fun t => createdAt t <= updatedAt t) (collection w) ->
    updates_timely env ops w = true ->
    Forall (fun t => createdAt t <= updatedAt t) (collection (run env ops w)).
Proof.
  intros Hmono. induction ops as [|op ops IH]; intros w Hok Ht; [done|].
  simpl in *. apply andb_prop in Ht as [Hop Hrest].
  apply IH; [|done].
  pose proof (step_has_effect w op) as Heff.
  inversion Heff as [input t k Hc _ _ _ Hca Hua _ | task i old _ _ Hc _
                    | task Hc _ | taskId Hc _]; subst op; rewrite Hc.
  - apply Forall_app. split; [done|]. apply Forall_singleton.
    rewrite Hca, Hua. apply Hmono.
  - apply Forall_insert; [done|]. simpl. by apply Z.leb_le.
  - done.
  - by apply Forall_filter_keep.
Qed.

Lemma is_status_enumerated s : is_status s = true <-> enumerated s.
Proof.
  unfold is_status, enumerated.
  rewrite !orb_true_iff, !String.eqb_eq. tauto.
Qed.

Lemma status_ok_run ops : forall w,
  Forall (fun t => enumerated (status t)) (collection w) ->
  forallb op_status_ok ops = true ->
  Forall (fun t => enumerated (status t)) (collection (run env ops w)).
Proof.
  induction ops as [|op ops IH]; intros w Hok Hs; [done|].
  simpl in *. apply andb_prop in Hs as [Hop Hrest].
  apply IH; [|done].
  pose proof (step_has_effect w op) as Heff.
  inversion Heff as [input t k Hc _ Hst _ _ _ _ | task i old _ _ Hc _
                    | task Hc _ | taskId Hc _]; subst op; rewrite Hc.
  - apply Forall_app. split; [done|]. apply Forall_singleton.
    rewrite Hst. by apply is_status_enumerated.
  - apply Forall_insert; [done|]. simpl. by apply is_status_enumerated.
  - done.
  - by apply Forall_filter_keep.
Qed.

End Invariants.

Section StoreInvariant.
Import Js Runtime Types TaskService Runs Examples.

(** C2, as amended.  After any sequence of [createTask], [updateTask] and
    [deleteTask] calls from an empty collection: the stored ids are
    pairwise distinct provided the ids the generator returned during the
    sequence are; every stored task has [createdAt <= updatedAt] provided
    the clock never goes back and every [updateTask] argument carries a
    [createdAt] no later than the clock reading of its call; every stored
    status is one of the three members provided every status passed to
    [createTask] and [updateTask] is. *)
Theorem store_invariants (env : Env) (ops : list Op) (w0 : World Task) :
  collection w0 = [] ->
  let w := run env ops w0 in
  (NoDup (uuid env <$> seq (uuid_draws w0) (creates ops)) ->
   NoDup (id <$> collection w))
  /\ ((forall n, clock env n <= clock env (S n)) ->
      updates_timely env ops w0 = true ->
      Forall (fun t => createdAt t <= updatedAt t) (collection w))
  /\ (forallb op_status_ok ops = true ->
      Forall (fun t => enumerated (status t)) (collection w)).
Proof.
  intros Hempty w. subst w. split; [|split].
  - intros Hnd.
    apply (ids_ok_run env (uuid_draws w0) ops w0).
    + split; [done|]. rewrite Hempty. split; [constructor|].
      intros t Ht. by apply elem_of_nil in Ht.
    + by replace (uuid_draws w0 - uuid_draws w0 + creates ops)%nat with (creates ops) by lia.
  - intros Hmono Ht. apply times_ok_run; try done. by rewrite Hempty.
  - intros Hs. apply status_ok_run; try done. by rewrite Hempty.
Qed.

(** Two creations, an edit of the first task and the deletion of the
    second leave one task, with the three properties. *)
Lemma store_invariants_witness :
  let c := collection (run demo_env demo_ops demo_world) in
  NoDup (id <$> c)
  /\ Forall (fun t => createdAt t <= updatedAt t) c
  /\ Forall (fun t => enumerated (status t)) c.
Proof.
  destruct (store_invariants demo_env demo_ops demo_world eq_refl) as (H1 & H2 & H3).
  split; [|split].
  - apply H1. vm_compute. repeat constructor; rewrite ?list_elem_of_In; simpl; intuition congruence.
  - apply H2; [|by vm_compute]. intros n. simpl. lia.
  - apply H3. by vm_compute.
Defined.

(** The claim as worded, for every sequence of calls, fails on an edit
    that carries a [createdAt] later than the time of the edit. *)
Lemma store_invariants_counterexample :
  ~ (forall (env : Env) (ops : list Op),
       let c := collection (run env ops demo_world) in
       NoDup (id <$> c)
       /\ Forall (fun t => createdAt t <= updatedAt t) c
       /\ Forall (fun t => enumerated (status t)) c).
Proof.
  intros H.
  destruct (H demo_env [Create demo_input; Update late_edit]) as (_ & Ht & _).
  vm_compute in Ht. apply Forall_cons in Ht as [Ht _]. by apply Ht.
Qed.

(** Why the other two provisos: a status outside the enumeration is
    stored as given, and a generator that repeats an id gives two stored
    tasks the same id. *)
Lemma store_keeps_any_status :
  Forall (fun t => ~ enumerated (status t))
    (collection (run demo_env
       [Create (mkTaskInput "2023-11-14" None None "ARCHIVED" None [])] demo_world)).
Proof.
  vm_compute. repeat constructor.
  intros [H | [H | H]]; discriminate H.
Qed.

Lemma store_repeats_repeated_id :
  ~ NoDup (id <$> collection
       (run (mkEnv (clock demo_env) (fun _ => "same") 0)
            [Create demo_input; Create demo_input] demo_world)).
Proof.
  vm_compute. intros H. apply NoDup_cons in H as [H _].
  apply H. apply list_elem_of_here.
Qed.

End StoreInvariant.

(** * Properties of the dashboard figures *)

Section KpiFacts.
Import Js Types Dashboard.

Lemma count_cons {A} (p : A -> bool) x l :
  count p (x :: l) = (if p x then 1 else 0) + count p l.
Proof. unfold count. simpl. destruct (p x); simpl; lia. Qed.

Lemma count_status_own (m : gmap string number) k s v :
  m !! s = Some v ->
  count_status m k !! s = Some (if String.eqb k s then num_add v (Int 1) else v).
Proof.
  intros Hs. unfold count_status.
  destruct (String.eqb k s) eqn:E.
  - apply String.eqb_eq in E. subst k. rewrite Hs. by rewrite lookup_insert_eq.
  - apply String.eqb_neq in E.
    destruct (m !! k) as [u|].
    + by rewrite lookup_insert_ne.
    + repeat case_bool_decide; try done. by rewrite lookup_insert_ne.
Qed.

(** The loop, counter by counter. *)
Lemma kpis_fold tz todayStr sow eow tasks : forall acc,
  let k := fold_left (kpi_step tz todayStr sow eow) tasks acc in
  total k = total acc
  /\ byStatus k = fold_left count_status (map status tasks) (byStatus acc)
  /\ overdue k = overdue acc
       + count (fun t => str_lt (Types.date t) todayStr
                         && negb (String.eqb (status t) COMPLETED)) tasks
  /\ todayCount k = todayCount acc
       + count (fun t => String.eqb (Types.date t) todayStr) tasks
  /\ weekCount k = weekCount acc
       + count (fun t => date_ge (tDate tz (Types.date t)) sow
                         && date_le (tDate tz (Types.date t)) eow) tasks.
Proof.
  induction tasks as [|t tasks IH]; intros acc; simpl.
  - unfold count; simpl. repeat split; lia.
  - destruct (IH (kpi_step tz todayStr sow eow acc t)) as (H1 & H2 & H3 & H4 & H5).
    rewrite H1, H2, H3, H4, H5, !count_cons. simpl.
    repeat split;
      repeat match goal with |- context [if ?b then _ else _] => destruct b end; lia.
Qed.

Lemma byStatus_fold statuses : forall (m : gmap string number) s n,
  m !! s = Some (Int n) ->
  fold_left count_status statuses m !! s
  = Some (Int (n + count (fun k => String.eqb k s) statuses)).
Proof.
  induction statuses as [|k statuses IH]; intros m s n Hs; simpl.
  - rewrite Hs. unfold count. simpl. do 2 f_equal. lia.
  - rewrite (IH _ s (if String.eqb k s then n + 1 else n)).
    + rewrite count_cons. do 2 f_equal. destruct (String.eqb k s); lia.
    + rewrite (count_status_own m k s (Int n) Hs). by destruct (String.eqb k s).
Qed.

Lemma count_map {A B} (f : A -> B) (p : B -> bool) l :
  count p (map f l) = count (fun x => p (f x)) l.
Proof.
  induction l as [|x l IH]; [done|]. change (map f (x :: l)) with (f x :: map f l).
  by rewrite !count_cons, IH.
Qed.

Lemma count_ext {A} (p q : A -> bool) l :
  (forall x, x ∈ l -> p x = q x) -> count p l = count q l.
Proof.
  induction l as [|x l IH]; intros H; [done|].
  rewrite !count_cons, IH.
  - rewrite (H x) by (by left). done.
  - intros y Hy. apply H. by right.
Qed.

Lemma TimeClip_Some t u : TimeClip t = Some u -> u = t /\ - maxTime <= t <= maxTime.
Proof.
  unfold TimeClip. destruct (Z.abs t <=? maxTime) eqn:E; [|done].
  intros [= <-]. apply Z.leb_le in E. lia.
Qed.

Lemma WeekDay_bounds t : 0 <= WeekDay t <= 6.
Proof. unfold WeekDay. pose proof (Z.mod_pos_bound (Day t + 4) 7). lia. Qed.

Lemma weekStart_sunday (tz : Z) now :
  WeekDay (MakeDate (weekStart tz now) 0) = 0
  /\ weekStart tz now <= Day (LocalTime tz now) <= weekStart tz now + 6.
Proof.
  pose proof (WeekDay_bounds (LocalTime tz now)) as Hw.
  unfold weekStart. split; [|lia].
  unfold WeekDay at 1, MakeDate, Day at 1. rewrite Z.add_0_r, Z.div_mul by done.
  unfold WeekDay. Z.div_mod_to_equations. lia.
Qed.

Lemma startOfWeek_value (tz : Z) now :
  plausible_clock now -> plausible_zone tz ->
  startOfWeek tz now = Some (UTC tz (MakeDate (weekStart tz now) 0)).
Proof.
  unfold plausible_clock, plausible_zone, msPerDay. intros Hn Hz.
  pose proof (WeekDay_bounds (LocalTime tz now)) as Hw.
  unfold startOfWeek. cbv zeta. unfold getDay, getDate, num_sub.
  replace (DateFromTime (LocalTime tz now) - WeekDay (LocalTime tz now))
    with (DateFromTime (LocalTime tz now) + - WeekDay (LocalTime tz now)) by lia.
  rewrite setDate_relative.
  rewrite TimeClip_in_range by (unfold maxTime, msPerDay; lia).
  unfold setHours4, weekStart. cbv zeta. unfold MakeTime.
  replace (LocalTime tz (now + - WeekDay (LocalTime tz now) * msPerDay))
    with (LocalTime tz now + - WeekDay (LocalTime tz now) * msPerDay)
    by (unfold LocalTime, fixed_zone; lia).
  rewrite Day_shift.
  replace (Day (LocalTime tz now) + - WeekDay (LocalTime tz now))
    with (Day (LocalTime tz now) - WeekDay (LocalTime tz now)) by lia.
  apply TimeClip_in_range.
  unfold UTC, MakeDate, LocalTime, fixed_zone, Day, maxTime, msPerDay, msPerHour, msPerMinute,
    msPerSecond in *.
  Z.div_mod_to_equations. lia.
Qed.

Lemma endOfWeek_value (tz : Z) now :
  plausible_clock now -> plausible_zone tz ->
  endOfWeek tz now = Some (UTC tz (MakeDate (weekStart tz now + 6) (msPerDay - 1))).
Proof.
  intros Hn Hz. unfold endOfWeek. cbv zeta.
  rewrite startOfWeek_value by done.
  pose proof (WeekDay_bounds (LocalTime tz now)) as Hw.
  assert (HS : -8 <= weekStart tz now <= 2932898).
  { unfold weekStart, plausible_clock, plausible_zone, LocalTime, fixed_zone, Day, msPerDay in *.
    Z.div_mod_to_equations. lia. }
  unfold getDate, num_add. rewrite setDate_relative.
  unfold plausible_zone in Hz.
  rewrite TimeClip_in_range
    by (unfold UTC, fixed_zone, MakeDate, maxTime, msPerDay in *; lia).
  unfold setHours4. cbv zeta.
  replace (Day (LocalTime tz (UTC tz (MakeDate (weekStart tz now) 0) + 6 * msPerDay)))
    with (weekStart tz now + 6)
    by (unfold Day, LocalTime, UTC, fixed_zone, MakeDate, msPerDay; Z.div_mod_to_equations; lia).
  apply TimeClip_in_range.
  unfold UTC, fixed_zone, MakeDate, MakeTime, maxTime, msPerDay, msPerHour, msPerMinute,
    msPerSecond in *. lia.
Qed.

Lemma tDate_dayNumber (tz : Zone) date :
  tDate tz date =
    match dayNumber date with
    | Some n => TimeClip (UTC tz (MakeDate n 0))
    | None => None
    end.
Proof.
  unfold tDate, dayNumber. cbv zeta.
  destruct (elem _ 0) as [y|]; [|done].
  destruct (elem _ 1) as [m|]; [|done].
  destruct (elem _ 2) as [d|]; [|done]. reflexivity.
Qed.

Lemma in_week_days (tz : Z) now date :
  plausible_clock now -> plausible_zone tz ->
  date_ge (tDate tz date) (startOfWeek tz now)
  && date_le (tDate tz date) (endOfWeek tz now)
  = in_days (weekStart tz now) (weekStart tz now + 6) date.
Proof.
  intros Hn Hz.
  rewrite startOfWeek_value, endOfWeek_value, tDate_dayNumber by done.
  pose proof (WeekDay_bounds (LocalTime tz now)) as Hw.
  assert (HS : -8 <= weekStart tz now <= 2932898).
  { unfold weekStart, plausible_clock, plausible_zone, LocalTime, fixed_zone, Day, msPerDay in *.
    Z.div_mod_to_equations. lia. }
  unfold in_days. destruct (dayNumber date) as [n|]; [|done].
  unfold plausible_zone, msPerDay in Hz.
  unfold TimeClip, UTC, fixed_zone, MakeDate, maxTime, msPerDay.
  destruct (Z.abs _ <=? _) eqn:E; simpl.
  - apply eq_true_iff_eq. rewrite !andb_true_iff, !Z.leb_le. lia.
  - apply Z.leb_gt in E. symmetry. apply andb_false_iff.
    rewrite !Z.leb_gt. lia.
Qed.

(** The week of a zone that keeps its offset over the ten days before
    and after [now]. *)
Lemma startOfWeek_steady (z : Zone) (tz : Z) now :
  plausible_clock now -> plausible_zone tz ->
  steady z tz (now - 10 * msPerDay) (now + 10 * msPerDay) ->
  startOfWeek z now = startOfWeek tz now.
Proof.
  intros Hn Hz Hst.
  pose proof (WeekDay_bounds (LocalTime tz now)) as Hw.
  assert (Hnow : now - 10 * msPerDay <= now <= now + 10 * msPerDay)
    by (unfold msPerDay; lia).
  unfold startOfWeek. cbv zeta. unfold getDay, getDate, num_sub.
  rewrite (LocalTime_steady z tz _ _ now Hst Hnow).
  replace (DateFromTime (LocalTime tz now) - WeekDay (LocalTime tz now))
    with (DateFromTime (LocalTime tz now) + - WeekDay (LocalTime tz now)) by lia.
  rewrite (setDate_steady z tz _ _ now _ Hst Hnow)
    by (unfold plausible_zone, msPerDay in *; lia).
  rewrite setDate_relative.
  rewrite TimeClip_in_range
    by (unfold plausible_clock, maxTime, msPerDay in *; lia).
  apply (setHours4_steady z tz _ _ _ _ _ _ _ Hst).
  - unfold msPerDay. lia.
  - unfold plausible_clock, plausible_zone in *.
    unfold MakeDate, MakeTime, LocalTime, fixed_zone, Day, msPerDay in *.
    Z.div_mod_to_equations. lia.
Qed.

Lemma weekStart_near (tz : Z) now :
  plausible_zone tz ->
  now - 8 * msPerDay <= MakeDate (weekStart tz now) 0 <= now + msPerDay.
Proof.
  intros Hz. pose proof (WeekDay_bounds (LocalTime tz now)) as Hw.
  unfold weekStart, plausible_zone in *.
  unfold MakeDate, LocalTime, fixed_zone, Day, msPerDay in *.
  Z.div_mod_to_equations. lia.
Qed.

Lemma endOfWeek_steady (z : Zone) (tz : Z) now :
  plausible_clock now -> plausible_zone tz ->
  steady z tz (now - 10 * msPerDay) (now + 10 * msPerDay) ->
  endOfWeek z now = endOfWeek tz now.
Proof.
  intros Hn Hz Hst.
  pose proof (weekStart_near tz now Hz) as HS.
  unfold endOfWeek. cbv zeta.
  rewrite (startOfWeek_steady z tz) by done.
  rewrite startOfWeek_value by done.
  set (sow := UTC tz (MakeDate (weekStart tz now) 0)).
  assert (Hsow : now - 9 * msPerDay <= sow <= now + 2 * msPerDay).
  { subst sow. unfold plausible_zone in *.
    unfold UTC, fixed_zone, msPerDay in *. lia. }
  unfold getDate, num_add.
  rewrite (LocalTime_steady z tz _ _ sow Hst) by (unfold msPerDay in *; lia).
  rewrite (setDate_steady z tz _ _ sow _ Hst)
    by (subst sow; unfold plausible_zone, UTC, fixed_zone, msPerDay in *; lia).
  rewrite setDate_relative.
  rewrite TimeClip_in_range
    by (unfold plausible_clock, maxTime, msPerDay in *; lia).
  apply (setHours4_steady z tz _ _ _ _ _ _ _ Hst).
  - unfold msPerDay in *. lia.
  - subst sow. unfold plausible_zone in *.
    unfold MakeDate, MakeTime, LocalTime, UTC, fixed_zone, Day, msPerDay,
      msPerHour, msPerMinute, msPerSecond in *.
    Z.div_mod_to_equations. lia.
Qed.

(** A date far from the week is outside it whatever the offset there, as
    long as offsets are of at most a day. *)
Lemma in_week_days_steady (z : Zone) (tz : Z) now date :
  plausible_clock now -> plausible_zone tz ->
  steady z tz (now - 10 * msPerDay) (now + 10 * msPerDay) ->
  (forall u isUTC, plausible_zone (z u isUTC)) ->
  date_ge (tDate z date) (startOfWeek z now)
  && date_le (tDate z date) (endOfWeek z now)
  = in_days (weekStart tz now) (weekStart tz now + 6) date.
Proof.
  intros Hn Hz Hst Hb.
  rewrite (startOfWeek_steady z tz), (endOfWeek_steady z tz) by done.
  rewrite startOfWeek_value, endOfWeek_value, tDate_dayNumber by done.
  pose proof (weekStart_near tz now Hz) as HS.
  unfold in_days. destruct (dayNumber date) as [n|]; [|done].
  set (S := weekStart tz now) in *.
  pose proof (Hb (MakeDate n 0) false) as Ho.
  assert (Hin : S - 2 <= n <= S + 8 -> z (MakeDate n 0) false = tz).
  { intros Hr. apply Hst. unfold MakeDate, msPerDay in *. lia. }
  unfold UTC at 1 3. set (o := z (MakeDate n 0) false) in *.
  unfold plausible_zone, plausible_clock in *.
  unfold TimeClip, UTC, fixed_zone, MakeDate, maxTime, msPerDay in *.
  destruct (Z.abs _ <=? _) eqn:E; simpl.
  - apply eq_true_iff_eq. rewrite !andb_true_iff, !Z.leb_le. lia.
  - apply Z.leb_gt in E. symmetry. apply andb_false_iff.
    rewrite !Z.leb_gt. lia.
Qed.

Lemma dayNumber_isoDatePart t :
  100 <= YearFromTime t <= 9999 -> dayNumber (isoDatePart t) = Some (Day t).
Proof.
  intros Hy. unfold dayNumber. cbv zeta.
  rewrite isoDatePart_fields by lia. simpl.
  destruct ((0 <=? YearFromTime t) && (YearFromTime t <=? 99)) eqn:E.
  { apply andb_prop in E as [_ E]. apply Z.leb_le in E. lia. }
  rewrite Z.add_simpl_r, MakeDay_fields. f_equal. lia.
Qed.

Lemma count_statuses (l : list Task) :
  count (fun t => String.eqb (status t) NOT_STARTED) l
  + count (fun t => String.eqb (status t) IN_PROGRESS) l
  + count (fun t => String.eqb (status t) COMPLETED) l
  = count (fun t => is_status (status t)) l.
Proof.
  induction l as [|t l IH]; [done|].
  rewrite !count_cons, <- IH. unfold is_status.
  destruct (String.eqb (status t) NOT_STARTED) eqn:E1;
    [apply String.eqb_eq in E1; rewrite E1; simpl; lia|].
  destruct (String.eqb (status t) IN_PROGRESS) eqn:E2;
    [apply String.eqb_eq in E2; rewrite E2; simpl; lia|].
  destruct (String.eqb (status t) COMPLETED); simpl; lia.
Qed.

(** Each of the three counters holds the number of tasks of its status. *)
Lemma kpis_byStatus tz tasks now s :
  enumerated s ->
  byStatus (kpis tz tasks now) !! s
  = Some (Int (count (fun t => String.eqb (status t) s) tasks)).
Proof.
  intros Hs.
  destruct (kpis_fold tz (first_part "T" (isoString now)) (startOfWeek tz now)
              (endOfWeek tz now) tasks
              (mkKpis (Z.of_nat (length tasks)) byStatus0 0 0 0))
    as (_ & H2 & _).
  fold (kpis tz tasks now) in H2. rewrite H2. simpl.
  rewrite (byStatus_fold _ byStatus0 s 0).
  - by rewrite count_map.
  - destruct Hs as [-> | [-> | ->]]; by vm_compute.
Qed.

(** The keys of [byStatus]: a status that is not the name of an
    inherited property adds none. *)
Lemma byStatus0_dom :
  dom byStatus0 = ({[NOT_STARTED; IN_PROGRESS; COMPLETED]} : gset string).
Proof.
  unfold byStatus0. rewrite !dom_insert_L, dom_empty_L. set_solver.
Qed.

Lemma count_status_dom (m : gmap string number) k :
  k ∉ Object_prototype -> dom (count_status m k) = dom m.
Proof.
  intros Hk. unfold count_status. destruct (m !! k) as [v|] eqn:E.
  - apply dom_insert_lookup_L. by rewrite E.
  - by rewrite bool_decide_eq_false_2.
Qed.

Lemma fold_count_status_dom (tasks : list Task) : forall m,
  Forall (fun t => status t ∉ Object_prototype) tasks ->
  dom (fold_left count_status (map status tasks) m) = dom m.
Proof.
  induction tasks as [|t tasks IH]; intros m H; [done|].
  apply Forall_cons in H as [Ht H]. simpl.
  rewrite IH by done. by apply count_status_dom.
Qed.

Lemma count_nonneg {A} (p : A -> bool) l : 0 <= count p l.
Proof. unfold count. lia. Qed.




(** At that moment a task dated the Sunday is due today, and yet not in
    the week, which ends with the Saturday. *)
Lemma kpis_today_outside_week :
  let k := kpis (-18000000) [Examples.next_sunday] MoreExamples.saturday_evening in
  todayCount k = 1 /\ weekCount k = 0.
Proof. vm_compute. split; reflexivity. Qed.

(** A status that names an inherited property, such as ["constructor"],
    is in none of the three counts, but leaves a key of its own, holding
    [NaN]. *)
Lemma kpis_inherited_status :
  let k := kpis (-18000000) [MoreExamples.odd_status] Examples.tuesday in
  byStatus k !! NOT_STARTED = Some (Int 0)
  /\ byStatus k !! IN_PROGRESS = Some (Int 0)
  /\ byStatus k !! COMPLETED = Some (Int 0)
  /\ byStatus k !! "constructor" = Some NaN.
Proof. vm_compute. repeat split. Qed.

End KpiFacts.

Section PieFacts.
Import Js Types Dashboard.

Lemma totalForPie_from pie : forall a,
  Forall counted pie ->
  fold_left (fun acc cur => num_add acc (value cur)) pie (Int a)
  = Int (a + sum_values pie).
Proof.
  induction pie as [|d pie IH]; intros a H; simpl.
  - f_equal. lia.
  - apply Forall_cons in H as [(n & Hn & _) H]. rewrite Hn. simpl.
    rewrite IH by done. f_equal. lia.
Qed.

Lemma sum_values_pos pie : Forall counted pie -> pie <> [] -> 0 < sum_values pie.
Proof.
  intros H Hne. destruct pie as [|d pie]; [done|].
  apply Forall_cons in H as [(n & Hn & Hpos) H]. simpl. rewrite Hn. simpl.
  assert (0 <= sum_values pie); [|lia].
  clear -H. induction H as [|e pie (m & Hm & Hp) _ IH]; simpl; [lia|].
  rewrite Hm. simpl. lia.
Qed.

Lemma percentage_counted total d :
  0 < total -> counted d ->
  percentage (Int total) d
  = Some (inject_Z (int_value (value d)) / inject_Z total * inject_Z 100)%Q.
Proof.
  intros Ht (n & Hn & _). unfold percentage, js_div. rewrite Hn. simpl.
  destruct (total =? 0) eqn:E; [apply Z.eqb_eq in E; lia|done].
Qed.

Lemma stops_from_defined total pie : forall angle,
  0 < total -> Forall counted pie -> is_Some angle ->
  Forall stop_defined (stops_from (Int total) angle pie).
Proof.
  induction pie as [|d pie IH]; intros angle Ht H Ha; simpl; [constructor|].
  apply Forall_cons in H as [Hd H].
  assert (is_Some (ratio_add angle (percentage (Int total) d))) as Hend.
  { rewrite percentage_counted by done. destruct Ha as [a ->]. by eexists. }
  constructor; [by split|]. by apply IH.
Qed.


End PieFacts.

Section StoreExamples.
Import Js Runtime Types TaskService Runs Examples.

(** A storage whose text under the key is cut short reads as empty. *)
Lemma getAllTasks_best_effort_witness :
  fst (getAllTasks corrupt_world) = Normal []
  /\ localStorage (snd (getAllTasks corrupt_world)) = localStorage corrupt_world.
Proof.
  destruct (getAllTasks_best_effort corrupt_world) as (H1 & _ & H2 & _).
  split; [|exact H2]. apply H1. right. by exists "[{".
Defined.

(** Deleting an id that is not stored changes nothing; deleting a stored
    id twice is deleting it once. *)
Lemma deleteTask_idempotent_witness :
  collection (snd (deleteTask "task-9" one_task_world)) = collection one_task_world
  /\ collection (snd (deleteTask "task-0" (snd (deleteTask "task-0" one_task_world))))
     = collection (snd (deleteTask "task-0" one_task_world)).
Proof.
  destruct (deleteTask_idempotent "task-9" one_task_world) as (_ & _ & _ & H & _).
  destruct (deleteTask_idempotent "task-0" one_task_world) as (_ & _ & _ & _ & _ & H' & _).
  split; [|exact H']. apply H.
  intros t Ht. vm_compute in Ht. apply list_elem_of_singleton in Ht. by subst t.
Defined.

(** An edit of a task that is not stored is refused; once the task is
    stored the edit is returned and stored with its own fields and the
    time of the call. *)
Lemma updateTask_NotFound_or_replace_witness :
  fst (updateTask demo_env demo_edit demo_world) = Throw (Error "Task not found")
  /\ fst (updateTask demo_env demo_edit one_task_world)
     = Normal (mkTask "task-0" "2023-11-15" (Some "09:00") "10:00" IN_PROGRESS []
                      (tuesday + 1) (tuesday + 3) [("title", "Write report")])
  /\ collection (snd (updateTask demo_env demo_edit one_task_world))
     = [mkTask "task-0" "2023-11-15" (Some "09:00") "10:00" IN_PROGRESS []
               (tuesday + 1) (tuesday + 3) [("title", "Write report")]].
Proof.
  destruct (updateTask_NotFound_or_replace demo_env demo_edit demo_world) as [H _].
  destruct (updateTask_NotFound_or_replace demo_env demo_edit one_task_world) as [_ H'].
  split.
  - apply H. intros t Ht. vm_compute in Ht. by apply elem_of_nil in Ht.
  - destruct H' as (i & old & Hold & _ & _ & _ & _ & _ & _ & _ & _ & _ & _ & E & Hc & _).
    + eexists. split; [vm_compute; apply list_elem_of_here|reflexivity].
    + rewrite E, Hc. split; [reflexivity|].
      destruct i as [|i]; [reflexivity|].
      apply lookup_lt_Some in Hold. vm_compute in Hold. lia.
Defined.

(** With two tasks stored, an edit keeps two records and a deletion
    leaves a subsequence. *)
Lemma mutators_frame_witness :
  (exists updated,
     fst (updateTask demo_env demo_edit two_task_world) = Normal updated
     /\ length (collection (snd (updateTask demo_env demo_edit two_task_world))) = 2%nat)
  /\ sublist (collection (snd (deleteTask "task-0" two_task_world)))
             (collection two_task_world).
Proof.
  destruct (mutators_frame demo_env demo_edit "task-0" two_task_world) as [Hu Hd].
  split.
  - eexists. split; [by vm_compute|].
    destruct (Hu _ eq_refl) as (i & old & _ & _ & _ & Hlen & _).
    rewrite Hlen. reflexivity.
  - by destruct Hd as (_ & _ & _ & Hs).
Defined.

End StoreExamples.

Section PieExamples.
Import Js Types Dashboard Examples.


End PieExamples.

Section TrendFacts.
Import Js Types Dashboard.

Lemma count_c_total {A} (p : A -> completion bool) (q : A -> bool) l :
  (forall x, x ∈ l -> p x = Normal (q x)) -> count_c p l = Normal (count q l).
Proof.
  induction l as [|x l IH]; intros H; [done|].
  simpl. rewrite (H x) by (by left). rewrite IH by (intros y Hy; apply H; by right).
  rewrite count_cons. by destruct (q x).
Qed.

Lemma isoDay_valid t :
  - maxTime <= t <= maxTime -> isoDay (new_Date_ms (Int t)) = Normal (isoDatePart t).
Proof.
  intros H. unfold isoDay, new_Date_ms. rewrite TimeClip_in_range by done.
  simpl. by rewrite first_part_isoString.
Qed.

Lemma window_day (tz : Z) now i :
  plausible_clock now -> 0 <= i <= 13 ->
  setDate tz (Some now) (num_sub (getDate tz (Some now)) (Int i))
  = Some (now - i * msPerDay)
  /\ 1969 <= YearFromTime (now - i * msPerDay) <= 9999
  /\ Day (now - i * msPerDay) = Day now - i.
Proof.
  unfold plausible_clock. intros Hn Hi.
  unfold getDate, num_sub.
  replace (DateFromTime (LocalTime tz now) - i)
    with (DateFromTime (LocalTime tz now) + - i) by lia.
  rewrite setDate_relative.
  replace (now + - i * msPerDay) with (now - i * msPerDay) by lia.
  split; [apply TimeClip_in_range; unfold maxTime, msPerDay; lia|].
  split; [apply YearFromTime_plausible; unfold msPerDay; lia|].
  replace (now - i * msPerDay) with (now + - i * msPerDay) by lia.
  rewrite Day_shift. lia.
Qed.

Lemma trend_point_value (tz : Z) tasks now i :
  plausible_clock now -> 0 <= i <= 13 ->
  Forall (fun t => - maxTime <= createdAt t <= maxTime) tasks ->
  trend_point tz tasks now i = Normal (day_point tz tasks now i).
Proof.
  intros Hn Hi Hvalid.
  destruct (window_day tz now i Hn Hi) as (Hd & Hy & HD).
  unfold trend_point. rewrite Hd.
  change (isoDay (Some (now - i * msPerDay)))
    with (Normal (first_part "T" (isoString (now - i * msPerDay)))).
  rewrite first_part_isoString.
  rewrite (count_c_total _ (fun t => Day (createdAt t) =? Day now - i)).
  - unfold day_point. do 2 f_equal.
    rewrite (isoDatePart_Day (MakeDate (Day now - i) 0) (now - i * msPerDay)); [done|].
    rewrite HD. unfold MakeDate, Day. rewrite Z.add_0_r. by apply Z.div_mul.
  - intros t Ht. rewrite isoDay_valid by (by apply (proj1 (Forall_forall _ _) Hvalid)).
    rewrite isoDatePart_eqb by lia. by rewrite HD.
Qed.

Lemma trend_loop_value (tz : Z) tasks now n : forall data,
  plausible_clock now -> (n <= 14)%nat ->
  Forall (fun t => - maxTime <= createdAt t <= maxTime) tasks ->
  trend_loop tz tasks now n data
  = Normal (data ++ map (fun i => day_point tz tasks now (Z.of_nat i))
                        (rev (seq 0 n)))%list.
Proof.
  induction n as [|i IH]; intros data Hn Hle Hvalid; cbn [trend_loop].
  - simpl. by rewrite app_nil_r.
  - rewrite trend_point_value by (done || lia).
    rewrite IH by (done || lia).
    rewrite seq_S, rev_app_distr. simpl. by rewrite <- app_assoc.
Qed.

Lemma count_without {A} (p : A -> bool) l1 x l2 :
  p x = false -> count p (l1 ++ x :: l2) = count p (l1 ++ l2).
Proof.
  intros Hx. induction l1 as [|y l1 IH]; simpl.
  - by rewrite count_cons, Hx.
  - by rewrite !count_cons, IH.
Qed.

(** In a zone that keeps its offset over the window, the loop sees the
    dates it would see with that offset throughout. *)
Lemma trend_point_steady (z : Zone) (tz : Z) tasks now i :
  plausible_clock now -> plausible_zone tz -> 0 <= i <= 13 ->
  steady z tz (now - 14 * msPerDay) (now + msPerDay) ->
  trend_point z tasks now i = trend_point tz tasks now i.
Proof.
  intros Hn Hz Hi Hst.
  destruct (window_day tz now i Hn Hi) as (Hd & _ & _).
  assert (Hrange : forall k, 0 <= k <= 13 ->
            now - 14 * msPerDay <= now - k * msPerDay <= now + msPerDay)
    by (intros k Hk; unfold msPerDay; lia).
  assert (Hd' : setDate z (Some now) (num_sub (getDate z (Some now)) (Int i))
                = Some (now - i * msPerDay)).
  { rewrite <- Hd. unfold getDate, num_sub.
    rewrite (LocalTime_steady z tz _ _ now Hst) by (unfold msPerDay; lia).
    replace (DateFromTime (LocalTime tz now) - i)
      with (DateFromTime (LocalTime tz now) + - i) by lia.
    apply (setDate_steady z tz _ _ now _ Hst); [unfold msPerDay; lia|].
    unfold plausible_zone, msPerDay in *. lia. }
  unfold trend_point. rewrite Hd, Hd'. cbv zeta.
  assert (Hl : toLocaleDateString_short z (Some (now - i * msPerDay))
               = toLocaleDateString_short tz (Some (now - i * msPerDay))).
  { unfold toLocaleDateString_short.
    by rewrite (LocalTime_steady z tz _ _ _ Hst) by (by apply Hrange). }
  by rewrite Hl.
Qed.

Lemma trend_loop_steady (z : Zone) (tz : Z) tasks now n : forall data,
  plausible_clock now -> plausible_zone tz -> (n <= 14)%nat ->
  steady z tz (now - 14 * msPerDay) (now + msPerDay) ->
  trend_loop z tasks now n data = trend_loop tz tasks now n data.
Proof.
  induction n as [|i IH]; intros data Hn Hz Hle Hst; [done|].
  cbn [trend_loop]. rewrite (trend_point_steady z tz) by (done || lia).
  destruct (trend_point tz tasks now (Z.of_nat i)); [|done].
  apply IH; (done || lia).
Qed.

Lemma lineChartData_steady (z : Zone) (tz : Z) tasks now :
  plausible_clock now -> plausible_zone tz ->
  steady z tz (now - 14 * msPerDay) (now + msPerDay) ->
  lineChartData z tasks now = lineChartData tz tasks now.
Proof. intros. unfold lineChartData. by apply trend_loop_steady. Qed.

(** The 14 points in a zone of one offset. *)
Lemma lineChartData_days (tz : Z) (tasks : list Task) (now : Z) :
  plausible_clock now ->
  Forall (fun t => - maxTime <= createdAt t <= maxTime) tasks ->
  exists data,
    lineChartData tz tasks now = Normal data
    /\ length data = 14%nat
    /\ (forall j, (j < 14)%nat ->
          let back := 13 - Z.of_nat j in
          let day := Day now - back in
          exists p,
            data !! j = Some p
            /\ LineChart.created p = count (fun t => Day (createdAt t) =? day) tasks
            /\ LineChart.completed p
               = count (fun t => String.eqb (Types.date t) (isoDatePart (MakeDate day 0))
                                 && String.eqb (status t) COMPLETED) tasks
            /\ LineChart.date p
               = toLocaleDateString_short tz (Some (now - back * msPerDay)))
    /\ (forall l1 t l2,
          tasks = (l1 ++ t :: l2)%list -> createdAt t = now - 15 * msPerDay ->
          forall j p, data !! j = Some p ->
            LineChart.created p
            = count (fun u => Day (createdAt u) =? Day now - (13 - Z.of_nat j))
                    (l1 ++ l2)%list).
Proof.
  intros Hn Hvalid.
  unfold lineChartData, days. rewrite trend_loop_value by (done || lia).
  eexists. split; [reflexivity|].
  assert (Hpoints : forall j, (j < 14)%nat ->
    (map (fun i => day_point tz tasks now (Z.of_nat i)) (rev (seq 0 14))) !! j
    = Some (day_point tz tasks now (13 - Z.of_nat j))).
  { intros j Hj.
    do 14 (destruct j as [|j]; [reflexivity|]). lia. }
  split; [reflexivity|]. split.
  - intros j Hj. exists (day_point tz tasks now (13 - Z.of_nat j)).
    split; [by apply Hpoints|]. done.
  - intros l1 t l2 Htasks Ht j p Hp.
    change ([] ++ ?l)%list with l in Hp.
    assert (Hj : (j < 14)%nat) by (apply lookup_lt_Some in Hp; simpl in Hp; lia).
    rewrite (Hpoints j Hj) in Hp. injection Hp as <-.
    simpl. rewrite Htasks. apply count_without.
    rewrite Ht. replace (now - 15 * msPerDay) with (now + - 15 * msPerDay) by lia.
    rewrite Day_shift. apply Z.eqb_neq. lia.
Qed.



End TrendFacts.

Section TrendExamples.
Import Js Types Dashboard Examples.



End TrendExamples.

(** * More about the task store *)

Section StoreMore.
Import Js Runtime Types TaskService Runs.

Lemma createTask_storage env input w :
  exists t, localStorage (snd (createTask env input w))
            = <[STORAGE_KEY := Stringified (collection w ++ [t])]> (localStorage w).
Proof.
  destruct (createTask_run env input w) as (t & msgs & k & E & _).
  exists t. by rewrite E.
Qed.

Lemma updateTask_storage env task w :
  localStorage (snd (updateTask env task w)) = localStorage w
  \/ exists ts, localStorage (snd (updateTask env task w))
                = <[STORAGE_KEY := Stringified ts]> (localStorage w).
Proof.
  destruct (findIndex (id task) (collection w)) as [i|] eqn:Hi.
  - destruct (updateTask_found env task w i Hi) as (_ & H & _). right. eauto.
  - destruct (updateTask_missing env task w Hi) as (_ & H & _). by left.
Qed.

Lemma step_other_keys env op (w : World Task) key :
  key <> STORAGE_KEY ->
  localStorage (step env w op) !! key = localStorage w !! key.
Proof.
  intros Hkey. destruct op as [input|task|taskId]; simpl.
  - destruct (createTask_storage env input w) as [t ->]. by rewrite lookup_insert_ne.
  - destruct (updateTask_storage env task w) as [->|[ts ->]]; [done|].
    by rewrite lookup_insert_ne.
  - rewrite deleteTask_storage. by rewrite lookup_insert_ne.
Qed.

Lemma run_other_keys env ops (w : World Task) key :
  key <> STORAGE_KEY ->
  localStorage (run env ops w) !! key = localStorage w !! key.
Proof.
  intros Hkey. revert w. induction ops as [|op ops IH]; intros w; [done|].
  simpl. rewrite IH. by apply step_other_keys.
Qed.

(** X2.  The mutators write under the fixed key only: whatever sequence of
    calls is made, every other key of the storage keeps its value. *)
Theorem mutators_other_keys (env : Env) (ops : list Op) (w : World Task) (key : string) :
  key <> STORAGE_KEY ->
  localStorage (run env ops w) !! key = localStorage w !! key.
Proof.
  intros Hkey. revert w. induction ops as [|op ops IH]; intros w; [done|].
  change (run env (op :: ops) w) with (run env ops (step env w op)).
  rewrite IH. by apply step_other_keys.
Qed.

(** X3.  Creating a task and deleting it by the id returned gives back the
    collection there was, when that id was not in use. *)
Theorem createTask_then_deleteTask (env : Env) (input : TaskInput) (w : World Task) :
  uuid env (uuid_draws w) ∉ id <$> collection w ->
  exists t w1,
    createTask env input w = (Normal t, w1)
    /\ collection (snd (deleteTask (id t) w1)) = collection w.
Proof.
  intros Hfresh.
  destruct (createTask_run env input w) as (t & msgs & k & E & _ & Ht & _).
  eexists t, _. split; [exact E|].
  rewrite deleteTask_collection.
  rewrite (collection_denotes (mkWorld _ _ _ _)). simpl. rewrite denotes_insert.
  rewrite filter_app, filter_cons_False, filter_nil, app_nil_r by (intros H; by apply H).
  apply filter_all. apply Forall_forall. intros u Hu Heq.
  apply Hfresh. apply list_elem_of_fmap. exists u. split; [|done].
  rewrite Heq, Ht. reflexivity.
Qed.

(** X4.  After [deleteTask(id)], an update of a task with that id is refused. *)
Theorem deleteTask_then_updateTask (env : Env) (task : Task) (w : World Task) :
  let w1 := snd (deleteTask (id task) w) in
  fst (updateTask env task w1) = Throw (Error "Task not found")
  /\ localStorage (snd (updateTask env task w1)) = localStorage w1.
Proof.
  intros w1.
  assert (Hi : findIndex (id task) (collection w1) = None).
  { apply findIndex_None. intros t Ht. subst w1.
    rewrite deleteTask_collection in Ht.
    by apply list_elem_of_filter in Ht as [? _]. }
  by destruct (updateTask_missing env task w1 Hi) as (H1 & H2 & _).
Qed.

(** X5.  A task that [createTask] has just returned can be edited: an
    update carrying its id is not refused.  It returns a record that has
    the fields of the edit (date, start and end time, status, subtasks,
    creation time, details, and the id) and the time of the edit as
    [updatedAt]; when that id was not in use before, the collection
    afterwards is the prior one followed by this record. *)
Theorem createTask_then_updateTask (env : Env) (input : TaskInput) (edit : Task)
    (w : World Task) :
  exists t w1,
    createTask env input w = (Normal t, w1)
    /\ (id edit = id t ->
        exists u,
          fst (updateTask env edit w1) = Normal u
          /\ id u = id t
          /\ date u = date edit
          /\ startTime u = startTime edit
          /\ endTime u = endTime edit
          /\ status u = status edit
          /\ subtasks u = subtasks edit
          /\ createdAt u = createdAt edit
          /\ details u = details edit
          /\ updatedAt u = clock env (clock_reads w1)
          /\ (uuid env (uuid_draws w) ∉ id <$> collection w ->
              collection (snd (updateTask env edit w1)) = (collection w ++ [u])%list)).
Proof.
  destruct (createTask_run env input w) as (t & msgs & k & E & _ & Ht & _).
  eexists t, _. split; [exact E|]. intros Hid.
  set (w1 := mkWorld _ _ _ _).
  assert (Hc : collection w1 = (collection w ++ [t])%list).
  { rewrite (collection_denotes w1). simpl. apply denotes_insert. }
  exists (with_updatedAt edit (clock env (clock_reads w1))).
  destruct (findIndex (id edit) (collection w1)) as [i|] eqn:Hi.
  - destruct (updateTask_found env edit w1 i Hi) as (H1 & _ & H3 & _).
    split; [exact H1|]. do 9 (split; [done|]).
    intros Hfresh. rewrite H3, Hc.
    apply findIndex_Some in Hi as (old & Hold & Hoid & _).
    rewrite Hc in Hold.
    assert (i = length (collection w)) as ->.
    { destruct (decide (i < length (collection w))%nat) as [Hlt|Hge].
      - rewrite lookup_app_l in Hold by done. exfalso. apply Hfresh.
        apply list_elem_of_fmap. exists old. split.
        + rewrite Hoid, Hid, Ht. reflexivity.
        + by eapply list_elem_of_lookup_2.
      - apply lookup_lt_Some in Hold. rewrite length_app in Hold. simpl in Hold. lia. }
    rewrite insert_app_r_alt by lia. rewrite Nat.sub_diag. reflexivity.
  - exfalso. apply (proj1 (findIndex_None _ _) Hi t); [|done].
    rewrite Hc. apply elem_of_app. right. by apply list_elem_of_singleton.
Qed.

(** X6.  While the text under the key does not parse, every read logs a line
    and finds no task, and an update is refused and leaves the text in
    place; the first [createTask] or [deleteTask] replaces the text, and
    from then on reads are silent and change nothing. *)
Theorem corrupt_store (env : Env) (w : World Task) (a : ascii) (s : string) :
  localStorage w !! STORAGE_KEY = Some (Unparseable (String a s)) ->
  (fst (getAllTasks w) = Normal []
   /\ console (snd (getAllTasks w)) = (console w ++ ["Failed to load tasks"])%list)
  /\ (forall task,
        fst (updateTask env task w) = Throw (Error "Task not found")
        /\ localStorage (snd (updateTask env task w)) = localStorage w)
  /\ (forall input,
        let w1 := snd (createTask env input w) in
        (exists t, fst (createTask env input w) = Normal t /\ collection w1 = [t])
        /\ getAllTasks w1 = (Normal (collection w1), w1))
  /\ (forall taskId,
        let w1 := snd (deleteTask taskId w) in
        collection w1 = [] /\ getAllTasks w1 = (Normal [], w1)).
Proof.
  intros Hkey.
  assert (Hc : collection w = []).
  { rewrite collection_denotes. unfold denotes. by rewrite Hkey. }
  assert (Hsilent : forall ls c k u ts,
            getAllTasks (mkWorld (<[STORAGE_KEY := Stringified ts]> ls) c k u)
            = (Normal ts, mkWorld (<[STORAGE_KEY := Stringified ts]> ls) c k u)).
  { intros. unfold getAllTasks, try_catch, bind, getItem. simpl.
    by rewrite lookup_insert_eq. }
  split; [|split; [|split]].
  - destruct w as [ls c k u]. simpl in Hkey.
    unfold getAllTasks, try_catch, bind, getItem. simpl. by rewrite Hkey.
  - intros task.
    assert (Hi : findIndex (id task) (collection w) = None).
    { apply findIndex_None. intros t Ht. rewrite Hc in Ht. by apply elem_of_nil in Ht. }
    by destruct (updateTask_missing env task w Hi) as (H1 & H2 & _).
  - intros input w1. subst w1.
    destruct (createTask_run env input w) as (t & msgs & k & E & _).
    rewrite E, Hc. simpl. split.
    + exists t. split; [done|].
      rewrite (collection_denotes (mkWorld _ _ _ _)). simpl. apply denotes_insert.
    + rewrite (collection_denotes (mkWorld _ _ _ _)). simpl. rewrite denotes_insert.
      apply Hsilent.
  - intros taskId w1. subst w1.
    destruct (deleteTask_run taskId w) as [msgs E]. rewrite E, Hc. simpl.
    rewrite filter_nil. split.
    + rewrite (collection_denotes (mkWorld _ _ _ _)). simpl. apply denotes_insert.
    + apply Hsilent.
Qed.

End StoreMore.

Section EndTimeMore.
Import Js Runtime Types TaskService Runs.

(** X7.  A start time written without a colon, such as ["9"], ["0930"] or
    ["noon"], gives the end time ["NaN:NaN"]: the minutes are missing, and
    the date they are set on becomes invalid. *)
Theorem createTask_startTime_without_colon (env : Env) (input : TaskInput)
    (w : World Task) (s : string) :
  in_endTime input = None -> in_startTime input = Some s ->
  truthy s = true -> no_char ":" s = true ->
  exists t w1,
    createTask env input w = (Normal t, w1) /\ endTime t = "NaN:NaN".
Proof.
  intros Hend Hstart Hs Hcolon.
  destruct (createTask_run env input w) as (t & msgs & k & E & _ & _ & Hdef).
  exists t. eexists. split; [exact E|].
  rewrite Hend, Hstart, calculateDefaultEndTime_truthy in Hdef by done.
  rewrite split_whole_no_char in Hdef by done.
  cbv zeta in Hdef. simpl in Hdef.
  change (elem [Number s] 1) with NaN in Hdef. simpl in Hdef.
  match type of Hdef with
  | context [setMinutes _ ?d _] =>
      destruct d; simpl in Hdef; injection Hdef as <-; reflexivity
  end.
Qed.

End EndTimeMore.

(** * The application state *)

Section AppFacts.
Import Js Runtime Types TaskService Runs App.

Lemma handle_world env sw op : snd (handle env sw op) = step env (snd sw) op.
Proof.
  destruct sw as [st w]. unfold handle. simpl.
  destruct op as [input|task|taskId]; simpl.
  - unfold handleCreateTask, bind. by destruct (createTask env input w) as [[t|e] w'].
  - unfold handleUpdateTask, bind. by destruct (updateTask env task w) as [[t|e] w'].
  - unfold handleDeleteTask, bind. by destruct (deleteTask taskId w) as [[t|e] w'].
Qed.

(** With distinct ids, replacing by id, as the state does, is replacing
    at the index found, as the store does. *)
Lemma map_replace_insert (c : list Task) i old new :
  NoDup (id <$> c) -> c !! i = Some old -> id old = id new ->
  map (fun t => if String.eqb (id t) (id new) then new else t) c = <[i := new]> c.
Proof.
  intros Hnd Hold Hid. apply list_eq. intros j.
  change (map ?f c) with (f <$> c). rewrite list_lookup_fmap.
  destruct (decide (j = i)) as [->|Hne].
  - rewrite list_lookup_insert_eq by (by eapply lookup_lt_Some).
    rewrite Hold. simpl.
    by rewrite Hid, String.eqb_refl.
  - rewrite list_lookup_insert_ne by done.
    destruct (c !! j) as [u|] eqn:Hu; [|done]. simpl.
    destruct (String.eqb (id u) (id new)) eqn:E; [|done].
    apply String.eqb_eq in E. exfalso. apply Hne.
    apply (NoDup_lookup (id <$> c) j i (id new)); [done| |].
    + rewrite list_lookup_fmap, Hu. simpl. by rewrite E.
    + rewrite list_lookup_fmap, Hold. simpl. by rewrite Hid.
Qed.

(** One action keeps the state equal to the stored collection, and the
    stored ids distinct. *)
Lemma handle_mirrors env st w op :
  st = collection w -> NoDup (id <$> collection w) ->
  (match op with
   | Create _ => uuid env (uuid_draws w) ∉ id <$> collection w
   | _ => True
   end) ->
  fst (handle env (st, w) op) = collection (step env w op)
  /\ NoDup (id <$> collection (step env w op)).
Proof.
  intros -> Hnd Hfresh. unfold handle. simpl.
  destruct op as [input|task|taskId]; simpl.
  - destruct (createTask_run env input w) as (t & msgs & k & E & _ & Ht & _).
    unfold handleCreateTask, bind. rewrite E. simpl.
    rewrite (collection_denotes (mkWorld _ _ _ _)). simpl. rewrite denotes_insert.
    split; [done|]. rewrite fmap_app. apply NoDup_app. split; [done|].
    split; [|apply NoDup_singleton].
    intros x Hx Hx'. apply list_elem_of_singleton in Hx'. subst x.
    apply Hfresh. rewrite Ht in Hx. exact Hx.
  - unfold handleUpdateTask, bind.
    destruct (findIndex (id task) (collection w)) as [i|] eqn:Hi.
    + destruct (updateTask_found env task w i Hi) as (H1 & _ & H3 & _).
      destruct (updateTask env task w) as [r w'] eqn:E. simpl in *. subst r.
      simpl. rewrite H3.
      apply findIndex_Some in Hi as (old & Hold & Hoid & _).
      split.
      * apply (map_replace_insert (collection w) i old
                 (with_updatedAt task (clock env (clock_reads w)))); done.
      * rewrite list_fmap_insert. rewrite list_insert_id; [done|].
        rewrite list_lookup_fmap, Hold. simpl. by rewrite Hoid.
    + destruct (updateTask_missing env task w Hi) as (H1 & H2 & _).
      destruct (updateTask env task w) as [r w'] eqn:E. simpl in *. subst r.
      simpl. rewrite (collection_denotes w'), H2, <- collection_denotes. done.
  - unfold handleDeleteTask, bind.
    pose proof (deleteTask_collection taskId w) as Hc.
    destruct (deleteTask_run taskId w) as [msgs E]. rewrite E in *. simpl in *.
    rewrite Hc. split; [done|].
    apply (sublist_NoDup _ (id <$> collection w)); [done|].
    apply fmap_sublist, sublist_filter.
Qed.

Lemma session_mirrors env ops : forall st w,
  st = collection w -> NoDup (id <$> collection w) -> fresh_ids env ops w = true ->
  fst (session env ops (st, w)) = collection (snd (session env ops (st, w)))
  /\ NoDup (id <$> collection (snd (session env ops (st, w)))).
Proof.
  induction ops as [|op ops IH]; intros st w Hst Hnd Hfresh; [done|].
  simpl in Hfresh. apply andb_prop in Hfresh as [Hop Hrest].
  assert (Hnew : match op with
                 | Create _ => uuid env (uuid_draws w) ∉ id <$> collection w
                 | _ => True
                 end).
  { destruct op; [|done|done]. apply negb_true_iff in Hop.
    by apply bool_decide_eq_false in Hop. }
  destruct (handle_mirrors env st w op Hst Hnd Hnew) as [H1 H2].
  pose proof (handle_world env (st, w) op) as Hw. simpl in Hw.
  change (session env (op :: ops) (st, w)) with (session env ops (handle env (st, w) op)).
  destruct (handle env (st, w) op) as [st' w'] eqn:E. simpl in *. subst w'.
  by apply IH.
Qed.

(** X8.  The task list on screen is the stored collection: after loading,
    and then after every action of a session, as long as the ids stored
    at the start are distinct and each creation draws an unused id.  An
    edit that is refused changes neither. *)
Theorem session_mirrors_store (env : Env) (ops : list Op) (w : World Task) :
  NoDup (id <$> collection w) ->
  fresh_ids env ops (snd (loadTasks w)) = true ->
  exists tasks w0,
    loadTasks w = (Normal tasks, w0)
    /\ tasks = collection w
    /\ fst (session env ops (tasks, w0))
       = collection (snd (session env ops (tasks, w0)))
    /\ NoDup (id <$> fst (session env ops (tasks, w0))).
Proof.
  intros Hnd Hfresh. unfold loadTasks in *.
  destruct (getAllTasks_run w) as [msgs E]. rewrite E in *. simpl in Hfresh.
  eexists _, _. split; [reflexivity|].
  split; [by rewrite collection_denotes|].
  assert (Hc : collection (logged w msgs) = collection w)
    by (by rewrite !collection_denotes).
  destruct (session_mirrors env ops (denotes (localStorage w)) (logged w msgs))
    as [H1 H2].
  - by rewrite Hc, collection_denotes.
  - by rewrite Hc.
  - done.
  - split; [done|]. by rewrite H1.
Qed.

(** X9.  An edit of a task that is not stored is refused, and the list on
    screen and the storage stay as they were. *)
Theorem handleUpdateTask_refused (env : Env) (task : Task) (prev : list Task)
    (w : World Task) :
  (forall t, t ∈ collection w -> id t <> id task) ->
  fst (handleUpdateTask env task prev w) = Throw (Error "Task not found")
  /\ fst (handle env (prev, w) (Update task)) = prev
  /\ localStorage (snd (handle env (prev, w) (Update task))) = localStorage w.
Proof.
  intros Hno. apply (proj2 (findIndex_None _ _)) in Hno.
  destruct (updateTask_missing env task w Hno) as (H1 & H2 & _).
  unfold handle, handleUpdateTask, bind. simpl.
  destruct (updateTask env task w) as [r w'] eqn:E. simpl in *. subst r. done.
Qed.

End AppFacts.

(** * Dark mode *)

Section ThemeFacts.
Import Js Runtime Types TaskService Runs App.

Lemma themeEffect_run darkMode classList (w : World Task) :
  themeEffect darkMode classList w =
    (Normal (if darkMode then classList ∪ {["dark"]} else classList ∖ {["dark"]}),
     mkWorld (<["theme" := Unparseable (if darkMode then "dark" else "light")]>
                (localStorage w))
             (console w) (clock_reads w) (uuid_draws w)).
Proof. by destruct darkMode. Qed.

Lemma initialDarkMode_run prefersDark (w : World Task) :
  initialDarkMode prefersDark w =
    (Normal (item_is (localStorage w !! "theme") "dark"
             || item_falsy (localStorage w !! "theme") && prefersDark), w).
Proof.
  unfold initialDarkMode, bind, getItem, ret. simpl.
  by destruct (item_is (localStorage w !! "theme") "dark").
Qed.

(** X10.  The stored preference wins: once the effect has applied a mode, the
    application starts in that mode whatever the system prefers, and
    whatever task operations were made in between. *)
Theorem theme_is_remembered (env : Env) (darkMode prefersDark : bool)
    (classList : gset string) (ops : list Op) (w : World Task) :
  let w1 := snd (themeEffect darkMode classList w) in
  fst (initialDarkMode prefersDark (run env ops w1)) = Normal darkMode.
Proof.
  intros w1. rewrite initialDarkMode_run. simpl.
  rewrite (run_other_keys env ops w1 "theme") by done.
  subst w1. rewrite themeEffect_run. simpl. rewrite lookup_insert_eq.
  by destruct darkMode.
Qed.

(** X11.  The effect changes the [dark] class and the theme key, nothing else:
    the class is there exactly in dark mode, the other classes and the
    other keys stay, and with them the task collection. *)
Theorem themeEffect_frame (darkMode : bool) (classList : gset string) (w : World Task) :
  exists classList' w1,
    themeEffect darkMode classList w = (Normal classList', w1)
    /\ ("dark" ∈ classList' <-> darkMode = true)
    /\ (forall c, c <> "dark" -> c ∈ classList' <-> c ∈ classList)
    /\ (forall key, key <> "theme" -> localStorage w1 !! key = localStorage w !! key)
    /\ collection w1 = collection w
    /\ themeEffect darkMode classList' w1 = (Normal classList', w1).
Proof.
  rewrite themeEffect_run. eexists _, _. split; [reflexivity|].
  split.
  { destruct darkMode.
    - split; [done|]. intros _. apply elem_of_union_r. by apply elem_of_singleton.
    - split; [|done]. intros Hin. apply elem_of_difference in Hin as [_ Hin].
      exfalso. apply Hin. by apply elem_of_singleton. }
  split.
  { intros c Hc. destruct darkMode.
    - rewrite elem_of_union, elem_of_singleton. tauto.
    - rewrite elem_of_difference, elem_of_singleton. tauto. }
  split; [intros key Hkey; simpl; by rewrite lookup_insert_ne|].
  split.
  - rewrite !collection_denotes. unfold denotes. simpl.
    by rewrite lookup_insert_ne.
  - rewrite themeEffect_run. simpl. rewrite insert_insert_eq.
    assert (Hidem : (if darkMode
                     then (if darkMode then classList ∪ {["dark"]}
                           else classList ∖ {["dark"]}) ∪ {["dark"]}
                     else (if darkMode then classList ∪ {["dark"]}
                           else classList ∖ {["dark"]}) ∖ {["dark"]})
                    = (if darkMode then classList ∪ {["dark"]}
                       else classList ∖ {["dark"]})).
    { destruct darkMode; apply set_eq; intros x;
        rewrite ?elem_of_union, ?elem_of_difference, ?elem_of_singleton; tauto. }
    by rewrite Hidem.
Qed.

End ThemeFacts.

(** * Month and year navigation *)

Section NavigationFacts.
Import Js App.

Lemma monthStart_in_year m (lp : bool) d :
  0 <= m <= 11 -> 1 <= d <= daysInMonth m lp ->
  0 <= monthStart m lp + d - 1 < (if lp then 366 else 365).
Proof.
  intros Hm Hd.
  assert (m = 0 \/ m = 1 \/ m = 2 \/ m = 3 \/ m = 4 \/ m = 5 \/ m = 6 \/ m = 7
          \/ m = 8 \/ m = 9 \/ m = 10 \/ m = 11) as Hc by lia.
  repeat (destruct Hc as [-> | Hc]; [destruct lp; simpl in *; lia|]).
  subst m. destruct lp; simpl in *; lia.
Qed.

Lemma monthOfDay_monthStart m (lp : bool) d :
  0 <= m <= 11 -> 1 <= d <= daysInMonth m lp ->
  monthOfDay (monthStart m lp + d - 1) lp = m.
Proof.
  intros Hm Hd.
  assert (m = 0 \/ m = 1 \/ m = 2 \/ m = 3 \/ m = 4 \/ m = 5 \/ m = 6 \/ m = 7
          \/ m = 8 \/ m = 9 \/ m = 10 \/ m = 11) as Hc by lia.
  unfold monthOfDay.
  repeat (destruct Hc as [-> | Hc];
    [destruct lp; simpl in *;
     repeat match goal with
            | |- context [if ?a <? ?b then _ else _] =>
                let E := fresh in destruct (a <? b) eqn:E;
                [apply Z.ltb_lt in E | apply Z.ltb_ge in E]
            end; lia|]).
  subst m. destruct lp; simpl in *;
     repeat match goal with
            | |- context [if ?a <? ?b then _ else _] =>
                let E := fresh in destruct (a <? b) eqn:E;
                [apply Z.ltb_lt in E | apply Z.ltb_ge in E]
            end; lia.
Qed.

(** The fields of a day built by [MakeDay] from a date that exists. *)
Lemma MakeDay_inverse y m d t :
  0 <= m <= 11 -> 1 <= d <= daysInMonth m (leap y) ->
  Day t = MakeDay y m d ->
  YearFromTime t = y /\ MonthFromTime t = m /\ DateFromTime t = d.
Proof.
  intros Hm Hd Ht.
  pose proof (monthStart_in_year m (leap y) d Hm Hd) as Hdoy.
  assert (Hn : Day t = DayFromYear y + monthStart m (leap y) + d - 1).
  { rewrite Ht. unfold MakeDay.
    rewrite (Z.div_small m 12), (Z.mod_small m 12) by lia. by rewrite Z.add_0_r. }
  assert (Hy : YearFromTime t = y).
  { unfold YearFromTime. apply YearFromDay_unique.
    rewrite DayFromYear_succ. unfold DaysInYear. destruct (leap y); lia. }
  assert (Hdoy' : DayWithinYear t = monthStart m (leap y) + d - 1)
    by (unfold DayWithinYear; rewrite Hy; lia).
  assert (Hmo : MonthFromTime t = m).
  { unfold MonthFromTime, InLeapYear. rewrite Hy, Hdoy'.
    by apply monthOfDay_monthStart. }
  split; [done|]. split; [done|].
  unfold DateFromTime, InLeapYear. rewrite Hmo, Hy, Hdoy'. lia.
Qed.

Lemma DateFromTime_in_month t :
  DateFromTime t <= daysInMonth (MonthFromTime t) (InLeapYear t).
Proof.
  pose proof (DayWithinYear_bounds t) as Hb.
  unfold DateFromTime, MonthFromTime, InLeapYear, DaysInYear in *.
  generalize dependent (DayWithinYear t). intros d Hb.
  unfold monthOfDay. destruct (leap (YearFromTime t));
  repeat match goal with
         | |- context [if ?a <? ?b then _ else _] =>
             let E := fresh in destruct (a <? b) eqn:E;
             [apply Z.ltb_lt in E | apply Z.ltb_ge in E]
         end; simpl; lia.
Qed.

Lemma Day_MakeDate n r : 0 <= r < msPerDay -> Day (MakeDate n r) = n.
Proof. unfold Day, MakeDate, msPerDay. intros H. Z.div_mod_to_equations. lia. Qed.

Lemma TimeWithinDay_MakeDate n r :
  0 <= r < msPerDay -> TimeWithinDay (MakeDate n r) = r.
Proof.
  unfold TimeWithinDay, MakeDate, msPerDay. intros H. Z.div_mod_to_equations. lia.
Qed.

Lemma MakeDate_Day_TimeWithinDay t : MakeDate (Day t) (TimeWithinDay t) = t.
Proof. unfold MakeDate, Day, TimeWithinDay, msPerDay. Z.div_mod_to_equations. lia. Qed.

Lemma monthStart_next m (lp : bool) :
  0 <= m <= 10 -> monthStart (m + 1) lp = monthStart m lp + daysInMonth m lp.
Proof.
  intros Hm.
  assert (m = 0 \/ m = 1 \/ m = 2 \/ m = 3 \/ m = 4 \/ m = 5 \/ m = 6 \/ m = 7
          \/ m = 8 \/ m = 9 \/ m = 10) as Hc by lia.
  repeat (destruct Hc as [-> | Hc]; [destruct lp; simpl; lia|]).
  subst m. destruct lp; simpl; lia.
Qed.

Lemma daysInMonth_bounds m (lp : bool) : 28 <= daysInMonth m lp <= 31.
Proof.
  unfold daysInMonth. destruct lp;
    repeat match goal with |- context [match ?x with _ => _ end] => destruct x end; lia.
Qed.

Lemma year_days t :
  DayFromYear (YearFromTime t) <= Day t < DayFromYear (YearFromTime t) + 366.
Proof.
  pose proof (DayWithinYear_bounds t) as H. unfold DayWithinYear, DaysInYear in H.
  destruct (leap (YearFromTime t)); lia.
Qed.

(** X12.  In a zone that keeps one offset [tz], choosing a month keeps the
    year and the time of day.  It keeps the
    day of the month too when the chosen month has that day; otherwise
    the view lands in the month after the chosen one, as many days in as
    the day exceeds the chosen month (from 31 January, choosing February
    shows 2 or 3 March). *)
Theorem handleMonthChange_fields (tz t m : Z) :
  plausible_clock t -> plausible_zone tz -> 0 <= m <= 11 ->
  let L := LocalTime tz t in
  let len := daysInMonth m (leap (YearFromTime L)) in
  exists t',
    handleMonthChange tz (Some t) (Int m) = Some t'
    /\ TimeWithinDay (LocalTime tz t') = TimeWithinDay L
    /\ getFullYear tz (Some t') = getFullYear tz (Some t)
    /\ (DateFromTime L <= len ->
        getMonth tz (Some t') = Int m
        /\ getDate tz (Some t') = getDate tz (Some t))
    /\ (len < DateFromTime L ->
        getMonth tz (Some t') = Int (m + 1)
        /\ getDate tz (Some t') = Int (DateFromTime L - len)).
Proof.
  intros Ht Hz Hm L len.
  pose proof (DateFromTime_bounds L) as HD.
  pose proof (daysInMonth_bounds m (leap (YearFromTime L))) as Hlen. fold len in Hlen.
  pose proof (year_days L) as Hyd.
  pose proof (TimeWithinDay_bounds L) as Hr.
  assert (HL : -1 <= Day L <= 2932898).
  { subst L. unfold plausible_clock, plausible_zone, LocalTime, fixed_zone, Day, msPerDay in *.
    Z.div_mod_to_equations. lia. }
  set (n := MakeDay (YearFromTime L) m (DateFromTime L)).
  assert (Hn : n = DayFromYear (YearFromTime L) + monthStart m (leap (YearFromTime L))
                   + DateFromTime L - 1).
  { subst n. unfold MakeDay.
    rewrite (Z.div_small m 12), (Z.mod_small m 12) by lia. by rewrite Z.add_0_r. }
  assert (Hms : 0 <= monthStart m (leap (YearFromTime L)) <= 335).
  { assert (m = 0 \/ m = 1 \/ m = 2 \/ m = 3 \/ m = 4 \/ m = 5 \/ m = 6 \/ m = 7
          \/ m = 8 \/ m = 9 \/ m = 10 \/ m = 11) as Hc by lia.
    repeat (destruct Hc as [-> | Hc]; [destruct (leap _); simpl; lia|]).
    subst m. destruct (leap _); simpl; lia. }
  exists (UTC tz (MakeDate n (TimeWithinDay L))).
  assert (Hres : handleMonthChange tz (Some t) (Int m)
                 = Some (UTC tz (MakeDate n (TimeWithinDay L)))).
  { unfold handleMonthChange, new_Date_copy.
    rewrite TimeClip_in_range by (unfold plausible_clock, maxTime in *; lia).
    unfold setMonth. cbv zeta. fold L. fold n.
    apply TimeClip_in_range.
    unfold plausible_zone, UTC, fixed_zone, MakeDate, maxTime, msPerDay in *. lia. }
  assert (HL' : LocalTime tz (UTC tz (MakeDate n (TimeWithinDay L)))
                = MakeDate n (TimeWithinDay L)) by (unfold LocalTime, UTC, fixed_zone; lia).
  split; [exact Hres|]. unfold getFullYear, getMonth, getDate. fold L. rewrite HL'.
  split; [by apply TimeWithinDay_MakeDate|].
  assert (Hday : Day (MakeDate n (TimeWithinDay L)) = n) by (by apply Day_MakeDate).
  destruct (Z.le_gt_cases (DateFromTime L) len) as [Hin|Hout].
  - destruct (MakeDay_inverse (YearFromTime L) m (DateFromTime L)
                (MakeDate n (TimeWithinDay L))) as (Hy & Hmo & Hda);
      [lia|fold len; lia|done|].
    rewrite Hy, Hmo, Hda. split; [done|]. split; [done|]. intros; lia.
  - assert (Hm10 : m <= 10).
    { destruct (Z.eq_dec m 11) as [->|]; [|lia]. subst len. simpl in Hout. lia. }
    pose proof (daysInMonth_bounds (m + 1) (leap (YearFromTime L))) as Hlen'.
    destruct (MakeDay_inverse (YearFromTime L) (m + 1) (DateFromTime L - len)
                (MakeDate n (TimeWithinDay L))) as (Hy & Hmo & Hda); [lia|lia| |].
    { rewrite Hday, Hn. unfold MakeDay.
      rewrite (Z.div_small (m + 1) 12), (Z.mod_small (m + 1) 12) by lia.
      rewrite Z.add_0_r, monthStart_next by lia. fold len. lia. }
    rewrite Hy, Hmo, Hda. split; [done|]. split; [intros; lia|]. done.
Qed.

Lemma handleYearChange_value (tz : Z) t inc :
  - maxTime <= t <= maxTime ->
  let L := LocalTime tz t in
  handleYearChange tz (Some t) (Int inc)
  = TimeClip (UTC tz (MakeDate (MakeDay (YearFromTime L + inc) (MonthFromTime L)
                                        (DateFromTime L))
                               (TimeWithinDay L))).
Proof.
  intros Ht L. unfold handleYearChange, new_Date_copy.
  rewrite TimeClip_in_range by done. reflexivity.
Qed.

(** X13.  In a zone that keeps one offset [tz], moving the view by some
    years keeps the month, the day and the time of day, and moving back
    by as many restores the date exactly; the one exception is
    29 February, which a year without it turns into 1 March. *)
Theorem handleYearChange_there_and_back (tz t inc t1 : Z) :
  - maxTime <= t <= maxTime ->
  handleYearChange tz (Some t) (Int inc) = Some t1 ->
  let L := LocalTime tz t in
  (~ (MonthFromTime L = 1 /\ DateFromTime L = 29) ->
     getFullYear tz (Some t1) = Int (YearFromTime L + inc)
     /\ getMonth tz (Some t1) = getMonth tz (Some t)
     /\ getDate tz (Some t1) = getDate tz (Some t)
     /\ handleYearChange tz (Some t1) (Int (- inc)) = Some t)
  /\ (MonthFromTime L = 1 -> DateFromTime L = 29 ->
      leap (YearFromTime L + inc) = false ->
      getFullYear tz (Some t1) = Int (YearFromTime L + inc)
      /\ getMonth tz (Some t1) = Int 2
      /\ getDate tz (Some t1) = Int 1).
Proof.
  intros Ht Hres L.
  rewrite handleYearChange_value in Hres by done. fold L in Hres.
  apply TimeClip_Some in Hres as [-> Hrange].
  set (y1 := YearFromTime L + inc) in *.
  set (n1 := MakeDay y1 (MonthFromTime L) (DateFromTime L)) in *.
  pose proof (TimeWithinDay_bounds L) as Hr.
  pose proof (MonthFromTime_bounds L) as Hmo.
  pose proof (DateFromTime_bounds L) as Hda.
  pose proof (DateFromTime_in_month L) as Hin.
  set (L1 := MakeDate n1 (TimeWithinDay L)).
  assert (HL1 : LocalTime tz (UTC tz L1) = L1) by (unfold LocalTime, UTC, fixed_zone; lia).
  assert (Hday : Day L1 = n1) by (by apply Day_MakeDate).
  assert (Htwd : TimeWithinDay L1 = TimeWithinDay L) by (by apply TimeWithinDay_MakeDate).
  unfold getFullYear, getMonth, getDate. fold L. rewrite HL1.
  split.
  - intros Hnot.
    assert (Hd1 : DateFromTime L <= daysInMonth (MonthFromTime L) (leap y1)).
    { destruct (Z.eq_dec (MonthFromTime L) 1) as [E|E].
      - rewrite E in Hin |- *. simpl in Hin |- *.
        assert (DateFromTime L <> 29) by tauto.
        destruct (InLeapYear L); destruct (leap y1); lia.
      - unfold InLeapYear in Hin. unfold daysInMonth in *.
        destruct (MonthFromTime L) as [|[ | | ]|]; try lia; exact Hin. }
    destruct (MakeDay_inverse y1 (MonthFromTime L) (DateFromTime L) L1)
      as (Hy & Hm & Hd); [lia|lia|done|].
    rewrite Hy, Hm, Hd. split; [done|]. split; [done|]. split; [done|].
    rewrite handleYearChange_value by done. cbv zeta. rewrite HL1, Hy, Hm, Hd, Htwd.
    replace (y1 + - inc) with (YearFromTime L) by (subst y1; lia).
    rewrite MakeDay_fields.
    replace (Day L + DateFromTime L - DateFromTime L) with (Day L) by lia.
    rewrite MakeDate_Day_TimeWithinDay.
    replace (UTC tz L) with t by (subst L; unfold UTC, LocalTime, fixed_zone; lia).
    by apply TimeClip_in_range.
  - intros HFeb H29 Hleap.
    destruct (MakeDay_inverse y1 2 1 L1) as (Hy & Hm & Hd); [lia|simpl; lia| |].
    { rewrite Hday. subst n1. rewrite HFeb, H29. unfold MakeDay.
      change (1 / 12) with 0. change (2 / 12) with 0.
      change (1 mod 12) with 1. change (2 mod 12) with 2.
      rewrite !Z.add_0_r, Hleap. simpl. lia. }
    by rewrite Hy, Hm, Hd.
Qed.

End NavigationFacts.

(** * More about the dashboard figures *)

Section KpiMore.
Import Js Types Dashboard.

Lemma count_le_length {A} (p : A -> bool) l : count p l <= Z.of_nat (length l).
Proof.
  induction l as [|x l IH]; [unfold count; simpl; lia|].
  rewrite count_cons. simpl length. destruct (p x); lia.
Qed.

Lemma count_disjoint {A} (p q : A -> bool) l :
  (forall x, p x = true -> q x = false) ->
  count p l + count q l <= Z.of_nat (length l).
Proof.
  intros H. induction l as [|x l IH]; [unfold count; simpl; lia|].
  rewrite !count_cons. simpl length.
  destruct (p x) eqn:E; [rewrite (H x E)|destruct (q x)]; lia.
Qed.

Lemma count_le {A} (p q : A -> bool) l :
  (forall x, p x = true -> q x = true) -> count p l <= count q l.
Proof.
  intros H. induction l as [|x l IH]; [unfold count; simpl; lia|].
  rewrite !count_cons.
  destruct (p x) eqn:E; [rewrite (H x E)|destruct (q x)]; lia.
Qed.

Lemma str_lt_not_eq a b : str_lt a b = true -> String.eqb a b = false.
Proof.
  unfold str_lt, String.ltb. intros H.
  destruct (String.eqb a b) eqn:E; [|done].
  apply String.eqb_eq in E. subst b.
  pose proof (String.compare_antisym a a) as Hc.
  destruct (String.compare a a); simpl in Hc; congruence.
Qed.

(** The formulas of the counters, without any condition on the input. *)
Lemma kpis_formulas tz tasks now :
  let k := kpis tz tasks now in
  total k = Z.of_nat (length tasks)
  /\ overdue k = count (fun t => str_lt (Types.date t) (isoDatePart now)
                                 && negb (String.eqb (status t) COMPLETED)) tasks
  /\ todayCount k = count (fun t => String.eqb (Types.date t) (isoDatePart now)) tasks
  /\ weekCount k = count (fun t => date_ge (tDate tz (Types.date t)) (startOfWeek tz now)
                                   && date_le (tDate tz (Types.date t)) (endOfWeek tz now))
                         tasks.
Proof.
  destruct (kpis_fold tz (first_part "T" (isoString now)) (startOfWeek tz now)
              (endOfWeek tz now) tasks
              (mkKpis (Z.of_nat (length tasks)) byStatus0 0 0 0))
    as (H1 & _ & H3 & H4 & H5).
  fold (kpis tz tasks now) in H1, H3, H4, H5.
  rewrite first_part_isoString in H3, H4. simpl in *. done.
Qed.

(** X14.  Whatever the zone, no task is counted both overdue and due today,
    or both overdue and completed; and no counter exceeds the number of
    tasks. *)
Theorem kpis_bounds (tz : Zone) (tasks : list Task) (now : Z) :
  let k := kpis tz tasks now in
  0 <= overdue k /\ 0 <= todayCount k /\ 0 <= weekCount k
  /\ overdue k + todayCount k <= total k
  /\ (exists done_, byStatus k !! COMPLETED = Some (Int done_)
                    /\ overdue k + done_ <= total k)
  /\ weekCount k <= total k.
Proof.
  intros k. destruct (kpis_formulas tz tasks now) as (H1 & H2 & H3 & H4).
  fold k in H1, H2, H3, H4. rewrite H1, H2, H3, H4.
  split; [apply count_nonneg|]. split; [apply count_nonneg|].
  split; [apply count_nonneg|]. split.
  - apply count_disjoint. intros t Ht.
    apply andb_prop in Ht as [Ht _]. by apply str_lt_not_eq.
  - split; [|apply count_le_length].
    eexists. split; [apply kpis_byStatus; unfold enumerated; tauto|].
    apply count_disjoint. intros t Ht.
    apply andb_prop in Ht as [_ Ht]. by apply negb_true_iff in Ht.
Qed.

Lemma count_Permutation {A} (p : A -> bool) l1 l2 :
  l1 ≡ₚ l2 -> count p l1 = count p l2.
Proof.
  induction 1 as [|x l1 l2 _ IH|x y l|l1 l2 l3 _ IH1 _ IH2];
    rewrite ?count_cons; lia.
Qed.

(** X15.  The order in which the tasks are stored does not matter to the
    figures, nor to the pie. *)
Theorem kpis_order (tz : Zone) (tasks tasks' : list Task) (now : Z) :
  tasks ≡ₚ tasks' ->
  let k := kpis tz tasks now in
  let k' := kpis tz tasks' now in
  total k = total k' /\ overdue k = overdue k' /\ todayCount k = todayCount k'
  /\ weekCount k = weekCount k'
  /\ (forall s, enumerated s -> byStatus k !! s = byStatus k' !! s)
  /\ pieData k = pieData k'.
Proof.
  intros Hp k k'.
  destruct (kpis_formulas tz tasks now) as (H1 & H2 & H3 & H4).
  destruct (kpis_formulas tz tasks' now) as (H1' & H2' & H3' & H4').
  fold k in H1, H2, H3, H4. fold k' in H1', H2', H3', H4'.
  assert (Hby : forall s, enumerated s -> byStatus k !! s = byStatus k' !! s).
  { intros s Hs. subst k k'. rewrite !kpis_byStatus by done.
    by rewrite (count_Permutation _ _ _ Hp). }
  rewrite H1, H2, H3, H4, H1', H2', H3', H4'.
  rewrite (Permutation_length Hp).
  rewrite !(count_Permutation _ _ _ Hp).
  repeat split; try done.
  unfold pieData, status_count. by rewrite !Hby by (unfold enumerated; tauto).
Qed.

(** X16.  In a zone that keeps one offset [tz], when the local date and the
    UTC date of [now] are the same day, every task due today is a task of
    the week. *)
Theorem kpis_today_in_week (tz : Z) (tasks : list Task) (now : Z) :
  plausible_clock now -> plausible_zone tz ->
  Day (LocalTime tz now) = Day now ->
  let k := kpis tz tasks now in
  todayCount k <= weekCount k.
Proof.
  intros Hn Hz Hsame k. destruct (kpis_formulas tz tasks now) as (_ & _ & H3 & H4).
  fold k in H3, H4. rewrite H3, H4. apply count_le. intros t Ht.
  apply String.eqb_eq in Ht. rewrite in_week_days by done. rewrite Ht.
  unfold in_days. rewrite dayNumber_isoDatePart.
  - destruct (weekStart_sunday tz now) as [_ Hw]. rewrite Hsame in Hw.
    apply andb_true_intro. split; apply Z.leb_le; lia.
  - pose proof (YearFromTime_plausible now) as Hy.
    unfold plausible_clock, msPerDay in *. lia.
Qed.

End KpiMore.

(** * More about the trend *)

Section TrendMore.
Import Js Types Dashboard Chart.

Lemma count_add {A} (p q r : A -> bool) l :
  (forall x, (if p x then 1 else 0) + (if q x then 1 else 0)
             = (if r x then 1 else 0 : Z)) ->
  count p l + count q l = count r l.
Proof.
  intros H. induction l as [|x l IH]; [done|].
  rewrite !count_cons. specialize (H x).
  destruct (p x), (q x), (r x); lia.
Qed.

(** The tasks created on one of the [n] days up to the day of [now]. *)
Lemma sum_created_days (tz : Z) tasks now n :
  sum_created (map (fun i => day_point tz tasks now (Z.of_nat i)) (rev (seq 0 n)))
  = count (fun t => (Day now - Z.of_nat n <? Day (createdAt t))
                    && (Day (createdAt t) <=? Day now)) tasks.
Proof.
  induction n as [|n IH].
  - simpl. symmetry.
    rewrite (count_ext _ (fun _ => false)); [by induction tasks|].
    intros t _. apply andb_false_iff.
    destruct (Z.ltb_spec (Day now - Z.of_nat 0) (Day (createdAt t))); [right|by left].
    apply Z.leb_gt. lia.
  - rewrite seq_S, rev_app_distr. cbn [rev app map sum_created fold_right].
    fold (sum_created (map (fun i => day_point tz tasks now (Z.of_nat i))
                           (rev (seq 0 n)))).
    rewrite IH. simpl LineChart.created. apply count_add. intros t.
    destruct (Z.eqb_spec (Day (createdAt t)) (Day now - Z.of_nat n)),
             (Z.ltb_spec (Day now - Z.of_nat n) (Day (createdAt t))),
             (Z.leb_spec (Day (createdAt t)) (Day now)),
             (Z.ltb_spec (Day now - Z.of_nat (S n)) (Day (createdAt t)));
      simpl; lia.
Qed.

Lemma window_text_inj now i j :
  plausible_clock now -> 0 <= i <= 13 -> 0 <= j <= 13 ->
  isoDatePart (MakeDate (Day now - i) 0) = isoDatePart (MakeDate (Day now - j) 0) ->
  i = j.
Proof.
  unfold plausible_clock. intros Hn Hi Hj Heq.
  assert (HD : forall d, Day (MakeDate d 0) = d).
  { intros d. unfold MakeDate, Day. rewrite Z.add_0_r. by apply Z.div_mul. }
  apply isoDatePart_inj in Heq; [rewrite !HD in Heq; lia|].
  assert (0 <= Day now <= 2932896)
    by (unfold Day, msPerDay; Z.div_mod_to_equations; lia).
  pose proof (YearFromTime_plausible (MakeDate (Day now - j) 0)) as Hy.
  unfold MakeDate, msPerDay in *. lia.
Qed.

(** The completed tasks dated, in the text of [toISOString], on one of the
    [n] days up to the day of [now]. *)
Lemma sum_completed_days (tz : Z) tasks now n :
  plausible_clock now -> (n <= 14)%nat ->
  sum_completed (map (fun i => day_point tz tasks now (Z.of_nat i)) (rev (seq 0 n)))
  = count (fun t => String.eqb (status t) COMPLETED
                    && existsb (fun i => String.eqb (Types.date t)
                         (isoDatePart (MakeDate (Day now - Z.of_nat i) 0)))
                       (seq 0 n)) tasks.
Proof.
  intros Hn. induction n as [|n IH]; intros Hle.
  - simpl. symmetry.
    rewrite (count_ext _ (fun _ => false)); [by induction tasks|].
    intros t _. apply andb_false_r.
  - rewrite seq_S, rev_app_distr. cbn [rev app map sum_completed fold_right].
    fold (sum_completed (map (fun i => day_point tz tasks now (Z.of_nat i))
                             (rev (seq 0 n)))).
    rewrite IH by lia. simpl LineChart.completed. apply count_add. intros t.
    rewrite existsb_app. simpl. rewrite orb_false_r.
    destruct (String.eqb (status t) COMPLETED); simpl;
      [|by rewrite andb_false_r].
    rewrite andb_true_r.
    destruct (String.eqb_spec (Types.date t)
                (isoDatePart (MakeDate (Day now - Z.of_nat n) 0))) as [E|E].
    + replace (existsb _ (seq 0 n)) with false; [done|].
      symmetry. apply not_true_is_false. intros Hex.
      apply existsb_exists in Hex as (i & Hi & Hex).
      apply in_seq in Hi. apply String.eqb_eq in Hex. rewrite E in Hex.
      apply window_text_inj in Hex; [lia|done|lia|lia].
    + by destruct (existsb _ (seq 0 n)).
Qed.

(** X17.  In a zone that keeps one offset [tz], of at most a day, from 14
    days before [now] to one day after it, every task created in the
    window is counted once over the 14 points: the created line adds up
    to the number of tasks created on the 14 UTC days up to the day of
    [now], the completed line to the number of COMPLETED tasks whose date
    is the text of one of these days. *)
Theorem lineChartData_totals (z : Zone) (tz : Z) (tasks : list Task) (now : Z) :
  plausible_clock now -> plausible_zone tz ->
  steady z tz (now - 14 * msPerDay) (now + msPerDay) ->
  Forall (fun t => - maxTime <= createdAt t <= maxTime) tasks ->
  exists data,
    lineChartData z tasks now = Normal data
    /\ sum_created data
       = count (fun t => (Day now - 14 <? Day (createdAt t))
                         && (Day (createdAt t) <=? Day now)) tasks
    /\ sum_completed data
       = count (fun t => String.eqb (status t) COMPLETED
                         && existsb (fun i => String.eqb (Types.date t)
                              (isoDatePart (MakeDate (Day now - Z.of_nat i) 0)))
                            (seq 0 14)) tasks
    /\ 0 <= sum_created data <= Z.of_nat (length tasks)
    /\ 0 <= sum_completed data
       <= count (fun t => String.eqb (status t) COMPLETED) tasks.
Proof.
  intros Hn Hz Hst Hvalid.
  rewrite (lineChartData_steady z tz) by done.
  unfold lineChartData, days. rewrite trend_loop_value by (done || lia).
  eexists. split; [reflexivity|]. rewrite app_nil_l.
  rewrite sum_created_days, sum_completed_days by (done || lia).
  split; [done|]. split; [done|].
  split; (split; [apply count_nonneg|]).
  - apply count_le_length.
  - apply count_le. intros t Ht. by apply andb_prop in Ht as [Ht _].
Qed.

Lemma isoDay_cases d : isoDay d = Throw RangeError \/ exists s, isoDay d = Normal s.
Proof. destruct d; [right|left]; [by eexists|done]. Qed.

Lemma count_c_throws {A} (p : A -> completion bool) l e :
  (forall x, x ∈ l -> p x = Throw e \/ exists b, p x = Normal b) ->
  (exists x, x ∈ l /\ p x = Throw e) ->
  count_c p l = Throw e.
Proof.
  induction l as [|x l IH]; intros Hall (y & Hy & Hthrow).
  - by apply elem_of_nil in Hy.
  - simpl. destruct (Hall x ltac:(by left)) as [Hx|[b Hx]]; rewrite Hx; [done|].
    rewrite IH; [done|intros z Hz; apply Hall; by right|].
    apply elem_of_cons in Hy as [->|Hy]; [congruence|by exists y].
Qed.

(** X18.  One stored task whose [createdAt] is not a valid time value is enough
    for the memo to throw a [RangeError], whatever the clock, the zone and
    the other tasks are: no chart is drawn. *)
Theorem lineChartData_RangeError (tz : Zone) (tasks : list Task) (now : Z) :
  Exists (fun t => ~ (- maxTime <= createdAt t <= maxTime)) tasks ->
  lineChartData tz tasks now = Throw RangeError.
Proof.
  intros Hex. apply Exists_exists in Hex as (bad & Hin & Hbad).
  unfold lineChartData, days. cbn [trend_loop]. unfold trend_point.
  destruct (isoDay_cases (setDate tz (Some now)
              (num_sub (getDate tz (Some now)) (Int (Z.of_nat 13)))))
    as [->|[dateStr ->]]; [done|].
  rewrite (count_c_throws _ _ RangeError); [done| |].
  - intros t _. destruct (isoDay_cases (new_Date_ms (Int (createdAt t))))
      as [->|[s ->]]; [by left|right; by eexists].
  - exists bad. split; [done|].
    unfold new_Date_ms, TimeClip.
    destruct (Z.leb_spec (Z.abs (createdAt bad)) maxTime); [lia|done].
Qed.

End TrendMore.

(** * The chart and the pie as drawn *)

Section ChartFacts.
Import Js Types Dashboard Chart PieShape.

Lemma unit_ratio a b :
  0 <= a <= b -> 0 < b ->
  (0 <= inject_Z a / inject_Z b <= 1)%Q.
Proof.
  intros Ha Hb.
  assert (0 < inject_Z b)%Q as Hb'
    by (change 0%Q with (inject_Z 0); by rewrite <- Zlt_Qlt).
  split.
  - apply Qle_shift_div_l; [done|]. rewrite Qmult_0_l.
    change 0%Q with (inject_Z 0). rewrite <- Zle_Qle. lia.
  - apply Qle_shift_div_r; [done|]. rewrite Qmult_1_l. rewrite <- Zle_Qle. lia.
Qed.

Lemma fold_max_ge l : forall x, x ∈ l -> x <= fold_right Z.max 5 l.
Proof.
  induction l as [|y l IH]; intros x Hx; [by apply elem_of_nil in Hx|].
  simpl. apply elem_of_cons in Hx as [->|Hx]; [lia|].
  specialize (IH x Hx). lia.
Qed.

Lemma maxVal_min data : 5 <= maxVal data.
Proof.
  unfold maxVal. induction (map LineChart.created data ++ map LineChart.completed data)%list;
    simpl; lia.
Qed.

Lemma maxVal_ge data p :
  p ∈ data -> LineChart.created p <= maxVal data /\ LineChart.completed p <= maxVal data.
Proof.
  intros Hp. apply list_elem_of_In in Hp.
  unfold maxVal. split; apply fold_max_ge, elem_of_app; [left|right];
    by apply list_elem_of_In, in_map.
Qed.

Lemma getY_in data v :
  0 <= v <= maxVal data ->
  exists y, getY data v = Some y
    /\ (inject_Z padding <= y <= inject_Z (chartHeight - padding))%Q.
Proof.
  intros Hv. pose proof (maxVal_min data) as Hm.
  unfold getY, js_div. destruct (Z.eqb_spec (maxVal data) 0) as [E|_]; [lia|].
  simpl. eexists. split; [reflexivity|].
  pose proof (unit_ratio v (maxVal data) Hv ltac:(lia)) as Hr.
  set (r := (inject_Z v / inject_Z (maxVal data))%Q) in *.
  clearbody r. unfold chartHeight, padding.
  change (inject_Z (200 - 20 * 2)) with (160#1)%Q.
  change (inject_Z (200 - 20)) with (180#1)%Q.
  change (inject_Z 20) with (20#1)%Q.
  split; lra.
Qed.

Lemma getX_in data i :
  (2 <= length data)%nat -> 0 <= i <= Z.of_nat (length data) - 1 ->
  exists x, getX data i = Some x
    /\ (inject_Z padding <= x <= inject_Z (chartWidth - padding))%Q.
Proof.
  intros Hlen Hi.
  unfold getX, js_div.
  destruct (Z.eqb_spec (Z.of_nat (length data) - 1) 0) as [E|_]; [lia|].
  simpl. eexists. split; [reflexivity|].
  pose proof (unit_ratio i (Z.of_nat (length data) - 1) Hi ltac:(lia)) as Hr.
  set (r := (inject_Z i / inject_Z (Z.of_nat (length data) - 1))%Q) in *.
  clearbody r. unfold chartWidth, padding.
  change (inject_Z (600 - 20 * 2)) with (560#1)%Q.
  change (inject_Z (600 - 20)) with (580#1)%Q.
  change (inject_Z 20) with (20#1)%Q.
  split; lra.
Qed.

Lemma points_in_plot pick data :
  (2 <= length data)%nat ->
  (forall p, p ∈ data -> 0 <= pick p <= maxVal data) ->
  Forall in_plot (points pick data).
Proof.
  intros Hlen Hpick. apply Forall_lookup. intros i pt Hpt.
  unfold points in Hpt. rewrite list_lookup_imap in Hpt.
  destruct (data !! i) as [d|] eqn:Hd; [|done]. injection Hpt as <-.
  pose proof (lookup_lt_Some _ _ _ Hd) as Hi.
  destruct (getX_in data (Z.of_nat i) Hlen ltac:(lia)) as (x & Hx & Hxb).
  destruct (getY_in data (pick d) (Hpick d (list_elem_of_lookup_2 _ _ _ Hd)))
    as (y & Hy & Hyb).
  exists x, y. by rewrite Hx, Hy.
Qed.

Lemma count_c_nonneg {A} (p : A -> completion bool) l : forall n,
  count_c p l = Normal n -> 0 <= n.
Proof.
  induction l as [|x l IH]; intros n; simpl.
  - intros [= <-]. lia.
  - destruct (p x) as [b|]; [|done].
    destruct (count_c p l) as [m|]; [|done].
    intros [= <-]. specialize (IH m eq_refl). destruct b; lia.
Qed.

Lemma trend_point_nonneg tz tasks now i p :
  trend_point tz tasks now i = Normal p -> counts_nonneg p.
Proof.
  unfold trend_point. cbv zeta.
  generalize (setDate tz (Some now) (num_sub (getDate tz (Some now)) (Int i))).
  intros d. generalize (toLocaleDateString_short tz d). intros shown.
  destruct (isoDay d) as [dateStr|]; [|intros H; discriminate H].
  destruct (count_c _ tasks) as [n|] eqn:Hn; [|intros H; discriminate H].
  intros H. injection H as <-. split.
  - exact (count_c_nonneg _ _ _ Hn).
  - apply Nat2Z.is_nonneg.
Qed.

Lemma trend_loop_shape tz tasks now n : forall data0 data,
  trend_loop tz tasks now n data0 = Normal data ->
  length data = (length data0 + n)%nat
  /\ (Forall counts_nonneg data0 -> Forall counts_nonneg data).
Proof.
  induction n as [|i IH]; intros data0 data; cbn [trend_loop].
  - intros [= <-]. split; [lia|done].
  - destruct (trend_point tz tasks now (Z.of_nat i)) as [p|] eqn:Hp; [|done].
    intros Hrun. apply IH in Hrun as [Hlen Hnn].
    rewrite length_app in Hlen. simpl in Hlen. split; [lia|].
    intros H0. apply Hnn, Forall_app. split; [done|].
    constructor; [|constructor]. by apply trend_point_nonneg in Hp.
Qed.

(** X19.  Whenever the memo returns, the chart is well formed: 14 points of
    natural-number counts, a scale of at least 5, no division by zero in
    [getX] or [getY], both polylines inside the padded area of the 600 by
    200 drawing, from its left edge to its right edge, and the labels of
    the entries 0, 3, 6, 9, 12 and 13 drawn.  Coordinates are exact
    rationals here. *)
Theorem chart_well_formed (tz : Zone) (tasks : list Task) (now : Z)
    (data : list LineChart.Point) :
  lineChartData tz tasks now = Normal data ->
  length data = 14%nat
  /\ Forall counts_nonneg data
  /\ 5 <= maxVal data
  /\ Forall in_plot (pointsCreated data)
  /\ Forall in_plot (pointsCompleted data)
  /\ (exists x0 x13, getX data 0 = Some x0 /\ getX data 13 = Some x13
                      /\ (x0 == inject_Z padding)%Q
                      /\ (x13 == inject_Z (chartWidth - padding))%Q)
  /\ List.filter (label_shown data) (seq 0 (length data))
     = [0; 3; 6; 9; 12; 13]%nat.
Proof.
  unfold lineChartData. intros Hrun.
  destruct (trend_loop_shape tz tasks now days [] data Hrun) as [Hlen Hnn].
  change (length data = 14%nat) in Hlen. specialize (Hnn (Forall_nil_2 _)).
  split; [exact Hlen|]. split; [exact Hnn|]. split; [apply maxVal_min|].
  assert (Hin : forall p, p ∈ data -> counts_nonneg p)
    by (by apply Forall_forall).
  split; [|split; [|split]].
  - apply points_in_plot; [lia|]. intros p Hp.
    split; [by apply Hin|by apply maxVal_ge].
  - apply points_in_plot; [lia|]. intros p Hp.
    split; [by apply Hin|by apply maxVal_ge].
  - unfold getX. rewrite Hlen. eexists _, _.
    split; [reflexivity|]. split; [reflexivity|]. split; reflexivity.
  - unfold label_shown. rewrite Hlen. reflexivity.
Qed.

End ChartFacts.

Section PieMore.
Import Js Types Dashboard PieShape.

(** From any running angle, the stops take the colours of the slices in
    order and follow one another. *)
Lemma stops_from_contiguous total pie : forall angle,
  map stop_color (stops_from total angle pie) = map color pie
  /\ contiguous angle (stops_from total angle pie).
Proof.
  induction pie as [|d pie IH]; intros angle.
  - split; [reflexivity|exact I].
  - destruct (IH (ratio_add angle (percentage total d))) as (H1 & H2).
    cbn [stops_from map contiguous stop_color stop_start stop_end].
    split; [by rewrite H1|by split].
Qed.

(** X20.  The gradient has one stop per slice, in the order and with the
    colours of the slices.  The first stop starts at 0 and each stop
    starts at the very value at which the stop before it ends: the stops
    leave no gap and do not overlap, however the sums are rounded.
    (Where the last stop ends is not stated: in floating point it need
    not be 100 exactly.) *)
Theorem gradient_contiguous (pie : list Slice) :
  map stop_color (gradientStops pie) = map color pie
  /\ contiguous (Some 0%Q) (gradientStops pie).
Proof. unfold gradientStops. apply stops_from_contiguous. Qed.

End PieMore.

(** * Examples for the later sections *)

Section MoreStoreExamples.
Import Js Runtime Types TaskService Runs App Examples MoreExamples.

(** The four calls of the demonstration leave the stored theme alone. *)
Lemma mutators_other_keys_witness :
  localStorage (run demo_env demo_ops
                  (snd (themeEffect true ∅ demo_world))) !! "theme"
  = Some (Unparseable "dark").
Proof.
  rewrite (mutators_other_keys demo_env demo_ops
             (snd (themeEffect true ∅ demo_world)) "theme").
  - reflexivity.
  - discriminate.
Defined.

(** A second task is created, then deleted: the first one is left. *)
Lemma createTask_then_deleteTask_witness :
  exists t w1,
    createTask demo_env demo_input one_task_world = (Normal t, w1)
    /\ collection (snd (deleteTask (id t) w1)) = collection one_task_world.
Proof.
  apply (createTask_then_deleteTask demo_env demo_input one_task_world).
  vm_compute. intros H. apply list_elem_of_In in H. simpl in H.
  intuition congruence.
Defined.

(** The first task is created, then edited: the collection is the one
    record of the edit, stamped with the time of the edit. *)
Lemma createTask_then_updateTask_witness :
  exists t w1,
    createTask demo_env demo_input demo_world = (Normal t, w1)
    /\ collection (snd (updateTask demo_env demo_edit w1))
       = [mkTask "task-0" "2023-11-15" (Some "09:00") "10:00" IN_PROGRESS []
                 (tuesday + 1) (tuesday + 3) [("title", "Write report")]].
Proof.
  destruct (createTask_then_updateTask demo_env demo_input demo_edit demo_world)
    as (t & w1 & E & H).
  exists t, w1. split; [exact E|].
  assert (Ht : id t = "task-0").
  { transitivity (match fst (createTask demo_env demo_input demo_world) with
                  | Normal t => id t
                  | Throw _ => ""
                  end); [by rewrite E|vm_compute; reflexivity]. }
  assert (Hk : clock_reads w1 = 3%nat).
  { transitivity (clock_reads (snd (createTask demo_env demo_input demo_world)));
      [by rewrite E|vm_compute; reflexivity]. }
  destruct H as (u & _ & F1 & F2 & F3 & F4 & F5 & F6 & F7 & F8 & F9 & Hc);
    [by rewrite Ht|].
  rewrite Hc.
  - destruct u. simpl in *. rewrite Hk in F9. subst. rewrite Ht. reflexivity.
  - vm_compute. intros Hin. apply list_elem_of_In in Hin. destruct Hin.
Defined.

(** The storage cut short: a logged read, a refused edit, and a silent
    read after a creation. *)
Lemma corrupt_store_witness :
  console (snd (getAllTasks corrupt_world)) = ["Failed to load tasks"]
  /\ fst (updateTask demo_env demo_edit corrupt_world) = Throw (Error "Task not found")
  /\ getAllTasks (snd (createTask demo_env demo_input corrupt_world))
     = (Normal (collection (snd (createTask demo_env demo_input corrupt_world))),
        snd (createTask demo_env demo_input corrupt_world)).
Proof.
  destruct (corrupt_store demo_env corrupt_world "[" "{" eq_refl)
    as ((_ & H1) & H2 & H3 & _).
  split; [exact H1|]. split; [apply H2|apply H3].
Defined.

(** The start time ["9"]. *)
Lemma createTask_startTime_without_colon_witness :
  exists t w1,
    createTask demo_env bare_hour_input demo_world = (Normal t, w1)
    /\ endTime t = "NaN:NaN".
Proof.
  apply (createTask_startTime_without_colon demo_env bare_hour_input demo_world "9");
    reflexivity.
Defined.

(** The four actions of the demonstration, from an empty storage. *)
Lemma session_mirrors_store_witness :
  exists tasks w0,
    loadTasks demo_world = (Normal tasks, w0)
    /\ tasks = collection demo_world
    /\ fst (session demo_env demo_ops (tasks, w0))
       = collection (snd (session demo_env demo_ops (tasks, w0)))
    /\ NoDup (id <$> fst (session demo_env demo_ops (tasks, w0))).
Proof.
  apply (session_mirrors_store demo_env demo_ops demo_world).
  - vm_compute. constructor.
  - vm_compute. reflexivity.
Defined.

(** An edit on an empty storage. *)
Lemma handleUpdateTask_refused_witness :
  fst (handleUpdateTask demo_env demo_edit [] demo_world) = Throw (Error "Task not found")
  /\ fst (handle demo_env ([], demo_world) (Update demo_edit)) = []
  /\ localStorage (snd (handle demo_env ([], demo_world) (Update demo_edit)))
     = localStorage demo_world.
Proof.
  apply (handleUpdateTask_refused demo_env demo_edit [] demo_world).
  intros t Ht. vm_compute in Ht. by apply elem_of_nil in Ht.
Defined.

(** Leaving dark mode with two stored tasks: the class goes, the other
    class and the tasks stay. *)
Lemma themeEffect_frame_witness :
  exists classList' w1,
    themeEffect false {["dark"; "compact"]} two_task_world = (Normal classList', w1)
    /\ ("dark" ∉ classList') /\ ("compact" ∈ classList')
    /\ collection w1 = collection two_task_world.
Proof.
  destruct (themeEffect_frame false {["dark"; "compact"]} two_task_world)
    as (c & w1 & E & Hd & Hc & _ & Hcol & _).
  exists c, w1. split; [exact E|]. split; [|split; [|exact Hcol]].
  - intros H. apply Hd in H. discriminate H.
  - apply Hc; [discriminate|]. apply elem_of_union_r. by apply elem_of_singleton.
Defined.

End MoreStoreExamples.

Section NavigationExamples.
Import Js App Examples.

(** From Tuesday 14 November 2023, 17:13 local time: choosing February
    shows 14 February 2023. *)
Lemma handleMonthChange_fields_witness :
  exists t',
    handleMonthChange (-18000000) (Some tuesday) (Int 1) = Some t'
    /\ getFullYear (-18000000) (Some t') = Int 2023
    /\ getMonth (-18000000) (Some t') = Int 1
    /\ getDate (-18000000) (Some t') = Int 14.
Proof.
  destruct (handleMonthChange_fields (-18000000) tuesday 1)
    as (t' & E & _ & Hy & Hin & _).
  - unfold plausible_clock, tuesday. lia.
  - unfold plausible_zone, msPerDay. lia.
  - lia.
  - exists t'. split; [exact E|].
    destruct Hin as [Hm Hd]; [vm_compute; discriminate|].
    rewrite Hy, Hm, Hd. vm_compute. repeat split.
Defined.

(** One year on is 14 November 2024, 366 days later, and one year back
    from there is the date there was. *)
Lemma handleYearChange_there_and_back_witness :
  handleYearChange (-18000000) (Some tuesday) (Int 1) = Some 1731622400000
  /\ handleYearChange (-18000000) (Some 1731622400000) (Int (-1)) = Some tuesday.
Proof.
  assert (E : handleYearChange (-18000000) (Some tuesday) (Int 1) = Some 1731622400000)
    by (vm_compute; reflexivity).
  split; [exact E|].
  destruct (handleYearChange_there_and_back (-18000000) tuesday 1 1731622400000)
    as [H _].
  - unfold maxTime, tuesday. lia.
  - exact E.
  - destruct H as (_ & _ & _ & H); [|exact H].
    vm_compute. intros [H _]. discriminate H.
Defined.

End NavigationExamples.

Section MoreDashboardExamples.
Import Js Types Dashboard Chart PieShape Examples MoreExamples.

(** The KPI scenario read backwards gives the same figures and pie. *)
Lemma kpis_order_witness :
  overdue (kpis (-18000000) (rev kpi_tasks) tuesday) = 1
  /\ weekCount (kpis (-18000000) (rev kpi_tasks) tuesday) = 4
  /\ pieData (kpis (-18000000) kpi_tasks tuesday)
     = pieData (kpis (-18000000) (rev kpi_tasks) tuesday).
Proof.
  destruct (kpis_order (-18000000) kpi_tasks (rev kpi_tasks) tuesday)
    as (_ & H2 & _ & H4 & _ & H6).
  - apply Permutation_rev.
  - rewrite <- H2, <- H4. split; [|split]; [| |exact H6];
      vm_compute; reflexivity.
Defined.

(** At 22:13 UTC in a zone five hours behind, both dates are the 14th. *)
Lemma kpis_today_in_week_witness :
  todayCount (kpis (-18000000) kpi_tasks tuesday)
  <= weekCount (kpis (-18000000) kpi_tasks tuesday).
Proof.
  apply (kpis_today_in_week (-18000000) kpi_tasks tuesday).
  - unfold plausible_clock, tuesday. lia.
  - unfold plausible_zone, msPerDay. lia.
  - vm_compute. reflexivity.
Defined.

(** The trend scenario: one creation in the window, one completed task
    dated in it. *)
Lemma lineChartData_totals_witness :
  exists data,
    lineChartData (-18000000) [recent; old_done] tuesday = Normal data
    /\ sum_created data = 1 /\ sum_completed data = 1.
Proof.
  destruct (lineChartData_totals (-18000000) (-18000000) [recent; old_done] tuesday)
    as (data & E & H1 & H2 & _).
  - unfold plausible_clock, tuesday. lia.
  - unfold plausible_zone, msPerDay. lia.
  - apply fixed_zone_steady.
  - repeat constructor; vm_compute; congruence.
  - exists data. split; [exact E|]. rewrite H1, H2. vm_compute. split; reflexivity.
Defined.

(** One unreadable record among three. *)
Lemma lineChartData_RangeError_witness :
  lineChartData (-18000000) [recent; unreadable_stamp; old_done] tuesday
  = Throw RangeError.
Proof.
  apply lineChartData_RangeError.
  apply Exists_cons_tl, Exists_cons_hd. vm_compute. intros [_ H]. by apply H.
Defined.

(** The chart of the KPI scenario, on the minimum scale. *)
Lemma chart_well_formed_witness :
  lineChartData (-18000000) kpi_tasks tuesday = Normal demo_chart
  /\ maxVal demo_chart = 5
  /\ Forall in_plot (pointsCreated demo_chart)
  /\ Forall in_plot (pointsCompleted demo_chart).
Proof.
  assert (E : lineChartData (-18000000) kpi_tasks tuesday = Normal demo_chart)
    by (vm_compute; reflexivity).
  destruct (chart_well_formed (-18000000) kpi_tasks tuesday demo_chart E)
    as (_ & _ & _ & H1 & H2 & _).
  split; [exact E|]. split; [vm_compute; reflexivity|]. by split.
Defined.

End MoreDashboardExamples.

(** * Where the offset of the zone changes *)

Section DaylightSaving.
Import Js Runtime Types TaskService Dashboard Chart App Examples MoreExamples.

(** New York, Thursday 14 March 2024, 19:30.  The loop moves the local
    date back day by day and keeps the local time, 19:30: that is 23:30
    UTC after the change of 10 March, and 0:30 UTC of the next day
    before it.  So the points for 9 and for 10 March both stand for
    10 March UTC, and one task created that day is counted twice. *)
Lemma lineChartData_daylight_saving :
  exists data p q,
    lineChartData new_york [spring_task] spring_evening = Normal data
    /\ data !! 8%nat = Some p /\ data !! 9%nat = Some q
    /\ LineChart.date p = "Mar 9" /\ LineChart.created p = 1
    /\ LineChart.date q = "Mar 10" /\ LineChart.created q = 1
    /\ sum_created data = 2.
Proof.
  destruct (lineChartData new_york [spring_task] spring_evening) as [data|e] eqn:E;
    vm_compute in E; [|discriminate E].
  injection E as <-. eexists _, _, _. split; [reflexivity|].
  vm_compute. repeat split.
Qed.

(** Five hours behind UTC, Saturday 18 November 2023, 21:00: the last
    point is labelled with the local date, 18 November, and counts the
    creations of 19 November UTC; a task created that Saturday at 10:00
    local time is under the label of the 17th. *)
Lemma lineChartData_label_day :
  exists data p q,
    lineChartData (-18000000) [saturday_task] saturday_evening = Normal data
    /\ data !! 12%nat = Some p /\ data !! 13%nat = Some q
    /\ LineChart.date p = "Nov 17" /\ LineChart.created p = 1
    /\ LineChart.date q = "Nov 18" /\ LineChart.created q = 0.
Proof.
  destruct (lineChartData (-18000000) [saturday_task] saturday_evening)
    as [data|e] eqn:E; vm_compute in E; [|discriminate E].
  injection E as <-. eexists _, _, _. split; [reflexivity|].
  vm_compute. repeat split.
Qed.

(** New York, 12 March 2024, 2:30: a year earlier that local time was
    skipped, so the view lands at 3:30, and a year later again it is
    3:30 still, an hour after the time it started from. *)
Lemma handleYearChange_daylight_saving :
  handleYearChange new_york (Some 1710225000000) (Int (-1)) = Some 1678606200000
  /\ handleYearChange new_york (Some 1678606200000) (Int 1) = Some 1710228600000.
Proof. vm_compute. split; reflexivity. Qed.

End DaylightSaving.
